(** * brainstorm.data_iterators: a shallow embedding and its properties

    The Python module builds lazy pipelines of named batches: the base
    iterators [Undivided], [Online] and [Minibatches] own a dict of
    numpy arrays, the decorators [AddGaussianNoise], [Flip], [Pad] and
    [RandomCrop] wrap another iterator and rewrite the dict it yields.

    Embedding:
    - a Python dict is a [gmap string _]; dict objects live in a heap and
      are passed by reference, because [Undivided.__call__] yields
      [self.data] itself and the decorators assign into the dict they
      receive;
    - a numpy array is a shape together with an element accessor (basic
      slices and reversed views are re-indexings of the same buffer);
      elements are exact rationals, floating-point rounding is outside the
      model;
    - an exception is the [Raise] branch of [result];
    - a generator is an explicit state with a [next] function;
    - [self.rnd] is a state of an abstract [RandomState], the interface of
      numpy.random.RandomState that the module uses.

    The attributes [total_size], [sample_size] and [verbose] and the
    progress text printed on stdout do not influence the batches and are
    left out. [math.ceil(n / k)] is the exact ceiling, which the float
    division gives for every array numpy can hold.

    The file has the embedding first, then the vocabulary of the
    statements and a scripted random source for concrete runs, then the
    properties: the validator, construction, the base iterators, the
    loops of the decorators, and pipelines on a sample dataset. *)

From Stdlib Require Import ZArith QArith Lia Lqa Sorted.
From stdpp Require Import gmap strings list fin_maps.

Open Scope nat_scope.

(** ** Exceptions *)

(** The texts of [IteratorValidationError], with the data name where the
    source formats one into the message. *)
Inductive validation_msg :=
| KeyNotPresent (key : string)        (* "key {} is not present in iterator. ..." *)
| NotNdarray (key : string)           (* "data with name {} is not a numpy.ndarray" *)
| Only5D                              (* "Only 5D data is supported" *)
| InvalidProbability                  (* "Invalid probability" *)
| PadNamesDiffer                      (* "padding sizes and values must be provided for the same data names" *)
| ShapeNotPair                        (* "Shape must be a size 2 tuple" *)
| InvalidCropHeight                   (* "Invalid crop height" *)
| InvalidCropWidth                    (* "Invalid crop width" *)
| NoShapeAttribute (name : string)    (* "{} has a wrong type. (no shape attribute)" *)
| RankBelow3                          (* "All inputs have to have at least 3 dimensions, ..." *)
| SequencesDiffer                     (* "The number of sequences of all inputs must be equal, ..." *)
| TimestepsDiffer.                    (* "The number of time steps of all inputs must be equal, ..." *)

Inductive exn :=
| IteratorValidationError (msg : validation_msg)
| AssertionError
| AttributeError
| ValueError
| KeyError
| IndexError
| TypeError
| ZeroDivisionError.

Inductive result (A : Type) :=
| Ok (a : A)
| Raise (e : exn).
Arguments Ok {A} a.
Arguments Raise {A} e.

Definition bind {A B} (m : result A) (k : A -> result B) : result B :=
  match m with
  | Ok a => k a
  | Raise e => Raise e
  end.

Notation "'let*' x ':=' m 'in' k" := (bind m (fun x => k))
  (at level 10, x name, m at level 100, k at level 200).
Notation "'let*' ' p ':=' m 'in' k" :=
  (bind m (fun x => match x with p => k end))
  (at level 10, p pattern, m at level 100, k at level 200).

Definition is_validation_error (e : exn) : bool :=
  match e with
  | IteratorValidationError _ => true
  | _ => false
  end.

(** ** numpy arrays *)

Record ndarray := mk_ndarray {
  shape : list nat;
  item : list nat -> Q
}.

(** An index addresses an element when it is below the extent on every
    axis. *)
Definition in_bounds (ix sh : list nat) : Prop := Forall2 lt ix sh.

(** [slice(start, stop).indices(n)] for step 1: the first index and the
    number of indices selected on an axis of extent [n]. *)
Definition clip_index (i : Z) (n : nat) : nat :=
  if (i <? 0)%Z then Z.to_nat (Z.max (Z.of_nat n + i) 0)
  else Nat.min (Z.to_nat i) n.

Definition slice_indices (start stop : Z) (n : nat) : nat * nat :=
  let lo := clip_index start n in
  let hi := clip_index stop n in
  (lo, hi - lo).

(** [a[:, start:stop]] *)
Definition slice_samples (start stop : Z) (a : ndarray) : result ndarray :=
  match shape a with
  | t :: b :: rest =>
      let '(lo, len) := slice_indices start stop b in
      Ok {| shape := t :: len :: rest;
            item := fun ix =>
              match ix with
              | i :: j :: r => item a (i :: (lo + j) :: r)
              | _ => item a ix
              end |}
  | _ => Raise IndexError
  end.

(** replaces the last component [j] of an index by [f j] *)
Fixpoint on_last (f : nat -> nat) (ix : list nat) : list nat :=
  match ix with
  | [] => []
  | [j] => [f j]
  | i :: r => i :: on_last f r
  end.

(** [a[..., ::-1]] *)
Definition flip_last (a : ndarray) : result ndarray :=
  match last (shape a) with
  | Some w =>
      Ok {| shape := shape a;
            item := fun ix => item a (on_last (fun j => w - 1 - j) ix) |}
  | None => Raise IndexError
  end.

(** [val * np.ones(sh)] *)
Definition full (sh : list nat) (val : Q) : ndarray :=
  {| shape := sh; item := fun _ => (val * 1)%Q |}.

(** [np.zeros(sh)] *)
Definition zeros (sh : list nat) : ndarray :=
  {| shape := sh; item := fun _ => 0%Q |}.

(** a dimension given as a Python int: numpy refuses negative ones *)
Definition as_dim (d : Z) : result nat :=
  if (d <? 0)%Z then Raise ValueError else Ok (Z.to_nat d).

(** numpy's rule for assigning [value] into a region: on every axis the
    extents agree or the value's extent is 1 (both of the same rank here) *)
Fixpoint broadcastable (value region : list nat) : bool :=
  match value, region with
  | [], [] => true
  | v :: vs, r :: rs => ((v =? r) || (v =? 1)) && broadcastable vs rs
  | _, _ => false
  end.

Fixpoint broadcast_index (value ix : list nat) : list nat :=
  match value, ix with
  | v :: vs, i :: r => (if v =? 1 then 0 else i) :: broadcast_index vs r
  | _, _ => ix
  end.

(** [target[:, :, :, r0:r1, c0:c1] = value] for a 5D [target] and a 5D
    [value] *)
Definition assign_window (target : ndarray) (r0 r1 c0 c1 : Z)
    (value : ndarray) : result ndarray :=
  match shape target with
  | [t; b; c; h; w] =>
      let '(rlo, rlen) := slice_indices r0 r1 h in
      let '(clo, clen) := slice_indices c0 c1 w in
      if broadcastable (shape value) [t; b; c; rlen; clen] then
        Ok {| shape := shape target;
              item := fun ix =>
                match ix with
                | [i; j; k; y; x] =>
                    if (rlo <=? y) && (y <? rlo + rlen)
                       && (clo <=? x) && (x <? clo + clen)
                    then item value
                           (broadcast_index (shape value)
                              [i; j; k; y - rlo; x - clo])
                    else item target ix
                | _ => item target ix
                end |}
      else Raise ValueError
  | _ => Raise IndexError
  end.

(** [a + std * noise + mean], the three arrays of one shape *)
Definition add_noise (a : ndarray) (std : Q) (noise : ndarray) (mean : Q)
    : ndarray :=
  {| shape := shape a;
     item := fun ix => (item a ix + std * item noise ix + mean)%Q |}.

(** Modelled from the spec: the crop kernel [_crop_images] of
    brainstorm.handlers._cpuop, which is not among the sources. For every
    sample, time step and channel it copies the window of size
    [(crop_h, crop_w)] that starts at that sample's row and column offsets
    into [cropped]. *)
Definition _crop_images (data : ndarray) (crop_h crop_w : nat)
    (row_indices col_indices : list Z) (cropped : ndarray) : ndarray :=
  {| shape := shape cropped;
     item := fun ix =>
       match ix with
       | [t; b; c; i; j] =>
           item data [t; b; c;
                      Z.to_nat (row_indices !!! b) + i;
                      Z.to_nat (col_indices !!! b) + j]
       | _ => item cropped ix
       end |}.

(** ** Python values bound to data names *)

Inductive pyvalue :=
| PyNdarray (a : ndarray)      (* an instance of numpy.ndarray *)
| PyArrayLike (a : ndarray)    (* has [shape] and basic slicing, but is no ndarray *)
| PyOther.                     (* an object without a [shape] attribute *)

(** [data.shape], [None] when [hasattr(data, 'shape')] is false *)
Definition py_shape (v : pyvalue) : option (list nat) :=
  match v with
  | PyNdarray a | PyArrayLike a => Some (shape a)
  | PyOther => None
  end.

(** [isinstance(v, np.ndarray)] *)
Definition is_ndarray (v : pyvalue) : bool :=
  match v with
  | PyNdarray _ => true
  | _ => false
  end.

(** [v[:, start:stop]] *)
Definition py_slice_samples (start stop : Z) (v : pyvalue) : result pyvalue :=
  match v with
  | PyNdarray a => let* a' := slice_samples start stop a in Ok (PyNdarray a')
  | PyArrayLike a => let* a' := slice_samples start stop a in Ok (PyArrayLike a')
  | PyOther => Raise TypeError
  end.

(** The decorators compute with numpy; what a foreign array-like does under
    these operations is outside the model, and construction rejects it. *)
Definition as_ndarray (v : pyvalue) : result ndarray :=
  match v with
  | PyNdarray a => Ok a
  | _ => Raise TypeError
  end.

(** ** Dicts and the heap of dict objects *)

Abbreviation pydict := (gmap string pyvalue).

Abbreviation ref := nat.
Abbreviation heap := (list pydict).

(** the dict object behind a reference *)
Definition deref (h : heap) (r : ref) : pydict := default ∅ (h !! r).

(** [d[name]] *)
Definition getitem {V} (d : gmap string V) (name : string) : result V :=
  match d !! name with
  | Some v => Ok v
  | None => Raise KeyError
  end.

(** [d[name] = v] on the dict object [r] *)
Definition setitem (h : heap) (r : ref) (name : string) (v : pyvalue) : heap :=
  <[r := <[name := v]> (deref h r)]> h.

(** a new dict object *)
Definition alloc (h : heap) (d : pydict) : ref * heap :=
  (length h, h ++ [d]).

Fixpoint mapM {A B} (f : A -> result B) (l : list A) : result (list B) :=
  match l with
  | [] => Ok []
  | x :: r => let* y := f x in let* ys := mapM f r in Ok (y :: ys)
  end.

Definition to_option {A} (r : result A) : option A :=
  match r with
  | Ok a => Some a
  | Raise _ => None
  end.

(** [{k: f(v) for k, v in d.items()}]: [f] runs on the items in turn and
    the first exception ends the comprehension; otherwise every key is
    bound to the value [f] computed for it *)
Definition dict_comprehension (f : pyvalue -> result pyvalue) (d : pydict)
    : result pydict :=
  let* _ := mapM (fun kv : string * pyvalue => f kv.2) (map_to_list d) in
  Ok (omap (fun v => to_option (f v)) d).

(** a loop [for key in cfg.keys(): body] that threads a state and stops at
    the first exception *)
Fixpoint for_each {C S} (body : string -> C -> S -> result S)
    (items : list (string * C)) (s : S) : result S :=
  match items with
  | [] => Ok s
  | (key, c) :: rest => let* s' := body key c s in for_each body rest s'
  end.

(** ** The random source

    [Seedable] (brainstorm.randomness, not among the sources) gives every
    iterator its own numpy RandomState in [self.rnd]. The class lists the
    methods the module calls, with what numpy documents about their
    results; an element of [R] is a state of the generator, and the [seed]
    argument of a constructor is the state that seed produces. *)
Class RandomState (R : Type) := {
  (* rnd.shuffle(indices): the permuted indices *)
  shuffle : R -> list nat -> list nat * R;
  (* rnd.random_sample(): a float of the half-open interval [0, 1) *)
  random_sample : R -> Q * R;
  (* rnd.random_integers(low, high, size): size integers of [low, high] *)
  random_integers : R -> Z -> Z -> nat -> list Z * R;
  (* rnd.standard_normal(shape): an array of that shape *)
  standard_normal : R -> list nat -> ndarray * R;
  shuffle_Permutation : forall s l, (shuffle s l).1 ≡ₚ l;
  random_sample_range : forall s,
    (0 <= (random_sample s).1)%Q /\ ((random_sample s).1 < 1)%Q;
  random_integers_length : forall s low high size,
    length (random_integers s low high size).1 = size;
  random_integers_range : forall s low high size,
    (low <= high)%Z ->
    Forall (fun x => (low <= x <= high)%Z) (random_integers s low high size).1;
  standard_normal_shape : forall s sh, shape (standard_normal s sh).1 = sh
}.

(** ** The shape validator *)

(** the loop of [_assert_correct_data_format]: the sample extents and the
    time extents, by item. The items come in the order of the map; when
    two entries are at fault, the one that Python meets first in its own
    order of the dict is the one reported there. *)
Fixpoint collect_extents (items : list (string * pyvalue))
    : result (list nat * list nat) :=
  match items with
  | [] => Ok ([], [])
  | (name, data) :: rest =>
      match py_shape data with
      | None => Raise (IteratorValidationError (NoShapeAttribute name))
      | Some sh =>
          if length sh <? 3 then Raise (IteratorValidationError RankBelow3)
          else
            let* '(nr_sequences, nr_timesteps) := collect_extents rest in
            Ok (sh !!! 1 :: nr_sequences, sh !!! 0 :: nr_timesteps)
      end
  end.

(** [min(values)] and [max(values)]: a ValueError on an empty sequence *)
Definition py_min (l : list nat) : result nat :=
  match l with
  | [] => Raise ValueError
  | x :: r => Ok (foldr Nat.min x r)
  end.

Definition py_max (l : list nat) : result nat :=
  match l with
  | [] => Raise ValueError
  | x :: r => Ok (foldr Nat.max x r)
  end.

Definition _assert_correct_data_format (named_data : pydict) : result nat :=
  let* '(nr_sequences, nr_timesteps) :=
    collect_extents (map_to_list named_data) in
  let* lo := py_min nr_sequences in
  let* hi := py_max nr_sequences in
  if negb (lo =? hi) then Raise (IteratorValidationError SequencesDiffer)
  else
    let* lo_t := py_min nr_timesteps in
    let* hi_t := py_max nr_timesteps in
    if negb (lo_t =? hi_t) then Raise (IteratorValidationError TimestepsDiffer)
    else py_min nr_sequences.

Section Iterators.

Context {R : Type} `{RandomState R}.

(** ** Iterator objects

    One constructor per class, with the attributes [__init__] stores. An
    iterator object is held by at most one wrapper, so the wrapped object
    is a component of the wrapper; the dataset is a reference into the
    heap. *)
Inductive iterator :=
| Undivided (data : ref)
| Online (rnd : R) (nr_sequences : nat) (data : ref) (shuffle : bool)
| Minibatches (rnd : R) (nr_sequences : nat) (data : ref) (shuffle : bool)
    (batch_size : Z)
| AddGaussianNoise (rnd : R) (mean_dict std_dict : gmap string Q)
    (iter : iterator)
| Flip (rnd : R) (prob_dict : gmap string Q) (iter : iterator)
| Pad (rnd : R) (value_dict : gmap string Q) (size_dict : gmap string Z)
    (iter : iterator)
| RandomCrop (rnd : R) (shape_dict : gmap string (list Z)) (iter : iterator).

Definition is_decorator (it : iterator) : bool :=
  match it with
  | Undivided _ | Online _ _ _ _ | Minibatches _ _ _ _ _ => false
  | _ => true
  end.

(** [it.data_names]: every class sets it, the decorators to the inner
    iterator's; it is the key view of the base dataset *)
Fixpoint data_names (it : iterator) : ref :=
  match it with
  | Undivided data | Online _ _ data _ | Minibatches _ _ data _ _ => data
  | AddGaussianNoise _ _ _ iter | Flip _ _ iter | Pad _ _ _ iter
  | RandomCrop _ _ iter => data_names iter
  end.

(** [it.data]: only the base classes set this attribute *)
Definition get_data (it : iterator) : result ref :=
  match it with
  | Undivided data | Online _ _ data _ | Minibatches _ _ data _ _ => Ok data
  | _ => Raise AttributeError
  end.

(** *** Base iterators *)

(** [total_size] (line 263) reads [d.size] of every value and is not
    used again in the module; the values of the model that have a [shape]
    are taken to have a [size] too, as numpy arrays do. *)
Definition Undivided_init (named_data : pydict) (h : heap)
    : result (iterator * heap) :=
  let* _ := _assert_correct_data_format named_data in
  let '(data, h') := alloc h named_data in
  Ok (Undivided data, h').

Definition Online_init (shuffle : bool) (seed : R) (named_data : pydict)
    (h : heap) : result (iterator * heap) :=
  let* nr_sequences := _assert_correct_data_format named_data in
  let '(data, h') := alloc h named_data in
  Ok (Online seed nr_sequences data shuffle, h').

Definition Minibatches_init (batch_size : Z) (shuffle : bool) (seed : R)
    (named_data : pydict) (h : heap) : result (iterator * heap) :=
  let* nr_sequences := _assert_correct_data_format named_data in
  let '(data, h') := alloc h named_data in
  Ok (Minibatches seed nr_sequences data shuffle batch_size, h').

(** *** Decorators *)

(** [if key not in iter.data.keys(): raise ...], then [iter.data[key]] *)
Definition lookup_inner (iter : iterator) (h : heap) (key : string)
    : result pyvalue :=
  let* data := get_data iter in
  match deref h data !! key with
  | None => Raise (IteratorValidationError (KeyNotPresent key))
  | Some v => Ok v
  end.

Definition require (b : bool) (e : exn) : result unit :=
  if b then Ok tt else Raise e.

Definition AddGaussianNoise_init (iter : iterator) (std_dict : gmap string Q)
    (mean_dict : option (gmap string Q)) (seed : R) (h : heap)
    : result iterator :=
  let _ := data_names iter in
  let* _ := match mean_dict with
            | Some m => require (bool_decide (dom m = dom std_dict))
                          AssertionError
            | None => Ok tt
            end in
  let* _ := for_each (fun key (_ : Q) (_ : unit) =>
                let* v := lookup_inner iter h key in
                require (is_ndarray v)
                  (IteratorValidationError (NotNdarray key)))
              (map_to_list std_dict) tt in
  Ok (AddGaussianNoise seed (default ∅ mean_dict) std_dict iter).

Definition Flip_init (iter : iterator) (prob_dict : option (gmap string Q))
    (seed : R) (h : heap) : result iterator :=
  let _ := data_names iter in
  let prob_dict := default {[ "default"%string := (1 # 2)%Q ]} prob_dict in
  let* _ := for_each (fun key (p : Q) (_ : unit) =>
                let* v := lookup_inner iter h key in
                let* _ := require
                  (negb (if Qlt_le_dec 1 p then true
                         else if Qlt_le_dec p 0 then true else false))
                  (IteratorValidationError InvalidProbability) in
                let* _ := require (is_ndarray v)
                  (IteratorValidationError (NotNdarray key)) in
                require (bool_decide (length <$> py_shape v = Some 5))
                  (IteratorValidationError Only5D))
              (map_to_list prob_dict) tt in
  Ok (Flip seed prob_dict iter).

Definition Pad_init (iter : iterator) (size_dict : gmap string Z)
    (value_dict : option (gmap string Q)) (seed : R) (h : heap)
    : result iterator :=
  let _ := data_names iter in
  let* _ := match value_dict with
            | Some v => require (bool_decide (dom size_dict = dom v))
                          (IteratorValidationError PadNamesDiffer)
            | None => Ok tt
            end in
  let* _ := for_each (fun key (_ : Z) (_ : unit) =>
                let* v := lookup_inner iter h key in
                let* _ := require (is_ndarray v)
                  (IteratorValidationError (NotNdarray key)) in
                require (bool_decide (length <$> py_shape v = Some 5))
                  (IteratorValidationError Only5D))
              (map_to_list size_dict) tt in
  Ok (Pad seed (default ∅ value_dict) size_dict iter).

Definition RandomCrop_init (iter : iterator)
    (shape_dict : gmap string (list Z)) (seed : R) (h : heap)
    : result iterator :=
  let _ := data_names iter in
  let* _ := for_each (fun key (val : list Z) (_ : unit) =>
                let* v := lookup_inner iter h key in
                let* _ := require (is_ndarray v)
                  (IteratorValidationError (NotNdarray key)) in
                let* _ := require
                  (bool_decide (length <$> py_shape v = Some 5))
                  (IteratorValidationError Only5D) in
                let* _ := require (length val =? 2)
                  (IteratorValidationError ShapeNotPair) in
                let data_shape := default [] (py_shape v) in
                let* _ := require
                  (negb ((Z.of_nat (data_shape !!! 3%nat) <? val !!! 0%nat)%Z
                         || (val !!! 0%nat <? 0)%Z))
                  (IteratorValidationError InvalidCropHeight) in
                require
                  (negb ((Z.of_nat (data_shape !!! 4%nat) <? val !!! 1%nat)%Z
                         || (val !!! 1%nat <? 0)%Z))
                  (IteratorValidationError InvalidCropWidth))
              (map_to_list shape_dict) tt in
  Ok (RandomCrop seed shape_dict iter).

(** ** Generators

    Calling an iterator makes a generator object and runs nothing; the
    body runs from one [yield] to the next when the consumer asks for a
    batch. A generator state keeps the attributes of its iterator, whose
    [rnd] advances as the body draws from it, and the place where the body
    is suspended. *)

Inductive progress :=
| NotStarted                        (* before the first [next] *)
| Pending (indices : list nat).     (* inside the loop over [indices] *)

Inductive generator :=
| GUndivided (data : ref) (fresh : bool)
| GOnline (rnd : R) (nr_sequences : nat) (data : ref) (shuffle : bool)
    (pc : progress)
| GMinibatches (rnd : R) (nr_sequences : nat) (data : ref) (shuffle : bool)
    (batch_size : Z) (pc : progress)
| GAddGaussianNoise (rnd : R) (mean_dict std_dict : gmap string Q)
    (inner : generator)
| GFlip (rnd : R) (prob_dict : gmap string Q) (inner : generator)
| GPad (rnd : R) (value_dict : gmap string Q) (size_dict : gmap string Z)
    (inner : generator)
| GRandomCrop (rnd : R) (shape_dict : gmap string (list Z))
    (inner : generator).

(** [it(handler, verbose)]; a decorator makes the inner generator when its
    own body starts, which has no effect of its own *)
Fixpoint call (it : iterator) : generator :=
  match it with
  | Undivided data => GUndivided data true
  | Online rnd n data sh => GOnline rnd n data sh NotStarted
  | Minibatches rnd n data sh k => GMinibatches rnd n data sh k NotStarted
  | AddGaussianNoise rnd m s iter => GAddGaussianNoise rnd m s (call iter)
  | Flip rnd p iter => GFlip rnd p (call iter)
  | Pad rnd v s iter => GPad rnd v s (call iter)
  | RandomCrop rnd s iter => GRandomCrop rnd s (call iter)
  end.

(** the iterator object as the generator leaves it *)
Fixpoint self_of (g : generator) : iterator :=
  match g with
  | GUndivided data _ => Undivided data
  | GOnline rnd n data sh _ => Online rnd n data sh
  | GMinibatches rnd n data sh k _ => Minibatches rnd n data sh k
  | GAddGaussianNoise rnd m s inner => AddGaussianNoise rnd m s (self_of inner)
  | GFlip rnd p inner => Flip rnd p (self_of inner)
  | GPad rnd v s inner => Pad rnd v s (self_of inner)
  | GRandomCrop rnd s inner => RandomCrop rnd s (self_of inner)
  end.

(** [np.arange(m)] *)
Definition arange (m : Z) : list nat := seq 0 (Z.to_nat m).

(** [int(math.ceil(n / k))] for a non-zero [k] *)
Definition ceil_div (n k : Z) : Z := (- ((- n) / k))%Z.

(** [if self.shuffle: self.rnd.shuffle(indices)] *)
Definition maybe_shuffle (sh : bool) (rnd : R) (indices : list nat)
    : list nat * R :=
  if sh then shuffle rnd indices else (indices, rnd).

(** [{k: v[:, start:stop] for k, v in self.data.items()}], a new dict *)
Definition slice_batch (start stop : Z) (data : ref) (h : heap)
    : result (ref * heap) :=
  let* batch :=
    dict_comprehension (py_slice_samples start stop) (deref h data) in
  Ok (alloc h batch).

(** *** The loop bodies of the decorators, for one configured name *)

Definition AddGaussianNoise_body (mean_dict : gmap string Q) (data : ref)
    (key : string) (std : Q) (s : R * heap) : result (R * heap) :=
  let '(rnd, h) := s in
  let mean := default 0%Q (mean_dict !! key) in
  let* v := getitem (deref h data) key in
  let* a := as_ndarray v in
  let '(noise, rnd') := standard_normal rnd (shape a) in
  Ok (rnd', setitem h data key (PyNdarray (add_noise a std noise mean))).

Definition Flip_body (data : ref) (name : string) (prob : Q) (s : R * heap)
    : result (R * heap) :=
  let '(rnd, h) := s in
  let '(x, rnd') := random_sample rnd in
  if Qlt_le_dec x prob then
    let* v := getitem (deref h data) name in
    let* a := as_ndarray v in
    let* a' := flip_last a in
    Ok (rnd', setitem h data name (PyNdarray a'))
  else Ok (rnd', h).

(** [pad_array size val a]: the array [Pad] puts in place of [a] *)
Definition pad_array (size : Z) (val : Q) (a : ndarray) : result ndarray :=
  match shape a with
  | [t; b; c; hh; w] =>
      let* hh' := as_dim (Z.of_nat hh + 2 * size) in
      let* w' := as_dim (Z.of_nat w + 2 * size) in
      let new_data := full [t; b; c; hh'; w'] val in
      assign_window new_data size (- size) size (- size) a
  | _ => Raise ValueError
  end.

Definition Pad_body (value_dict : gmap string Q) (data : ref) (name : string)
    (size : Z) (s : R * heap) : result (R * heap) :=
  let '(rnd, h) := s in
  let* v := getitem (deref h data) name in
  let* a := as_ndarray v in
  let val := default 0%Q (value_dict !! name) in
  let* new_data := pad_array size val a in
  Ok (rnd, setitem h data name (PyNdarray new_data)).

(** numpy raises a ValueError when [low > high] *)
Definition py_random_integers (rnd : R) (low high : Z) (size : nat)
    : result (list Z * R) :=
  if (high <? low)%Z then Raise ValueError
  else Ok (random_integers rnd low high size).

(** [crop_array crop a rnd]: the array [RandomCrop] puts in place of [a],
    with the offsets drawn *)
Definition crop_array (crop : list Z) (a : ndarray) (rnd : R)
    : result (ndarray * list Z * list Z * R) :=
  match crop with
  | [crop_h; crop_w] =>
      match shape a with
      | [t; b; c; hh; w] =>
          let max_r := (Z.of_nat hh - crop_h)%Z in
          let max_c := (Z.of_nat w - crop_w)%Z in
          let* '(row_indices, rnd1) := py_random_integers rnd 0 max_r b in
          let* '(col_indices, rnd2) := py_random_integers rnd1 0 max_c b in
          let* ch := as_dim crop_h in
          let* cw := as_dim crop_w in
          let cropped := zeros [t; b; c; ch; cw] in
          Ok (_crop_images a ch cw row_indices col_indices cropped,
              row_indices, col_indices, rnd2)
      | sh => Raise (if length sh <? 5 then IndexError else ValueError)
      end
  | _ => Raise ValueError
  end.

Definition RandomCrop_body (data : ref) (name : string) (crop : list Z)
    (s : R * heap) : result (R * heap) :=
  let '(rnd, h) := s in
  let* _ := require (length crop =? 2) ValueError in
  let* v := getitem (deref h data) name in
  let* a := as_ndarray v in
  let* '(cropped, _, _, rnd') := crop_array crop a rnd in
  Ok (rnd', setitem h data name (PyNdarray cropped)).

(** *** Advancing a generator

    [next g h] runs the body to its next [yield]: [Some data] is the dict
    object yielded, [None] is StopIteration. *)
Fixpoint next (g : generator) (h : heap)
    : result (option ref * generator * heap) :=
  match g with
  | GUndivided data true => Ok (Some data, GUndivided data false, h)
  | GUndivided data false => Ok (None, g, h)
  | GOnline rnd n data sh pc =>
      let '(indices, rnd') :=
        match pc with
        | NotStarted => maybe_shuffle sh rnd (arange (Z.of_nat n))
        | Pending indices => (indices, rnd)
        end in
      match indices with
      | [] => Ok (None, GOnline rnd' n data sh (Pending []), h)
      | idx :: rest =>
          let* '(batch, h') :=
            slice_batch (Z.of_nat idx) (Z.of_nat idx + 1) data h in
          Ok (Some batch, GOnline rnd' n data sh (Pending rest), h')
      end
  | GMinibatches rnd n data sh k pc =>
      let* '(indices, rnd') :=
        match pc with
        | NotStarted =>
            if (k =? 0)%Z then Raise ZeroDivisionError
            else Ok (maybe_shuffle sh rnd (arange (ceil_div (Z.of_nat n) k)))
        | Pending indices => Ok (indices, rnd)
        end in
      match indices with
      | [] => Ok (None, GMinibatches rnd' n data sh k (Pending []), h)
      | idx :: rest =>
          let* '(batch, h') :=
            slice_batch (Z.of_nat idx * k) ((Z.of_nat idx + 1) * k) data h in
          Ok (Some batch, GMinibatches rnd' n data sh k (Pending rest), h')
      end
  | GAddGaussianNoise rnd mean_dict std_dict inner =>
      let* '(o, inner', h1) := next inner h in
      match o with
      | None => Ok (None, GAddGaussianNoise rnd mean_dict std_dict inner', h1)
      | Some data =>
          let* '(rnd', h2) :=
            for_each (AddGaussianNoise_body mean_dict data)
              (map_to_list std_dict) (rnd, h1) in
          Ok (Some data, GAddGaussianNoise rnd' mean_dict std_dict inner', h2)
      end
  | GFlip rnd prob_dict inner =>
      let* '(o, inner', h1) := next inner h in
      match o with
      | None => Ok (None, GFlip rnd prob_dict inner', h1)
      | Some data =>
          let* '(rnd', h2) :=
            for_each (Flip_body data) (map_to_list prob_dict) (rnd, h1) in
          Ok (Some data, GFlip rnd' prob_dict inner', h2)
      end
  | GPad rnd value_dict size_dict inner =>
      let* '(o, inner', h1) := next inner h in
      match o with
      | None => Ok (None, GPad rnd value_dict size_dict inner', h1)
      | Some data =>
          let* '(rnd', h2) :=
            for_each (Pad_body value_dict data) (map_to_list size_dict)
              (rnd, h1) in
          Ok (Some data, GPad rnd' value_dict size_dict inner', h2)
      end
  | GRandomCrop rnd shape_dict inner =>
      let* '(o, inner', h1) := next inner h in
      match o with
      | None => Ok (None, GRandomCrop rnd shape_dict inner', h1)
      | Some data =>
          let* '(rnd', h2) :=
            for_each (RandomCrop_body data) (map_to_list shape_dict)
              (rnd, h1) in
          Ok (Some data, GRandomCrop rnd' shape_dict inner', h2)
      end
  end.

(** the consumer takes up to [n] batches and looks at each when it is
    yielded *)
Fixpoint pull (n : nat) (g : generator) (h : heap)
    : result (list pydict * generator * heap) :=
  match n with
  | 0 => Ok ([], g, h)
  | S n' =>
      let* '(o, g1, h1) := next g h in
      match o with
      | None => Ok ([], g1, h1)
      | Some data =>
          let* '(batches, g2, h2) := pull n' g1 h1 in
          Ok (deref h1 data :: batches, g2, h2)
      end
  end.

(** a bound on the batches a generator can still yield *)
Fixpoint remaining (g : generator) : nat :=
  match g with
  | GUndivided _ fresh => if fresh then 1 else 0
  | GOnline _ n _ _ NotStarted => n
  | GMinibatches _ n _ _ k NotStarted => Z.to_nat (ceil_div (Z.of_nat n) k)
  | GOnline _ _ _ _ (Pending l) | GMinibatches _ _ _ _ _ (Pending l) =>
      length l
  | GAddGaussianNoise _ _ _ inner | GFlip _ _ inner | GPad _ _ _ inner
  | GRandomCrop _ _ inner => remaining inner
  end.

(** [list(it(handler))]: one invocation consumed to StopIteration; the
    result has the batches, the iterator as the pass leaves it, and the
    heap *)
Definition run (it : iterator) (h : heap)
    : result (list pydict * iterator * heap) :=
  let* '(batches, g, h') := pull (S (remaining (call it))) (call it) h in
  Ok (batches, self_of g, h').

End Iterators.

Arguments iterator R : clear implicits.
Arguments generator R : clear implicits.

(** ** The progress reporter

    [progress_bar] and [silence] are generators driven with [send]; the
    base iterators print what they yield. Two things are outside the
    model and are parameters: [scale progress maximum n] is the float
    expression [math.trunc(progress / maximum * n)], and [elapsed] is the
    text of the time the clock shows when the bar is complete. The
    suffix is given by what [suffix.format] makes of that text. *)

(** [s[i:j]] on a string *)
Definition py_substring (i j : Z) (s : string) : string :=
  let '(lo, len) := slice_indices i j (String.length s) in
  String.substring lo len s.

(** where [progress_bar] is suspended *)
Inductive bar_state :=
| BarFresh            (* not started *)
| BarLoop (i : Z)     (* at [progress = yield out] in the loop *)
| BarFinal            (* at the last [yield] *)
| BarDone.            (* returned *)

Section ProgressReporter.

Variable scale : Z -> Z -> nat -> Z.
Variable elapsed : string.

(** [p_bar.send(progress)], and [next(p_bar)] for [progress = None]; the
    result [None] is StopIteration *)
Definition progress_bar_send (maximum : Z) (prefix bar : string)
    (suffix : string -> string) (st : bar_state) (progress : option Z)
    : result (option string * bar_state) :=
  match st, progress with
  | BarFresh, None =>
      if (0 <? Z.of_nat (String.length bar))%Z
      then Ok (Some prefix, BarLoop 0)
      else Ok (Some (String.append prefix (suffix elapsed)), BarFinal)
  | BarFresh, Some _ => Raise TypeError
  | BarLoop i, None => Raise TypeError
  | BarLoop i, Some progress =>
      if (maximum =? 0)%Z then Raise ZeroDivisionError
      else
        let j := scale progress maximum (String.length bar) in
        let out := py_substring i j bar in
        if (j <? Z.of_nat (String.length bar))%Z
        then Ok (Some out, BarLoop j)
        else Ok (Some (String.append out (suffix elapsed)), BarFinal)
  | BarFinal, _ | BarDone, _ => Ok (None, BarDone)
  end.

(** the reporter of a pass: [progress_bar(maximum)] with its default
    prefix, bar and suffix, or [silence()] *)
Inductive reporter :=
| Bar (maximum : Z) (st : bar_state)
| Silence.

Definition default_prefix : string := "[".
Definition default_bar : string :=
  "====1====2====3====4====5====6====7====8====9====0".
Definition default_suffix (e : string) : string :=
  String.append "] Took: "
    (String.append e (String (Ascii.ascii_of_nat 10) EmptyString)).

Definition reporter_send (r : reporter) (progress : option Z)
    : result (option string * reporter) :=
  match r with
  | Bar maximum st =>
      let* '(out, st') :=
        progress_bar_send maximum default_prefix default_bar default_suffix
          st progress in
      Ok (out, Bar maximum st')
  | Silence => Ok (Some ""%string, Silence)
  end.

(** [(self.verbose is None and verbose) or self.verbose], as a truth
    value; [self.verbose] is [None], [True] or [False] *)
Definition wants_progress (self_verbose : option bool) (verbose : bool)
    : bool :=
  (match self_verbose with None => true | Some _ => false end && verbose)
  || match self_verbose with Some b => b | None => false end.

(** the reporter [__call__] picks *)
Definition pick_reporter (self_verbose : option bool) (verbose : bool)
    (nr_sequences : nat) : reporter :=
  if wants_progress self_verbose verbose
  then Bar (Z.of_nat nr_sequences) BarFresh
  else Silence.

(** the text of [print(p_bar.send(x), end='')] for [x] in [sends], one
    after the other; [None] when the reporter raises StopIteration *)
Fixpoint print_sends (r : reporter) (sends : list Z)
    : result (option (string * reporter)) :=
  match sends with
  | [] => Ok (Some (""%string, r))
  | x :: rest =>
      let* '(out, r1) := reporter_send r (Some x) in
      match out with
      | None => Ok None
      | Some text =>
          let* o := print_sends r1 rest in
          match o with
          | None => Ok None
          | Some (more, r2) => Ok (Some (String.append text more, r2))
          end
      end
  end.

(** what a pass consumed to its end prints: [next(p_bar)] before the
    first batch, then [p_bar.send(...)] after every batch *)
Definition pass_stdout (r : reporter) (sends : list Z)
    : result (option string) :=
  let* '(out, r1) := reporter_send r None in
  match out with
  | None => Ok None
  | Some first =>
      let* o := print_sends r1 sends in
      match o with
      | None => Ok None
      | Some (more, _) => Ok (Some (String.append first more))
      end
  end.

(** [Online.__call__] sends [i + 1] after batch [i] *)
Definition Online_stdout (self_verbose : option bool) (verbose : bool)
    (nr_sequences : nat) : result (option string) :=
  pass_stdout (pick_reporter self_verbose verbose nr_sequences)
    (map (fun i : nat => (Z.of_nat i + 1)%Z) (seq 0 nr_sequences)).

(** [Minibatches.__call__] sends [(i + 1) * batch_size] after batch [i];
    with [batch_size = 0] the division for the number of blocks fails
    right after the first print *)
Definition Minibatches_stdout (self_verbose : option bool) (verbose : bool)
    (nr_sequences : nat) (batch_size : Z) : result (option string) :=
  if (batch_size =? 0)%Z then Raise ZeroDivisionError
  else
    pass_stdout (pick_reporter self_verbose verbose nr_sequences)
      (map (fun i : nat => ((Z.of_nat i + 1) * batch_size)%Z)
         (seq 0 (Z.to_nat (ceil_div (Z.of_nat nr_sequences) batch_size)))).

End ProgressReporter.

(** ** Concrete data for the examples *)

(** a dataset with one array "default" of shape (1, 3, 1, 2, 2) whose
    element at an index is the sum of the index *)
Definition sample_array : ndarray :=
  {| shape := [1; 3; 1; 2; 2];
     item := fun ix => inject_Z (Z.of_nat (sum_list ix)) |}.

Definition sample_data : pydict :=
  {[ "default"%string := PyNdarray sample_array ]}.

(** an array of shape (2, 3), which has no feature axis *)
Definition flat_array : ndarray :=
  {| shape := [2; 3]; item := fun _ => 0%Q |}.

(** ** Vocabulary of the statements *)

(** the sample extent of every array of a batch is [e] *)
Definition sample_extent_is (e : nat) (batch : pydict) : Prop :=
  map_Forall (fun _ v => exists sh, py_shape v = Some sh /\ sh !! 1 = Some e)
    batch.

(** the batch [{k: v[:, start:stop] for k, v in d.items()}] *)
Definition slice_dict (start stop : Z) (d : pydict) : pydict :=
  omap (fun v => to_option (py_slice_samples start stop v)) d.

(** every array can be sliced along its second axis *)
Definition sliceable (d : pydict) : Prop :=
  forall name v, d !! name = Some v ->
    exists t b rest, py_shape v = Some (t :: b :: rest).

(** the batches that the loop of [Online] yields for the indices [l] *)
Definition Online_batches (d : pydict) (l : list nat) : list pydict :=
  map (fun idx : nat => slice_dict (Z.of_nat idx) (Z.of_nat idx + 1) d) l.

(** the batches that the loop of [Minibatches] yields for the blocks [l] *)
Definition Minibatches_batches (k : Z) (d : pydict) (l : list nat)
    : list pydict :=
  map (fun idx : nat =>
         slice_dict (Z.of_nat idx * k) ((Z.of_nat idx + 1) * k) d) l.

(** the sample extent of the batch cut for block [idx] out of [blocks]
    blocks of [k] samples over [n] samples *)
Definition block_extent (n : nat) (k : Z) (blocks idx : nat) : nat :=
  if S idx =? blocks
  then Z.to_nat (if (Z.of_nat n mod k =? 0)%Z then k else Z.of_nat n mod k)
  else Z.to_nat k.

(** what a batch cut out of the dataset looks like: the same names, and
    for every name the array of the dataset with its sample extent
    replaced by [extent] *)
Definition batch_of (named_data : pydict) (totalSamples extent : nat)
    (batch : pydict) : Prop :=
  dom batch = dom named_data /\
  forall name v, named_data !! name = Some v ->
    exists T rest v',
      py_shape v = Some (T :: totalSamples :: rest) /\
      batch !! name = Some v' /\
      py_shape v' = Some (T :: extent :: rest).

(** a step that leaves every dict object alone except for the name [k] of
    the dict object [data] *)
Definition only_name (data : ref) (k : string) (h h' : heap) : Prop :=
  length h' = length h /\
  (forall r, r <> data -> h' !! r = h !! r) /\
  (forall k', k' <> k -> deref h' data !! k' = deref h data !! k').

(** [a'] is [a] reversed along its last axis *)
Definition reversed_last (a a' : ndarray) : Prop :=
  shape a' = shape a /\
  exists w, last (shape a) = Some w /\
    forall pre j, j < w -> item a' (pre ++ [j]) = item a (pre ++ [w - 1 - j]).

(** what the loop of [Flip] does to the value bound to a name configured
    with the probability 1 or 0, where the draw does not matter; for any
    probability, see [Flip_step] *)
Definition Flip_post (name : string) (p : Q) (v v' : option pyvalue) : Prop :=
  ((p == 1)%Q ->
     exists a a', v = Some (PyNdarray a) /\ v' = Some (PyNdarray a') /\
       reversed_last a a') /\
  ((p == 0)%Q -> v' = v).

(** [a'] is cut out of the 5D array [a] with one window of [ch] by [cw]
    per sample: the offsets [rows] and [cols] have one entry per sample,
    each within the range that keeps the window inside the image, and the
    window of a sample is the same for all its time steps and channels *)
Definition cropped_from (ch cw : Z) (a a' : ndarray) : Prop :=
  exists t b c hh w rows cols,
    shape a = [t; b; c; hh; w] /\
    shape a' = [t; b; c; Z.to_nat ch; Z.to_nat cw] /\
    length rows = b /\ length cols = b /\
    Forall (fun r => (0 <= r <= Z.of_nat hh - ch)%Z) rows /\
    Forall (fun x => (0 <= x <= Z.of_nat w - cw)%Z) cols /\
    (forall bi i j, bi < b -> i < Z.to_nat ch -> j < Z.to_nat cw ->
       Z.to_nat (rows !!! bi) + i < hh /\ Z.to_nat (cols !!! bi) + j < w) /\
    (forall ti bi ci i j,
       item a' [ti; bi; ci; i; j]
       = item a [ti; bi; ci;
                 Z.to_nat (rows !!! bi) + i; Z.to_nat (cols !!! bi) + j]).

(** what the loop of [RandomCrop] does to the value bound to a configured
    name *)
Definition RandomCrop_post (name : string) (crop : list Z)
    (v v' : option pyvalue) : Prop :=
  exists ch cw a a',
    crop = [ch; cw] /\ v = Some (PyNdarray a) /\ v' = Some (PyNdarray a') /\
    cropped_from ch cw a a'.

(** what it needs: a 5D array at least as large as the crop shape *)
Definition RandomCrop_pre (name : string) (crop : list Z)
    (v : option pyvalue) : Prop :=
  exists ch cw a t b c hh w,
    crop = [ch; cw] /\ v = Some (PyNdarray a) /\
    shape a = [t; b; c; hh; w] /\
    (0 <= ch <= Z.of_nat hh)%Z /\ (0 <= cw <= Z.of_nat w)%Z.

(** [a'] is the 5D array [a] with a border of [s] cells of value [val]
    around the last two axes *)
Definition padded_from (s : nat) (val : Q) (a a' : ndarray) : Prop :=
  exists t b c hh w,
    shape a = [t; b; c; hh; w] /\
    shape a' = [t; b; c; hh + 2 * s; w + 2 * s] /\
    (forall ti bi ci i j,
       ti < t -> bi < b -> ci < c -> i < hh -> j < w ->
       item a' [ti; bi; ci; s + i; s + j] = item a [ti; bi; ci; i; j]) /\
    (forall ti bi ci y x,
       y < s \/ hh + s <= y \/ x < s \/ w + s <= x ->
       (item a' [ti; bi; ci; y; x] == val)%Q).

(** what the loop of [Pad] does to the value bound to a configured name,
    for a positive pad size *)
Definition Pad_post (value_dict : gmap string Q) (name : string) (size : Z)
    (v v' : option pyvalue) : Prop :=
  (0 < size)%Z ->
  exists a a',
    v = Some (PyNdarray a) /\ v' = Some (PyNdarray a') /\
    padded_from (Z.to_nat size) (default 0%Q (value_dict !! name)) a a'.

(** the array [a'] holds the samples [first, first + 1, ...] of [a] *)
Definition samples_from (first : nat) (a a' : ndarray) : Prop :=
  forall i j r, item a' (i :: j :: r) = item a (i :: first + j :: r).

(** the checks of the constructors on one configured name: it is bound
    to a numpy array, and to one of rank 5 *)
Definition check_ndarray {R} (it : iterator R) (h : heap) (key : string)
    : result unit :=
  let* v := lookup_inner it h key in
  require (is_ndarray v) (IteratorValidationError (NotNdarray key)).

Definition check_ndarray_5d {R} (it : iterator R) (h : heap) (key : string)
    : result unit :=
  let* v := lookup_inner it h key in
  let* _ := require (is_ndarray v)
    (IteratorValidationError (NotNdarray key)) in
  require (bool_decide (length <$> py_shape v = Some 5))
    (IteratorValidationError Only5D).

(** *** The steps of the loops, with their draws

    A step takes the random source from the state [r] to the state [r']
    and the value [v] bound to its name to [v']. *)

(** the step of [AddGaussianNoise]: the noise is the array that
    [standard_normal] draws in the state [r] for the shape of the
    incoming array, and the new array is
    [a + std * noise + mean], with [mean] 0 when [mean_dict] has no entry *)
Definition AddGaussianNoise_step {R} `{RandomState R}
    (mean_dict : gmap string Q) (name : string) (std : Q) (r r' : R)
    (v v' : option pyvalue) : Prop :=
  exists a a',
    v = Some (PyNdarray a) /\ v' = Some (PyNdarray a') /\
    let drawn := standard_normal r (shape a) in
    r' = drawn.2 /\
    shape drawn.1 = shape a /\
    shape a' = shape a /\
    forall ix,
      item a' ix
      = (item a ix + std * item drawn.1 ix
         + default 0%Q (mean_dict !! name))%Q.

(** the step of [Flip]: one draw of [random_sample] in the state [r]; the
    array is reversed along its last axis when the draw is below the
    probability, and the value is left alone otherwise *)
Definition Flip_step {R} `{RandomState R} (name : string) (p : Q) (r r' : R)
    (v v' : option pyvalue) : Prop :=
  let drawn := random_sample r in
  r' = drawn.2 /\
  ((drawn.1 < p)%Q ->
     exists a a', v = Some (PyNdarray a) /\ v' = Some (PyNdarray a') /\
       reversed_last a a') /\
  ((p <= drawn.1)%Q -> v' = v).

(** [a'] is cut out of the 5D array [a] with the window of [ch] by [cw]
    that starts, for the sample [bi], at row [rows[bi]] and column
    [cols[bi]]: one pair of offsets per sample, each within the range that
    keeps the window inside the image, the same for all time steps and
    channels of the sample *)
Definition cropped_at (ch cw : Z) (rows cols : list Z) (a a' : ndarray)
    : Prop :=
  exists t b c hh w,
    shape a = [t; b; c; hh; w] /\
    shape a' = [t; b; c; Z.to_nat ch; Z.to_nat cw] /\
    length rows = b /\ length cols = b /\
    Forall (fun r => (0 <= r <= Z.of_nat hh - ch)%Z) rows /\
    Forall (fun x => (0 <= x <= Z.of_nat w - cw)%Z) cols /\
    (forall bi i j, bi < b -> i < Z.to_nat ch -> j < Z.to_nat cw ->
       Z.to_nat (rows !!! bi) + i < hh /\ Z.to_nat (cols !!! bi) + j < w) /\
    (forall ti bi ci i j,
       item a' [ti; bi; ci; i; j]
       = item a [ti; bi; ci;
                 Z.to_nat (rows !!! bi) + i; Z.to_nat (cols !!! bi) + j]).

(** the step of [RandomCrop]: the row offsets are what
    [random_integers(0, h - ch, batch_size)] draws in the state [r], the
    column offsets what [random_integers(0, w - cw, batch_size)] draws in
    the state the first draw leaves, and the new array is cut out at
    these offsets *)
Definition RandomCrop_step {R} `{RandomState R} (name : string)
    (crop : list Z) (r r' : R) (v v' : option pyvalue) : Prop :=
  exists ch cw a a' t b c hh w,
    crop = [ch; cw] /\ v = Some (PyNdarray a) /\ v' = Some (PyNdarray a') /\
    shape a = [t; b; c; hh; w] /\
    let drawn_rows := random_integers r 0 (Z.of_nat hh - ch) b in
    let drawn_cols :=
      random_integers drawn_rows.2 0 (Z.of_nat w - cw) b in
    r' = drawn_cols.2 /\
    cropped_at ch cw drawn_rows.1 drawn_cols.1 a a'.

(** the loop over the configured names [items], in the order it visits
    them, on the batch [b]: every name has its step on the value the batch
    came with, from the state the step before it left; [out] is the batch
    after the loop, [r] and [r'] are the states before and after it *)
Fixpoint threaded {R C}
    (step : string -> C -> R -> R -> option pyvalue -> option pyvalue -> Prop)
    (items : list (string * C)) (b out : pydict) (r r' : R) : Prop :=
  match items with
  | [] => r' = r
  | (k, c) :: rest =>
      exists r1,
        step k c r r1 (b !! k) (out !! k) /\ threaded step rest b out r1 r'
  end.

(** the batch [out] of a decorator against the batch [b] of the inner
    iterator, with the draws: the configured names have had their steps
    in the order of the loop, every other name is as it was *)
Definition decorated_from {R C} (cfg : gmap string C)
    (step : string -> C -> R -> R -> option pyvalue -> option pyvalue -> Prop)
    (b out : pydict) (r r' : R) : Prop :=
  threaded step (map_to_list cfg) b out r r' /\
  (forall name, cfg !! name = None -> out !! name = b !! name).

(** a pass: the batches [outs] against the batches [bs] of the inner
    iterator, one for one and in order, each from the state of the random
    source that the batch before it left *)
Fixpoint pass_from {R} (step : pydict -> pydict -> R -> R -> Prop)
    (bs outs : list pydict) (r r' : R) : Prop :=
  match bs, outs with
  | [], [] => r' = r
  | b :: bs, out :: outs =>
      exists r1, step b out r r1 /\ pass_from step bs outs r1 r'
  | _, _ => False
  end.

(** [g] yields the batches [bs] and stops in the state [g']; every batch
    is a new dict object, and this is so from every heap in which the
    dataset object [data] is [d] *)
Inductive feeds {R} `{RandomState R} (data : ref) (d : pydict)
    : generator R -> list pydict -> generator R -> Prop :=
| feeds_stop g g' :
    (forall h, h !! data = Some d -> next g h = Ok (None, g', h)) ->
    feeds data d g [] g'
| feeds_batch g g1 b bs g' :
    (forall h, h !! data = Some d ->
       next g h = Ok (Some (length h), g1, h ++ [b])) ->
    feeds data d g1 bs g' ->
    feeds data d g (b :: bs) g'.

(** a base iterator that cuts its batches out of the dataset [d], which
    is a dict of arrays: [Online], or [Minibatches] with a batch size
    other than 0 (with the batch size 0 a pass fails on its division) *)
Definition slicing_base {R} (it : iterator R) (h : heap) (d : pydict)
    : Prop :=
  match it with
  | Online _ _ data _ => h !! data = Some d /\ sliceable d
  | Minibatches _ _ data _ k =>
      k <> 0%Z /\ h !! data = Some d /\ sliceable d
  | _ => False
  end.

(** the batch [out] of a decorator against the batch [b] of the inner
    iterator: every configured name has had its step, every other name is
    as it was *)
Definition decorated {C} (cfg : gmap string C)
    (Post : string -> C -> option pyvalue -> option pyvalue -> Prop)
    (b out : pydict) : Prop :=
  (forall name c, cfg !! name = Some c -> Post name c (b !! name) (out !! name))
  /\ (forall name, cfg !! name = None -> out !! name = b !! name).

(** what the passes need of [math.trunc(progress / maximum * len(bar))]:
    it grows with [progress], is not negative, stays below the length of
    the bar while [progress < maximum] and reaches it from
    [progress = maximum] on *)
Definition tracks_fraction (scale : Z -> Z -> nat -> Z) (maximum : Z)
    (L : nat) : Prop :=
  (forall p q, (0 <= p <= q)%Z -> (scale p maximum L <= scale q maximum L)%Z) /\
  (forall p, (0 <= p)%Z -> (0 <= scale p maximum L)%Z) /\
  (forall p, (0 <= p < maximum)%Z -> (scale p maximum L < Z.of_nat L)%Z) /\
  (forall p, (maximum <= p)%Z -> (Z.of_nat L <= scale p maximum L)%Z).

(** [math.trunc(progress / maximum * len(bar))] computed without
    rounding error *)
Definition trunc_scale (progress maximum : Z) (L : nat) : Z :=
  Z.quot (progress * Z.of_nat L) maximum.

(** the dataset object at the base of a pipeline *)
Fixpoint dataset_of {R} (g : generator R) : ref :=
  match g with
  | GUndivided data _ | GOnline _ _ data _ _
  | GMinibatches _ _ data _ _ _ => data
  | GAddGaussianNoise _ _ _ inner | GFlip _ _ inner | GPad _ _ _ inner
  | GRandomCrop _ _ inner => dataset_of inner
  end.

(** whether the base makes a new dict for every batch: [Online] and
    [Minibatches] do, [Undivided] yields its dataset *)
Fixpoint copies_batches {R} (g : generator R) : bool :=
  match g with
  | GUndivided _ _ => false
  | GOnline _ _ _ _ _ | GMinibatches _ _ _ _ _ _ => true
  | GAddGaussianNoise _ _ _ inner | GFlip _ _ inner | GPad _ _ _ inner
  | GRandomCrop _ _ inner => copies_batches inner
  end.

Definition shapes_in (batch : pydict) : list (string * option (list nat)) :=
  (fun kv : string * pyvalue => (kv.1, py_shape kv.2)) <$> map_to_list batch.

Definition item_in (batch : pydict) (name : string) (ix : list nat)
    : option Q :=
  match batch !! name with
  | Some (PyNdarray a) => Some (item a ix)
  | _ => None
  end.

(** ** A scripted random source

    A state is the list of raw draws still to come (0 once it is used up);
    every method maps the draws it consumes into its range. Any sequence
    of outcomes can be scripted. *)
Module Scripted.

Definition draw (s : list nat) : nat * list nat :=
  match s with
  | [] => (0, [])
  | d :: r => (d, r)
  end.

(** picks the elements one by one, each at the position the draw selects
    among those left *)
Fixpoint shuffle_with (n : nat) (s : list nat) (l : list nat)
    : list nat * list nat :=
  match n with
  | 0 => (l, s)
  | S n' =>
      let '(d, s1) := draw s in
      let i := d mod length l in
      match l !! i with
      | Some x =>
          let '(r, s2) := shuffle_with n' s1 (delete i l) in (x :: r, s2)
      | None => (l, s)
      end
  end.

Definition sample (s : list nat) : Q * list nat :=
  let '(d, s1) := draw s in (Z.of_nat (d mod 1000) # 1000, s1).

Fixpoint integers (s : list nat) (low high : Z) (size : nat)
    : list Z * list nat :=
  match size with
  | 0 => ([], s)
  | S size' =>
      let '(d, s1) := draw s in
      let '(r, s2) := integers s1 low high size' in
      ((low + Z.of_nat d mod (high - low + 1))%Z :: r, s2)
  end.

Definition normal (s : list nat) (sh : list nat) : ndarray * list nat :=
  let '(d, s1) := draw s in
  ({| shape := sh; item := fun _ => inject_Z (Z.of_nat d) |}, s1).

#[export] Program Instance scripted : RandomState (list nat) := {|
  shuffle s l := shuffle_with (length l) s l;
  random_sample := sample;
  random_integers := integers;
  standard_normal := normal
|}.
Next Obligation.
  assert (Hgen : forall n s l, (shuffle_with n s l).1 ≡ₚ l).
  { induction n as [|n IH]; intros s l; simpl; [done|].
    destruct (draw s) as [d s1].
    destruct (l !! (d mod length l)) as [x|] eqn:Hx; [|done].
    specialize (IH s1 (delete (d mod length l) l)).
    destruct (shuffle_with n s1 (delete (d mod length l) l)) as [r s2].
    simpl in *. rewrite IH. symmetry. by apply delete_Permutation. }
  intros s l. apply Hgen.
Qed.
Next Obligation.
  intros s. unfold sample. destruct (draw s) as [d s1]. simpl.
  pose proof (Nat.mod_upper_bound d 1000).
  unfold Qle, Qlt. simpl. lia.
Qed.
Next Obligation.
  intros s low high size. revert s.
  induction size as [|n IH]; intros s; simpl; [done|].
  destruct (draw s) as [d s1]. specialize (IH s1).
  destruct (integers s1 low high n). simpl in *. by rewrite IH.
Qed.
Next Obligation.
  intros s low high size Hle. revert s.
  induction size as [|n IH]; intros s; simpl; [constructor|].
  destruct (draw s) as [d s1]. specialize (IH s1).
  destruct (integers s1 low high n). simpl in *. constructor; [|done].
  pose proof (Z.mod_pos_bound (Z.of_nat d) (high - low + 1)). lia.
Qed.
Next Obligation.
  intros s sh. unfold normal. by destruct (draw s).
Qed.

End Scripted.

(** * Properties *)

Lemma bind_Ok {A B} (m : result A) (k : A -> result B) b :
  bind m k = Ok b -> exists a, m = Ok a /\ k a = Ok b.
Proof. destruct m; simpl; [eauto | discriminate]. Qed.

(** ** The validator *)

Lemma foldr_min_le x l y : y ∈ x :: l -> foldr Nat.min x l <= y.
Proof.
  induction l as [|z l IH]; simpl; intros Hy.
  - apply list_elem_of_singleton in Hy. lia.
  - apply elem_of_cons in Hy as [->|Hy].
    + assert (foldr Nat.min x l <= x) by (apply IH; left). lia.
    + apply elem_of_cons in Hy as [->|Hy]; [lia|].
      assert (foldr Nat.min x l <= y) by (apply IH; by right). lia.
Qed.

Lemma foldr_max_ge x l y : y ∈ x :: l -> y <= foldr Nat.max x l.
Proof.
  induction l as [|z l IH]; simpl; intros Hy.
  - apply list_elem_of_singleton in Hy. lia.
  - apply elem_of_cons in Hy as [->|Hy].
    + assert (x <= foldr Nat.max x l) by (apply IH; left). lia.
    + apply elem_of_cons in Hy as [->|Hy]; [lia|].
      assert (y <= foldr Nat.max x l) by (apply IH; by right). lia.
Qed.

(** when the minimum and the maximum agree, every value is that number *)
Lemma py_min_max_all l lo :
  py_min l = Ok lo -> py_max l = Ok lo -> Forall (fun y => y = lo) l.
Proof.
  destruct l as [|x l]; simpl; [discriminate|].
  intros [= Hlo] [= Hhi]. apply Forall_forall. intros y Hy.
  pose proof (foldr_min_le x l y Hy). pose proof (foldr_max_ge x l y Hy). lia.
Qed.

Lemma collect_extents_Ok items seqs steps :
  collect_extents items = Ok (seqs, steps) ->
  seqs = map (fun kv => default [] (py_shape kv.2) !!! 1) items /\
  steps = map (fun kv => default [] (py_shape kv.2) !!! 0) items /\
  Forall (fun kv => exists sh, py_shape kv.2 = Some sh /\ 3 <= length sh) items.
Proof.
  revert seqs steps.
  induction items as [|[name data] items IH]; simpl; intros seqs steps Hc.
  - injection Hc as <- <-. by repeat split.
  - destruct (py_shape data) as [sh|] eqn:Hsh; [|discriminate].
    destruct (length sh <? 3) eqn:Hlen; [discriminate|].
    apply Nat.ltb_ge in Hlen.
    destruct (collect_extents items) as [[s1 s2]|] eqn:Hrest;
      simpl in Hc; [|discriminate].
    injection Hc as <- <-.
    destruct (IH _ _ eq_refl) as (-> & -> & Hall).
    repeat split; [done..|]. constructor; [|done]. simpl. eauto.
Qed.

(** What a validated dataset looks like: it is not empty, and every array
    has a shape of rank 3 or more whose second extent is the number the
    validator returns and whose first extent is common to all. *)
Lemma validated_dataset (named_data : pydict) n :
  _assert_correct_data_format named_data = Ok n ->
  named_data <> ∅ /\
  exists T,
    forall name v, named_data !! name = Some v ->
      exists rest, py_shape v = Some (T :: n :: rest) /\ rest <> [].
Proof.
  unfold _assert_correct_data_format. intros Hv.
  apply bind_Ok in Hv as ([seqs steps] & Hc & Hv).
  apply collect_extents_Ok in Hc as (Hseqs & Hsteps & Hall).
  apply bind_Ok in Hv as (lo & Hlo & Hv).
  apply bind_Ok in Hv as (hi & Hhi & Hv).
  destruct (lo =? hi) eqn:Hlh; simpl in Hv; [|discriminate].
  apply Nat.eqb_eq in Hlh; subst hi.
  apply bind_Ok in Hv as (lo_t & Hlo_t & Hv).
  apply bind_Ok in Hv as (hi_t & Hhi_t & Hv).
  destruct (lo_t =? hi_t) eqn:Hlh; simpl in Hv; [|discriminate].
  apply Nat.eqb_eq in Hlh; subst hi_t.
  assert (n = lo) by congruence; subst lo.
  split.
  - intros ->. rewrite map_to_list_empty in Hseqs. by subst seqs.
  - exists lo_t. intros name v Hname.
    apply elem_of_map_to_list in Hname.
    pose proof (py_min_max_all _ _ Hlo Hhi) as Hs.
    pose proof (py_min_max_all _ _ Hlo_t Hhi_t) as Ht.
    rewrite Forall_forall in Hall. rewrite Forall_forall in Hs.
    rewrite Forall_forall in Ht.
    destruct (Hall _ Hname) as (sh & Hsh & Hlen). simpl in Hsh.
    specialize (Hs (default [] (py_shape v) !!! 1)).
    specialize (Ht (default [] (py_shape v) !!! 0)).
    rewrite Hsh in Hs, Ht. simpl in Hs, Ht.
    destruct sh as [|t [|b [|c rest]]]; simpl in Hlen; try lia.
    exists (c :: rest). split; [|done]. rewrite Hsh. f_equal.
    f_equal; [|f_equal].
    + apply Ht. subst steps. apply list_elem_of_fmap.
      exists (name, v). simpl. by rewrite Hsh.
    + apply Hs. subst seqs. apply list_elem_of_fmap.
      exists (name, v). simpl. by rewrite Hsh.
Qed.

Lemma collect_extents_Raise items e :
  collect_extents items = Raise e ->
  exists name v, (name, v) ∈ items /\
    ((py_shape v = None /\ e = IteratorValidationError (NoShapeAttribute name))
     \/ (exists sh, py_shape v = Some sh /\ length sh < 3 /\
           e = IteratorValidationError RankBelow3)).
Proof.
  induction items as [|[name data] items IH]; simpl; [discriminate|].
  destruct (py_shape data) as [sh|] eqn:Hsh.
  - destruct (length sh <? 3) eqn:Hlen.
    + intros [= <-]. apply Nat.ltb_lt in Hlen.
      exists name, data. split; [left|right; eauto].
    + destruct (collect_extents items) as [[s1 s2]|e'] eqn:Hrest; simpl;
        [discriminate|].
      intros [= <-]. destruct (IH eq_refl) as (n' & v & Hin & Hcase).
      exists n', v. split; [by right|done].
  - intros [= <-]. exists name, data. split; [left|left; done].
Qed.

Lemma foldr_min_in x l : foldr Nat.min x l ∈ x :: l.
Proof.
  induction l as [|z l IH]; simpl; [left|].
  destruct (Nat.min_spec z (foldr Nat.min x l)) as [[_ ->]|[_ ->]].
  - right; left.
  - apply elem_of_cons in IH as [->|IH]; [left|by do 2 right].
Qed.

Lemma foldr_max_in x l : foldr Nat.max x l ∈ x :: l.
Proof.
  induction l as [|z l IH]; simpl; [left|].
  destruct (Nat.max_spec z (foldr Nat.max x l)) as [[_ ->]|[_ ->]].
  - apply elem_of_cons in IH as [->|IH]; [left|by do 2 right].
  - right; left.
Qed.

(** when the minimum and the maximum differ, two of the values differ *)
Lemma py_min_max_differ l lo hi :
  py_min l = Ok lo -> py_max l = Ok hi -> lo <> hi ->
  lo ∈ l /\ hi ∈ l.
Proof.
  destruct l as [|x l]; simpl; [discriminate|].
  intros [= <-] [= <-] _. split; [apply foldr_min_in|apply foldr_max_in].
Qed.

(** the entry of the dataset behind an extent that the loop collected *)
Lemma extent_entry (named_data : pydict) (axis e : nat) :
  e ∈ map (fun kv : string * pyvalue => default [] (py_shape kv.2) !!! axis)
        (map_to_list named_data) ->
  Forall (fun kv : string * pyvalue =>
            exists sh, py_shape kv.2 = Some sh /\ 3 <= length sh)
    (map_to_list named_data) ->
  axis < 3 ->
  exists name v sh,
    named_data !! name = Some v /\ py_shape v = Some sh /\
    sh !! axis = Some e.
Proof.
  intros Hin Hall Haxis.
  apply list_elem_of_In, in_map_iff in Hin as ([name v] & <- & Hkv).
  apply list_elem_of_In in Hkv. rewrite Forall_forall in Hall.
  destruct (Hall _ Hkv) as (sh & Hsh & Hlen). simpl in Hsh |- *.
  exists name, v, sh. split; [by apply elem_of_map_to_list|].
  split; [done|]. rewrite Hsh. simpl.
  apply list_lookup_lookup_total_lt. lia.
Qed.

(** X2. The validator raises the validation error for exactly four
    reasons: an entry without a shape; an entry of rank below 3; every
    entry of rank 3 or more and two entries whose sample extents (second
    axis) differ; every entry of rank 3 or more with one common sample
    extent and two entries whose time extents (first axis) differ. Its
    only other failure is the ValueError on the empty mapping. *)
Lemma validator_raises_only (named_data : pydict) e :
  _assert_correct_data_format named_data = Raise e ->
  (named_data = ∅ /\ e = ValueError) \/
  (named_data <> ∅ /\
   ((exists name v, named_data !! name = Some v /\ py_shape v = None /\
        e = IteratorValidationError (NoShapeAttribute name))
    \/ (exists name v sh, named_data !! name = Some v /\
          py_shape v = Some sh /\ length sh < 3 /\
          e = IteratorValidationError RankBelow3)
    \/ (e = IteratorValidationError SequencesDiffer /\
        (forall name v, named_data !! name = Some v ->
           exists sh, py_shape v = Some sh /\ 3 <= length sh) /\
        exists name1 v1 sh1 name2 v2 sh2,
          named_data !! name1 = Some v1 /\ py_shape v1 = Some sh1 /\
          named_data !! name2 = Some v2 /\ py_shape v2 = Some sh2 /\
          sh1 !! 1 <> sh2 !! 1)
    \/ (e = IteratorValidationError TimestepsDiffer /\
        (exists B, forall name v, named_data !! name = Some v ->
           exists sh, py_shape v = Some sh /\ 3 <= length sh /\
             sh !! 1 = Some B) /\
        exists name1 v1 sh1 name2 v2 sh2,
          named_data !! name1 = Some v1 /\ py_shape v1 = Some sh1 /\
          named_data !! name2 = Some v2 /\ py_shape v2 = Some sh2 /\
          sh1 !! 0 <> sh2 !! 0))).
Proof.
  unfold _assert_correct_data_format. intros Hv.
  destruct (collect_extents (map_to_list named_data)) as [[seqs steps]|e']
    eqn:Hc; simpl in Hv.
  - apply collect_extents_Ok in Hc as (Hseqs & Hsteps & Hall).
    destruct (decide (named_data = ∅)) as [->|Hne].
    { left. rewrite map_to_list_empty in Hseqs. subst seqs. simpl in Hv.
      split; congruence. }
    right. split; [done|].
    assert (Hranks : forall name v, named_data !! name = Some v ->
              exists sh, py_shape v = Some sh /\ 3 <= length sh).
    { intros name v Hname. apply elem_of_map_to_list in Hname.
      rewrite Forall_forall in Hall. apply (Hall _ Hname). }
    destruct (py_min seqs) as [lo|] eqn:Hlo; simpl in Hv;
      [|destruct seqs as [|? ?]; [|discriminate];
        destruct (map_to_list named_data) eqn:Hitems; [|discriminate];
        by apply map_to_list_empty_iff in Hitems].
    destruct (py_max seqs) as [hi|] eqn:Hhi; simpl in Hv;
      [|destruct seqs; discriminate].
    destruct (Nat.eqb_spec lo hi) as [<-|Hlohi]; simpl in Hv.
    + destruct (py_min steps) as [lo_t|] eqn:Hlo_t; simpl in Hv;
        [|destruct steps as [|? ?]; [|discriminate];
          destruct (map_to_list named_data) eqn:Hitems; [|discriminate];
          by apply map_to_list_empty_iff in Hitems].
      destruct (py_max steps) as [hi_t|] eqn:Hhi_t; simpl in Hv;
        [|destruct steps; discriminate].
      destruct (Nat.eqb_spec lo_t hi_t) as [<-|Hlohi_t]; simpl in Hv;
        [discriminate|].
      injection Hv as <-. do 3 right. split; [done|]. split.
      * exists lo. intros name v Hname.
        destruct (Hranks name v Hname) as (sh & Hsh & Hlen).
        exists sh. split; [done|]. split; [done|].
        pose proof (py_min_max_all _ _ Hlo Hhi) as Hs.
        rewrite Forall_forall in Hs.
        rewrite <- (Hs (sh !!! 1)).
        { apply list_lookup_lookup_total_lt. lia. }
        subst seqs. apply list_elem_of_fmap. exists (name, v).
        simpl. rewrite Hsh. split; [done|]. by apply elem_of_map_to_list.
      * destruct (py_min_max_differ _ _ _ Hlo_t Hhi_t Hlohi_t)
          as [Hin1 Hin2].
        subst steps.
        destruct (extent_entry named_data 0 lo_t Hin1 Hall ltac:(lia))
          as (name1 & v1 & sh1 & Hn1 & Hs1 & He1).
        destruct (extent_entry named_data 0 hi_t Hin2 Hall ltac:(lia))
          as (name2 & v2 & sh2 & Hn2 & Hs2 & He2).
        exists name1, v1, sh1, name2, v2, sh2.
        do 4 (split; [done|]). rewrite He1, He2. congruence.
    + injection Hv as <-. do 2 right. left. split; [done|].
      split; [done|].
      destruct (py_min_max_differ _ _ _ Hlo Hhi Hlohi) as [Hin1 Hin2].
      subst seqs.
      destruct (extent_entry named_data 1 lo Hin1 Hall ltac:(lia))
        as (name1 & v1 & sh1 & Hn1 & Hs1 & He1).
      destruct (extent_entry named_data 1 hi Hin2 Hall ltac:(lia))
        as (name2 & v2 & sh2 & Hn2 & Hs2 & He2).
      exists name1, v1, sh1, name2, v2, sh2.
      do 4 (split; [done|]). rewrite He1, He2. congruence.
  - injection Hv as <-.
    apply collect_extents_Raise in Hc as (name & v & Hin & Hcase).
    apply elem_of_map_to_list in Hin.
    right. split; [intros ->; by rewrite lookup_empty in Hin|].
    destruct Hcase as [[Hsh ->]|(sh & Hsh & Hlen & ->)].
    + left. eauto.
    + right; left. exists name, v, sh. eauto.
Qed.

Section Construction.

Context {R : Type} `{RandomState R}.

(** C10. Constructing a base iterator on an empty mapping fails: the
    validator raises a ValueError, taking the minimum of no values, which
    is not the iterator validation error; [Undivided], [Online] and
    [Minibatches] all fail with it. *)
Theorem empty_dataset_raises_ValueError :
  _assert_correct_data_format ∅ = Raise ValueError /\
  is_validation_error ValueError = false /\
  (forall h, Undivided_init (R := R) ∅ h = Raise ValueError) /\
  (forall shuffle (seed : R) h,
     Online_init shuffle seed ∅ h = Raise ValueError) /\
  (forall batch_size shuffle (seed : R) h,
     Minibatches_init batch_size shuffle seed ∅ h = Raise ValueError).
Proof.
  assert (Hv : _assert_correct_data_format ∅ = Raise ValueError).
  { unfold _assert_correct_data_format. by rewrite map_to_list_empty. }
  repeat split; try done; intros;
    unfold Undivided_init, Online_init, Minibatches_init; by rewrite Hv.
Qed.

(** a configured name makes the validation loop read [iter.data], which a
    decorator does not have *)
Lemma for_each_lookup_inner_decorator {C} (inner : iterator R) h
    (check : string -> C -> pyvalue -> result unit) (cfg : gmap string C) :
  is_decorator inner = true -> cfg <> ∅ ->
  for_each (fun key c (_ : unit) =>
      let* v := lookup_inner inner h key in check key c v)
    (map_to_list cfg) tt = Raise AttributeError.
Proof.
  intros Hdec Hne.
  destruct (map_to_list cfg) as [|[key c] rest] eqn:Hitems.
  { by apply map_to_list_empty_iff in Hitems. }
  simpl. unfold lookup_inner. by destruct inner.
Qed.

(** C1. A decorator cannot wrap a decorator: whatever names are configured
    (and so for a name of the pipeline's data), the constructor of the
    outer decorator reads the attribute [data] of the inner one, which only
    the base iterators have, and fails with an AttributeError. *)
Theorem decorator_around_decorator_raises_AttributeError
    (inner : iterator R) (h : heap) (seed : R) :
  is_decorator inner = true ->
  (forall std_dict, std_dict <> ∅ ->
     AddGaussianNoise_init inner std_dict None seed h = Raise AttributeError) /\
  (forall prob_dict, prob_dict <> Some ∅ ->
     Flip_init inner prob_dict seed h = Raise AttributeError) /\
  (forall size_dict, size_dict <> ∅ ->
     Pad_init inner size_dict None seed h = Raise AttributeError) /\
  (forall shape_dict, shape_dict <> ∅ ->
     RandomCrop_init inner shape_dict seed h = Raise AttributeError).
Proof.
  intros Hdec. repeat split.
  - intros std_dict Hne. unfold AddGaussianNoise_init. simpl.
    by rewrite (for_each_lookup_inner_decorator inner h
                  (fun key _ v => require (is_ndarray v) _)).
  - intros prob_dict Hne. unfold Flip_init.
    set (p := default _ prob_dict).
    assert (p <> ∅).
    { subst p. destruct prob_dict as [p|]; simpl; [congruence|].
      apply insert_non_empty. }
    by rewrite (for_each_lookup_inner_decorator inner h
                  (fun key pr v => let* _ := require _ _ in
                                   let* _ := require _ _ in require _ _)).
  - intros size_dict Hne. unfold Pad_init. simpl.
    by rewrite (for_each_lookup_inner_decorator inner h
                  (fun key _ v => let* _ := require _ _ in require _ _)).
  - intros shape_dict Hne. unfold RandomCrop_init.
    by rewrite (for_each_lookup_inner_decorator inner h
                  (fun key val v =>
                     let* _ := require _ _ in let* _ := require _ _ in
                     let* _ := require _ _ in let* _ := require _ _ in
                     require _ _)).
Qed.

(** C3. When the names of [mean_dict] differ from those of [std_dict],
    [AddGaussianNoise] fails on its [assert]: the exception is an
    AssertionError, not the iterator validation error. *)
Theorem AddGaussianNoise_names_differ_AssertionError
    (iter : iterator R) (std_dict mean_dict : gmap string Q) (seed : R)
    (h : heap) :
  dom mean_dict <> dom std_dict ->
  AddGaussianNoise_init iter std_dict (Some mean_dict) seed h
    = Raise AssertionError /\
  is_validation_error AssertionError = false.
Proof.
  intros Hne. split; [|done]. unfold AddGaussianNoise_init.
  by rewrite bool_decide_eq_false_2.
Qed.

(** The same check in [Pad] raises the validation error. *)
Lemma Pad_names_differ_validation_error
    (iter : iterator R) (size_dict : gmap string Z)
    (value_dict : gmap string Q) (seed : R) (h : heap) :
  dom size_dict <> dom value_dict ->
  Pad_init iter size_dict (Some value_dict) seed h
    = Raise (IteratorValidationError PadNamesDiffer).
Proof.
  intros Hne. unfold Pad_init. by rewrite bool_decide_eq_false_2.
Qed.

End Construction.

(** ** Base iterators *)

Lemma mapM_Ok {A B} (f : A -> result B) (l : list A) :
  Forall (fun x => exists y, f x = Ok y) l -> exists ys, mapM f l = Ok ys.
Proof.
  induction 1 as [|x l [y Hy] _ [ys IH]]; simpl; [eauto|].
  rewrite Hy, IH. simpl. eauto.
Qed.

Lemma py_slice_samples_shape start stop v t b rest :
  py_shape v = Some (t :: b :: rest) ->
  exists v', py_slice_samples start stop v = Ok v' /\
    py_shape v' = Some (t :: (slice_indices start stop b).2 :: rest) /\
    is_ndarray v' = is_ndarray v.
Proof.
  destruct v as [a|a|]; simpl; [| |discriminate]; intros [= Hsh];
    unfold slice_samples, slice_indices; rewrite Hsh; simpl; eauto.
Qed.

Lemma dict_comprehension_slice start stop d :
  sliceable d ->
  dict_comprehension (py_slice_samples start stop) d
    = Ok (slice_dict start stop d).
Proof.
  intros Hd. unfold dict_comprehension.
  destruct (mapM_Ok (fun kv : string * pyvalue =>
              py_slice_samples start stop kv.2) (map_to_list d)) as [ys ->];
    [|done].
  apply Forall_forall. intros [name v] Hin. apply elem_of_map_to_list in Hin.
  destruct (Hd _ _ Hin) as (t & b & rest & Hsh).
  destruct (py_slice_samples_shape start stop v t b rest Hsh) as (v' & ? & _).
  simpl. eauto.
Qed.

(** the arrays of a slice, name by name *)
Lemma slice_dict_lookup start stop d name v t b rest :
  d !! name = Some v -> py_shape v = Some (t :: b :: rest) ->
  exists v', slice_dict start stop d !! name = Some v' /\
    py_slice_samples start stop v = Ok v' /\
    py_shape v' = Some (t :: (slice_indices start stop b).2 :: rest).
Proof.
  intros Hname Hsh. unfold slice_dict. rewrite lookup_omap, Hname. simpl.
  destruct (py_slice_samples_shape start stop v t b rest Hsh)
    as (v' & Hv' & Hsh' & _).
  exists v'. by rewrite Hv'.
Qed.

Lemma slice_dict_dom start stop d :
  sliceable d -> dom (slice_dict start stop d) = dom d.
Proof.
  intros Hd. apply set_eq. intros name. rewrite !elem_of_dom.
  unfold slice_dict. rewrite lookup_omap.
  destruct (d !! name) as [v|] eqn:Hname; simpl.
  - destruct (Hd _ _ Hname) as (t & b & rest & Hsh).
    destruct (py_slice_samples_shape start stop v t b rest Hsh)
      as (v' & -> & _). simpl. split; eauto.
  - split; intros [? ?]; discriminate.
Qed.

Lemma deref_alloc h (d : pydict) : deref (h ++ [d]) (length h) = d.
Proof. unfold deref. by rewrite list_lookup_middle by done. Qed.

Lemma slice_batch_Ok start stop data h d :
  h !! data = Some d -> sliceable d ->
  slice_batch start stop data h
    = Ok (length h, h ++ [slice_dict start stop d]).
Proof.
  intros Hdata Hd. unfold slice_batch, deref. rewrite Hdata. simpl.
  by rewrite dict_comprehension_slice.
Qed.

Section BaseIterators.

Context {R : Type} `{RandomState R}.

Lemma pull_Online_pending m : forall l (rnd : R) n data sh h d,
  h !! data = Some d -> sliceable d ->
  pull m (GOnline rnd n data sh (Pending l)) h
    = Ok (Online_batches d (take m l),
          GOnline rnd n data sh (Pending (drop m l)),
          h ++ Online_batches d (take m l)).
Proof.
  induction m as [|m IH]; intros l rnd n data sh h d Hdata Hd.
  - simpl. by rewrite drop_0, app_nil_r.
  - destruct l as [|idx l]; simpl.
    + by rewrite app_nil_r.
    + rewrite (slice_batch_Ok _ _ _ _ _ Hdata Hd). simpl.
      rewrite (IH l rnd n data sh _ d); [|by apply lookup_app_l_Some|done].
      simpl. rewrite deref_alloc. by rewrite <- app_assoc.
Qed.

Lemma pull_Minibatches_pending m : forall l (rnd : R) n data sh k h d,
  h !! data = Some d -> sliceable d ->
  pull m (GMinibatches rnd n data sh k (Pending l)) h
    = Ok (Minibatches_batches k d (take m l),
          GMinibatches rnd n data sh k (Pending (drop m l)),
          h ++ Minibatches_batches k d (take m l)).
Proof.
  induction m as [|m IH]; intros l rnd n data sh k h d Hdata Hd.
  - simpl. by rewrite drop_0, app_nil_r.
  - destruct l as [|idx l]; simpl.
    + by rewrite app_nil_r.
    + rewrite (slice_batch_Ok _ _ _ _ _ Hdata Hd). simpl.
      rewrite (IH l rnd n data sh k _ d); [|by apply lookup_app_l_Some|done].
      simpl. rewrite deref_alloc. by rewrite <- app_assoc.
Qed.

(** the first [next] draws the order and enters the loop *)
Lemma pull_Online_start m (rnd : R) n data sh h :
  pull (S m) (GOnline rnd n data sh NotStarted) h
    = pull (S m)
        (GOnline (maybe_shuffle sh rnd (arange (Z.of_nat n))).2 n data sh
           (Pending (maybe_shuffle sh rnd (arange (Z.of_nat n))).1)) h.
Proof.
  simpl. by destruct (maybe_shuffle sh rnd (arange (Z.of_nat n))).
Qed.

Lemma pull_Minibatches_start m (rnd : R) n data sh k h :
  k <> 0%Z ->
  pull (S m) (GMinibatches rnd n data sh k NotStarted) h
    = pull (S m)
        (GMinibatches
           (maybe_shuffle sh rnd (arange (ceil_div (Z.of_nat n) k))).2
           n data sh k
           (Pending (maybe_shuffle sh rnd
                       (arange (ceil_div (Z.of_nat n) k))).1)) h.
Proof.
  intros Hk. simpl. apply Z.eqb_neq in Hk. rewrite Hk. simpl.
  by destruct (maybe_shuffle sh rnd (arange (ceil_div (Z.of_nat n) k))).
Qed.

Lemma maybe_shuffle_Permutation sh (rnd : R) l :
  (maybe_shuffle sh rnd l).1 ≡ₚ l.
Proof. destruct sh; simpl; [apply shuffle_Permutation|done]. Qed.

End BaseIterators.

(** *** Arithmetic of the blocks *)

(** [ceil_div n k] is the ceiling of [n / k]: the least number of blocks
    of [k] samples that cover [n] samples *)
Lemma ceil_div_spec (n k : Z) :
  (0 < k)%Z ->
  ((ceil_div n k - 1) * k < n <= ceil_div n k * k)%Z.
Proof.
  intros Hk. unfold ceil_div.
  pose proof (Z.div_mod (- n) k ltac:(lia)) as Hdm.
  pose proof (Z.mod_pos_bound (- n) k Hk) as Hr.
  revert Hdm Hr.
  generalize ((- n) / k)%Z as q, ((- n) mod k)%Z as r. intros q r Hdm Hr.
  lia.
Qed.

Lemma ceil_div_nonneg (n k : Z) :
  (0 < k)%Z -> (0 <= n)%Z -> (0 <= ceil_div n k)%Z.
Proof. intros Hk Hn. pose proof (ceil_div_spec n k Hk). nia. Qed.

(** the samples left for the final block *)
Lemma last_block_size (n k : Z) :
  (0 < k)%Z -> (0 < n)%Z ->
  (n - (ceil_div n k - 1) * k
   = if n mod k =? 0 then k else n mod k)%Z.
Proof.
  intros Hk Hn. pose proof (ceil_div_spec n k Hk) as [Hlo Hhi].
  pose proof (Z.div_mod n k ltac:(lia)) as Hdm.
  pose proof (Z.mod_pos_bound n k Hk) as Hr.
  revert Hlo Hhi Hdm Hr.
  generalize (ceil_div n k) as m, (n / k)%Z as q, (n mod k)%Z as r.
  intros m q r Hlo Hhi Hdm Hr.
  destruct (Z.eqb_spec r 0) as [->|Hmod].
  - assert (q = m) by nia. subst q. lia.
  - assert (m = q + 1)%Z by nia. subst m. lia.
Qed.

Lemma slice_indices_sample (idx n : nat) :
  idx < n ->
  (slice_indices (Z.of_nat idx) (Z.of_nat idx + 1) n).2 = 1.
Proof.
  intros Hidx. unfold slice_indices, clip_index. simpl.
  destruct (Z.ltb_spec (Z.of_nat idx) 0); [lia|].
  destruct (Z.ltb_spec (Z.of_nat idx + 1) 0); lia.
Qed.

Lemma slice_indices_block (idx n : nat) (k : Z) :
  (0 < k)%Z -> idx < Z.to_nat (ceil_div (Z.of_nat n) k) ->
  (slice_indices (Z.of_nat idx * k) ((Z.of_nat idx + 1) * k) n).2
    = block_extent n k (Z.to_nat (ceil_div (Z.of_nat n) k)) idx.
Proof.
  intros Hk Hidx. unfold slice_indices, clip_index, block_extent.
  cbn [snd].
  pose proof (ceil_div_spec (Z.of_nat n) k Hk) as [Hlo Hhi].
  assert (0 < Z.of_nat n)%Z by nia.
  pose proof (last_block_size (Z.of_nat n) k Hk ltac:(done)) as Hlast_size.
  revert Hidx Hlo Hhi Hlast_size.
  generalize (ceil_div (Z.of_nat n) k) as m. intros m Hidx Hlo Hhi <-.
  destruct (Z.ltb_spec (Z.of_nat idx * k) 0); [nia|].
  destruct (Z.ltb_spec ((Z.of_nat idx + 1) * k) 0); [nia|].
  destruct (Nat.eqb_spec (S idx) (Z.to_nat m)) as [Hlast|Hnot].
  - assert (Z.of_nat idx = m - 1)%Z as -> by lia.
    replace (m - 1 + 1)%Z with m by lia. nia.
  - assert (Z.of_nat idx + 1 <= m - 1)%Z by lia. nia.
Qed.

Section BaseRuns.

Context {R : Type} `{RandomState R}.

Lemma validated_sliceable (named_data : pydict) n :
  _assert_correct_data_format named_data = Ok n -> sliceable named_data.
Proof.
  intros Hv name v Hname.
  destruct (validated_dataset _ _ Hv) as (_ & T & Hall).
  destruct (Hall _ _ Hname) as (rest & Hsh & _). eauto.
Qed.

Lemma slice_dict_batch_of named_data n start stop :
  _assert_correct_data_format named_data = Ok n ->
  batch_of named_data n (slice_indices start stop n).2
    (slice_dict start stop named_data).
Proof.
  intros Hv. split.
  - apply slice_dict_dom. by eapply validated_sliceable.
  - intros name v Hname.
    destruct (validated_dataset _ _ Hv) as (_ & T & Hall).
    destruct (Hall _ _ Hname) as (rest & Hsh & _).
    destruct (slice_dict_lookup start stop _ _ _ _ _ _ Hname Hsh)
      as (v' & Hv' & _ & Hsh').
    exists T, rest, v'. eauto.
Qed.

(** One pass of [Online], in full, from any state in which its dataset is
    a dict of arrays: the order is what [maybe_shuffle] makes of the
    sample indices, the batches are the one-sample slices in that order,
    each a new dict object, then the generator stops. *)
Lemma Online_pass shuffle (rnd : R) n data h d :
  h !! data = Some d -> sliceable d ->
  run (Online rnd n data shuffle) h
    = Ok (Online_batches d (maybe_shuffle shuffle rnd (seq 0 n)).1,
          Online (maybe_shuffle shuffle rnd (seq 0 n)).2 n data shuffle,
          h ++ Online_batches d (maybe_shuffle shuffle rnd (seq 0 n)).1).
Proof.
  intros Hdata Hd.
  destruct (maybe_shuffle shuffle rnd (seq 0 n)) as [order rnd'] eqn:Hsh.
  assert (Hlen : length order = n).
  { pose proof (maybe_shuffle_Permutation shuffle rnd (seq 0 n)) as Hp.
    rewrite Hsh in Hp. simpl in Hp. rewrite Hp. apply length_seq. }
  unfold run. cbn [call remaining]. rewrite pull_Online_start.
  unfold arange. rewrite Nat2Z.id, Hsh. cbn [fst snd].
  rewrite (pull_Online_pending _ _ _ _ _ _ _ d) by done.
  rewrite take_ge, drop_ge by lia. done.
Qed.

Lemma Online_run shuffle (seed : R) named_data h it h1 :
  Online_init shuffle seed named_data h = Ok (it, h1) ->
  exists n order rnd',
    _assert_correct_data_format named_data = Ok n /\
    it = Online seed n (length h) shuffle /\
    h1 = h ++ [named_data] /\
    (order, rnd') = maybe_shuffle shuffle seed (seq 0 n) /\
    run it h1 = Ok (Online_batches named_data order,
                    Online rnd' n (length h) shuffle,
                    h1 ++ Online_batches named_data order).
Proof.
  unfold Online_init. intros Hinit.
  apply bind_Ok in Hinit as (n & Hv & Hinit). simpl in Hinit.
  injection Hinit as <- <-.
  exists n, (maybe_shuffle shuffle seed (seq 0 n)).1,
    (maybe_shuffle shuffle seed (seq 0 n)).2.
  split; [done|]. split; [done|]. split; [done|].
  split; [by destruct (maybe_shuffle shuffle seed (seq 0 n))|].
  apply Online_pass; [by rewrite list_lookup_middle|].
  by eapply validated_sliceable.
Qed.

(** C8. One invocation of [Online] on a validated dataset of
    [totalSamples] samples yields exactly [totalSamples] batches and then
    stops; in every batch every named array has sample extent 1, with the
    time extent and the feature extents of the dataset's array. *)
Theorem Online_yields_single_samples shuffle (seed : R) named_data h it h1 :
  Online_init shuffle seed named_data h = Ok (it, h1) ->
  exists totalSamples batches it' h2,
    _assert_correct_data_format named_data = Ok totalSamples /\
    run it h1 = Ok (batches, it', h2) /\
    length batches = totalSamples /\
    Forall (batch_of named_data totalSamples 1) batches.
Proof.
  intros Hinit.
  destruct (Online_run _ _ _ _ _ _ Hinit)
    as (n & order & rnd' & Hv & -> & -> & Hord & Hrun).
  pose proof (maybe_shuffle_Permutation shuffle seed (seq 0 n)) as Hp.
  rewrite <- Hord in Hp. simpl in Hp.
  eexists n, _, _, _. split; [done|]. split; [exact Hrun|]. split.
  - unfold Online_batches. by rewrite length_map, Hp, length_seq.
  - unfold Online_batches. apply Forall_fmap, Forall_forall.
    intros idx Hidx. rewrite Hp in Hidx. apply elem_of_seq in Hidx.
    simpl. rewrite <- (slice_indices_sample idx n) by lia.
    by apply slice_dict_batch_of.
Qed.

(** One pass of [Minibatches], in full. *)
Lemma Minibatches_pass k shuffle (rnd : R) n data h d :
  k <> 0%Z -> h !! data = Some d -> sliceable d ->
  let blocks := Z.to_nat (ceil_div (Z.of_nat n) k) in
  run (Minibatches rnd n data shuffle k) h
    = Ok (Minibatches_batches k d
            (maybe_shuffle shuffle rnd (seq 0 blocks)).1,
          Minibatches (maybe_shuffle shuffle rnd (seq 0 blocks)).2
            n data shuffle k,
          h ++ Minibatches_batches k d
                 (maybe_shuffle shuffle rnd (seq 0 blocks)).1).
Proof.
  intros Hk Hdata Hd blocks.
  destruct (maybe_shuffle shuffle rnd (seq 0 blocks)) as [order rnd']
    eqn:Hsh.
  assert (Hlen : length order = blocks).
  { pose proof (maybe_shuffle_Permutation shuffle rnd (seq 0 blocks)) as Hp.
    rewrite Hsh in Hp. simpl in Hp. rewrite Hp. apply length_seq. }
  unfold run. cbn [call remaining]. rewrite pull_Minibatches_start by done.
  unfold arange. fold blocks. rewrite Hsh. cbn [fst snd].
  rewrite (pull_Minibatches_pending _ _ _ _ _ _ _ _ d) by done.
  rewrite take_ge, drop_ge by lia. done.
Qed.

Lemma Minibatches_run k shuffle (seed : R) named_data h it h1 :
  k <> 0%Z ->
  Minibatches_init k shuffle seed named_data h = Ok (it, h1) ->
  exists n order rnd',
    _assert_correct_data_format named_data = Ok n /\
    it = Minibatches seed n (length h) shuffle k /\
    h1 = h ++ [named_data] /\
    (order, rnd') = maybe_shuffle shuffle seed
                      (seq 0 (Z.to_nat (ceil_div (Z.of_nat n) k))) /\
    run it h1 = Ok (Minibatches_batches k named_data order,
                    Minibatches rnd' n (length h) shuffle k,
                    h1 ++ Minibatches_batches k named_data order).
Proof.
  unfold Minibatches_init. intros Hk Hinit.
  apply bind_Ok in Hinit as (n & Hv & Hinit). simpl in Hinit.
  injection Hinit as <- <-.
  set (blocks := Z.to_nat (ceil_div (Z.of_nat n) k)).
  exists n, (maybe_shuffle shuffle seed (seq 0 blocks)).1,
    (maybe_shuffle shuffle seed (seq 0 blocks)).2.
  split; [done|]. split; [done|]. split; [done|].
  split; [fold blocks; by destruct (maybe_shuffle shuffle seed (seq 0 blocks))|].
  apply Minibatches_pass; [done|by rewrite list_lookup_middle|].
  by eapply validated_sliceable.
Qed.

(** C2, amended. One invocation of [Minibatches] with [batch_size = k >= 1]
    on a validated dataset of [totalSamples] samples yields exactly
    [ceil(totalSamples / k)] batches and then stops, one for each block in
    the order of the pass, which is a permutation of the block indices and
    the increasing one without shuffling. The batch of the final block has
    sample extent [totalSamples mod k] when that is not zero and [k]
    otherwise, every other batch has sample extent [k]; with shuffling the
    batch of the final block stands where the order puts it. *)
Theorem Minibatches_block_extents k shuffle (seed : R) named_data h it h1 :
  (1 <= k)%Z ->
  Minibatches_init k shuffle seed named_data h = Ok (it, h1) ->
  exists totalSamples order batches it' h2,
    _assert_correct_data_format named_data = Ok totalSamples /\
    run it h1 = Ok (batches, it', h2) /\
    let blocks := Z.to_nat (ceil_div (Z.of_nat totalSamples) k) in
    length batches = blocks /\
    order ≡ₚ seq 0 blocks /\
    (shuffle = false -> order = seq 0 blocks) /\
    Forall2 (fun idx batch =>
               batch_of named_data totalSamples
                 (block_extent totalSamples k blocks idx) batch)
      order batches.
Proof.
  intros Hk Hinit.
  assert (Hk0 : k <> 0%Z) by lia.
  destruct (Minibatches_run _ _ _ _ _ _ _ Hk0 Hinit)
    as (n & order & rnd' & Hv & -> & -> & Hord & Hrun).
  set (blocks := Z.to_nat (ceil_div (Z.of_nat n) k)) in *.
  pose proof (maybe_shuffle_Permutation shuffle seed (seq 0 blocks)) as Hp.
  rewrite <- Hord in Hp. simpl in Hp.
  eexists n, order, _, _, _. split; [done|]. split; [exact Hrun|].
  cbn zeta. fold blocks. repeat split.
  - unfold Minibatches_batches. by rewrite length_map, Hp, length_seq.
  - done.
  - intros ->. by injection Hord.
  - unfold Minibatches_batches. apply Forall2_fmap_r, Forall_Forall2_diag.
    apply Forall_forall. intros idx Hidx. rewrite Hp in Hidx.
    apply elem_of_seq in Hidx.
    unfold blocks. rewrite <- (slice_indices_block idx n k) by (fold blocks; lia).
    by apply slice_dict_batch_of.
Qed.

End BaseRuns.

(** ** The loops of the decorators *)

Lemma only_name_refl data k h : only_name data k h h.
Proof. by repeat split. Qed.

Lemma only_name_setitem data k v h : only_name data k h (setitem h data k v).
Proof.
  unfold setitem. split; [by rewrite length_insert|]. split.
  - intros r Hr. by rewrite list_lookup_insert_ne.
  - intros k' Hk'. unfold deref at 1.
    destruct (decide (data < length h)) as [Hlt|Hge].
    + rewrite list_lookup_insert_eq by done. simpl.
      by rewrite lookup_insert_ne.
    + by rewrite list_insert_ge by lia.
Qed.

Lemma deref_setitem data k v h :
  is_Some (deref h data !! k) ->
  deref (setitem h data k v) data !! k = Some v.
Proof.
  intros [v0 Hv0]. unfold setitem. unfold deref at 1.
  assert (data < length h).
  { apply lookup_lt_is_Some. unfold deref in Hv0.
    destruct (h !! data); [done|]. simpl in Hv0. by rewrite lookup_empty in Hv0. }
  rewrite list_lookup_insert_eq by done. simpl. apply lookup_insert_eq.
Qed.

Section Loops.

Context {R C : Type}.
Variable data : ref.
Variable body : string -> C -> R * heap -> result (R * heap).
(** what one step does to the value bound to its name *)
Variable Post : string -> C -> option pyvalue -> option pyvalue -> Prop.

Hypothesis body_spec : forall k c rnd h rnd' h',
  body k c (rnd, h) = Ok (rnd', h') ->
  only_name data k h h' /\
  Post k c (deref h data !! k) (deref h' data !! k).

(** After the loop every configured name has had its one step, on the
    value the batch came with, and nothing else has changed. *)
Lemma for_each_names items : forall rnd h rnd' h',
  NoDup items.*1 ->
  for_each body items (rnd, h) = Ok (rnd', h') ->
  length h' = length h /\
  (forall r, r <> data -> h' !! r = h !! r) /\
  (forall k, k ∉ items.*1 -> deref h' data !! k = deref h data !! k) /\
  (forall k c, (k, c) ∈ items ->
     Post k c (deref h data !! k) (deref h' data !! k)).
Proof.
  induction items as [|[k c] items IH]; intros rnd h rnd' h' Hnd Hrun.
  - simpl in Hrun. injection Hrun as <- <-. repeat split; try done.
    intros k c Hin. by apply elem_of_nil in Hin.
  - simpl in Hrun. apply bind_Ok in Hrun as ([rnd1 h1] & Hstep & Hrest).
    apply NoDup_cons in Hnd as [Hk Hnd].
    destruct (body_spec _ _ _ _ _ _ Hstep) as ((Hlen & Hrefs & Hnames) & Hpost).
    destruct (IH _ _ _ _ Hnd Hrest) as (Hlen' & Hrefs' & Hout & Hin).
    split; [congruence|]. split.
    { intros r Hr. rewrite Hrefs' by done. by apply Hrefs. }
    split.
    { intros k' Hk'. simpl in Hk'. apply not_elem_of_cons in Hk' as [? ?].
      rewrite Hout by done. by apply Hnames. }
    intros k' c' Hkc. apply elem_of_cons in Hkc as [[= -> ->]|Hkc].
    + by rewrite Hout.
    + assert (k' <> k).
      { intros ->. apply Hk. apply list_elem_of_fmap. by exists (k, c'). }
      rewrite <- Hnames by done. by apply Hin.
Qed.

(** what a step needs of the value bound to its name *)
Variable Pre : string -> C -> option pyvalue -> Prop.

Hypothesis body_total : forall k c rnd h,
  Pre k c (deref h data !! k) -> exists s', body k c (rnd, h) = Ok s'.

Lemma for_each_total items : forall rnd h,
  NoDup items.*1 ->
  (forall k c, (k, c) ∈ items -> Pre k c (deref h data !! k)) ->
  exists s', for_each body items (rnd, h) = Ok s'.
Proof.
  induction items as [|[k c] items IH]; intros rnd h Hnd Hpre; simpl.
  - eauto.
  - apply NoDup_cons in Hnd as [Hk Hnd].
    destruct (body_total k c rnd h) as [[rnd1 h1] Hstep].
    { apply Hpre. left. }
    rewrite Hstep. simpl.
    destruct (body_spec _ _ _ _ _ _ Hstep) as ((_ & _ & Hnames) & _).
    apply IH; [done|]. intros k' c' Hkc.
    assert (k' <> k).
    { intros ->. apply Hk. apply list_elem_of_fmap. by exists (k, c'). }
    rewrite Hnames by done. apply Hpre. by right.
Qed.

End Loops.

(** the same for a loop over the names of a configuration dict *)
Lemma for_each_dict {R C} data
    (body : string -> C -> R * heap -> result (R * heap)) Post
    (cfg : gmap string C) rnd h rnd' h' :
  (forall k c rnd h rnd' h',
     body k c (rnd, h) = Ok (rnd', h') ->
     only_name data k h h' /\
     Post k c (deref h data !! k) (deref h' data !! k)) ->
  for_each body (map_to_list cfg) (rnd, h) = Ok (rnd', h') ->
  (forall k, cfg !! k = None -> deref h' data !! k = deref h data !! k) /\
  (forall k c, cfg !! k = Some c ->
     Post k c (deref h data !! k) (deref h' data !! k)).
Proof.
  intros Hbody Hrun.
  destruct (for_each_names data body Post Hbody _ _ _ _ _
              (NoDup_fst_map_to_list cfg) Hrun) as (_ & _ & Hout & Hin).
  split.
  - intros k Hk. apply Hout. intros Hin'.
    apply list_elem_of_fmap in Hin' as ([k' c] & -> & Hkc).
    apply elem_of_map_to_list in Hkc. simpl in Hk. congruence.
  - intros k c Hk. apply Hin. by apply elem_of_map_to_list.
Qed.

Lemma for_each_dict_total {R C} data
    (body : string -> C -> R * heap -> result (R * heap)) Post
    (Pre : string -> C -> option pyvalue -> Prop)
    (cfg : gmap string C) rnd h :
  (forall k c rnd h rnd' h',
     body k c (rnd, h) = Ok (rnd', h') ->
     only_name data k h h' /\
     Post k c (deref h data !! k) (deref h' data !! k)) ->
  (forall k c rnd h,
     Pre k c (deref h data !! k) -> exists s', body k c (rnd, h) = Ok s') ->
  (forall k c, cfg !! k = Some c -> Pre k c (deref h data !! k)) ->
  exists s', for_each body (map_to_list cfg) (rnd, h) = Ok s'.
Proof.
  intros Hbody Htotal Hpre.
  apply (for_each_total data body Post Hbody Pre Htotal);
    [apply NoDup_fst_map_to_list|].
  intros k c Hkc. apply Hpre. by apply elem_of_map_to_list.
Qed.

(** *** The loop with its draws *)

Lemma threaded_ext {R C}
    (step : string -> C -> R -> R -> option pyvalue -> option pyvalue -> Prop)
    items : forall (b1 b2 out1 out2 : pydict) r r',
  (forall k, k ∈ items.*1 -> b1 !! k = b2 !! k) ->
  (forall k, k ∈ items.*1 -> out1 !! k = out2 !! k) ->
  threaded step items b1 out1 r r' -> threaded step items b2 out2 r r'.
Proof.
  induction items as [|[k c] items IH]; intros b1 b2 out1 out2 r r' Hb Hout;
    simpl; [done|].
  intros (r1 & Hstep & Hrest). exists r1. split.
  - rewrite <- Hb, <- Hout by left. done.
  - apply (IH b1 b2 out1 out2); [| |done].
    + intros k' Hk'. apply Hb. by right.
    + intros k' Hk'. apply Hout. by right.
Qed.

(** every name of the loop has had its step, from some state *)
Lemma threaded_elem {R C}
    (step : string -> C -> R -> R -> option pyvalue -> option pyvalue -> Prop)
    items : forall (b out : pydict) r r' k c,
  threaded step items b out r r' -> (k, c) ∈ items ->
  exists r0 r1, step k c r0 r1 (b !! k) (out !! k).
Proof.
  induction items as [|[k0 c0] items IH]; intros b out r r' k c Hth Hin.
  - by apply elem_of_nil in Hin.
  - simpl in Hth. destruct Hth as (r1 & Hstep & Hrest).
    apply elem_of_cons in Hin as [[= -> ->]|Hin]; [eauto|].
    by eapply IH.
Qed.

Section ThreadedLoops.

Context {R C : Type}.
Variable data : ref.
Variable body : string -> C -> R * heap -> result (R * heap).
(** what one step does, with the states of the random source *)
Variable Step :
  string -> C -> R -> R -> option pyvalue -> option pyvalue -> Prop.

Hypothesis body_step : forall k c rnd h rnd' h',
  body k c (rnd, h) = Ok (rnd', h') ->
  only_name data k h h' /\
  Step k c rnd rnd' (deref h data !! k) (deref h' data !! k).

Lemma body_step_frame k c rnd h rnd' h' :
  body k c (rnd, h) = Ok (rnd', h') ->
  only_name data k h h' /\
  (fun _ _ _ _ => True) k c (deref h data !! k) (deref h' data !! k).
Proof. intros Hrun. by destruct (body_step _ _ _ _ _ _ Hrun). Qed.

(** The loop runs the steps in the order of [items], each on the value
    the batch came with and from the state the step before it left. *)
Lemma for_each_threaded items : forall rnd h rnd' h',
  NoDup items.*1 ->
  for_each body items (rnd, h) = Ok (rnd', h') ->
  threaded Step items (deref h data) (deref h' data) rnd rnd'.
Proof.
  induction items as [|[k c] items IH]; intros rnd h rnd' h' Hnd Hrun.
  - simpl in Hrun. by injection Hrun as <- <-.
  - simpl in Hrun. apply bind_Ok in Hrun as ([rnd1 h1] & Hstep & Hrest).
    apply NoDup_cons in Hnd as [Hk Hnd].
    destruct (body_step _ _ _ _ _ _ Hstep) as ((_ & _ & Hnames) & Hpost).
    destruct (for_each_names data body (fun _ _ _ _ => True)
                body_step_frame _ _ _ _ _ Hnd Hrest) as (_ & _ & Hout & _).
    simpl. exists rnd1. split.
    + by rewrite Hout.
    + apply (threaded_ext Step items (deref h1 data) (deref h data)
               (deref h' data) (deref h' data)); [|done|by apply IH].
      intros k' Hk'. apply Hnames. by intros ->.
Qed.

Lemma for_each_decorated_from (cfg : gmap string C) rnd h rnd' h' :
  for_each body (map_to_list cfg) (rnd, h) = Ok (rnd', h') ->
  decorated_from cfg Step (deref h data) (deref h' data) rnd rnd'.
Proof.
  intros Hrun. split.
  - apply for_each_threaded; [apply NoDup_fst_map_to_list|done].
  - by destruct (for_each_dict data body (fun _ _ _ _ => True) cfg
                   _ _ _ _ body_step_frame Hrun).
Qed.

End ThreadedLoops.

(** every configured name has had its step *)
Lemma decorated_from_lookup {R C} (cfg : gmap string C)
    (step : string -> C -> R -> R -> option pyvalue -> option pyvalue -> Prop)
    (b out : pydict) r r' k c :
  decorated_from cfg step b out r r' -> cfg !! k = Some c ->
  exists r0 r1, step k c r0 r1 (b !! k) (out !! k).
Proof.
  intros [Hth _] Hk. eapply threaded_elem; [exact Hth|].
  by apply elem_of_map_to_list.
Qed.

(** ** Flip *)

Lemma on_last_app f pre j : on_last f (pre ++ [j]) = pre ++ [f j].
Proof.
  induction pre as [|i pre IH]; [done|].
  simpl. rewrite IH. by destruct pre.
Qed.

Lemma flip_last_reversed a a' : flip_last a = Ok a' -> reversed_last a a'.
Proof.
  unfold flip_last. destruct (last (shape a)) as [w|] eqn:Hw; [|discriminate].
  intros [= <-]. split; [done|]. exists w. split; [done|].
  intros pre j _. simpl. by rewrite on_last_app.
Qed.

Lemma flip_last_total a : shape a <> [] -> exists a', flip_last a = Ok a'.
Proof.
  intros Hne. unfold flip_last.
  destruct (last_is_Some (shape a)) as [_ Hl].
  destruct (Hl Hne) as [w ->]. eauto.
Qed.

Section FlipSteps.

Context {R : Type} `{RandomState R}.

Lemma Flip_body_spec data name p (rnd : R) h rnd' h' :
  Flip_body data name p (rnd, h) = Ok (rnd', h') ->
  only_name data name h h' /\
  Flip_post name p (deref h data !! name) (deref h' data !! name).
Proof.
  unfold Flip_body. pose proof (random_sample_range rnd) as [Hx0 Hx1].
  destruct (random_sample rnd) as [x rnd1]. simpl in Hx0, Hx1.
  destruct (Qlt_le_dec x p) as [Hlt|Hge].
  - intros Hrun. apply bind_Ok in Hrun as (v & Hv & Hrun).
    apply bind_Ok in Hrun as (a & Ha & Hrun).
    apply bind_Ok in Hrun as (a' & Ha' & Hrun).
    injection Hrun as <- <-.
    unfold getitem in Hv.
    destruct (deref h data !! name) as [v0|] eqn:Hname; [|discriminate].
    injection Hv as ->. destruct v as [a0| |]; try discriminate.
    injection Ha as ->.
    split; [apply only_name_setitem|]. split.
    + intros _. exists a, a'. split; [done|]. split.
      * apply deref_setitem. by rewrite Hname.
      * by apply flip_last_reversed.
    + intros Hp. rewrite Hp in Hlt. lra.
  - intros [= <- <-]. split; [apply only_name_refl|]. split.
    + intros Hp. rewrite Hp in Hge. lra.
    + done.
Qed.

Lemma Flip_body_total data name p (rnd : R) h :
  (exists a, deref h data !! name = Some (PyNdarray a) /\ shape a <> []) ->
  exists s', Flip_body data name p (rnd, h) = Ok s'.
Proof.
  intros (a & Hname & Hsh). unfold Flip_body.
  destruct (random_sample rnd) as [x rnd1].
  destruct (Qlt_le_dec x p); [|eauto].
  unfold getitem. rewrite Hname. simpl.
  destruct (flip_last_total a Hsh) as [a' ->]. simpl. eauto.
Qed.

(** C7. When the inner iterator yields a batch, [Flip] yields that dict
    object, in which a name configured with probability 1 is bound to its
    array reversed along the last axis, a name configured with
    probability 0 is bound to what the inner iterator bound it to, and so
    is every name that is not configured. [Flip] does yield when every
    configured name is bound to an array with at least one axis. *)
Theorem Flip_batch (rnd : R) (prob_dict : gmap string Q) inner h data inner' h1 :
  next inner h = Ok (Some data, inner', h1) ->
  (forall o g' h2,
     next (GFlip rnd prob_dict inner) h = Ok (o, g', h2) ->
     o = Some data /\
     (forall name p, prob_dict !! name = Some p -> (p == 1)%Q ->
        exists a a',
          deref h1 data !! name = Some (PyNdarray a) /\
          deref h2 data !! name = Some (PyNdarray a') /\
          reversed_last a a') /\
     (forall name p, prob_dict !! name = Some p -> (p == 0)%Q ->
        deref h2 data !! name = deref h1 data !! name) /\
     (forall name, prob_dict !! name = None ->
        deref h2 data !! name = deref h1 data !! name)) /\
  ((forall name p, prob_dict !! name = Some p ->
      exists a, deref h1 data !! name = Some (PyNdarray a) /\ shape a <> []) ->
   exists g' h2, next (GFlip rnd prob_dict inner) h = Ok (Some data, g', h2)).
Proof.
  intros Hinner. split.
  - intros o g' h2 Hnext. simpl in Hnext. rewrite Hinner in Hnext.
    simpl in Hnext. apply bind_Ok in Hnext as ([rnd' h2'] & Hloop & Hnext).
    injection Hnext as <- <- <-. split; [done|].
    destruct (for_each_dict data (Flip_body data) Flip_post prob_dict
                 _ _ _ _ (Flip_body_spec data) Hloop) as (Hout & Hin).
    split; [|split].
    + intros name p Hname Hp. by apply (Hin name p Hname).
    + intros name p Hname Hp. by apply (Hin name p Hname).
    + done.
  - intros Hpre. simpl. rewrite Hinner. simpl.
    destruct (for_each_dict_total data (Flip_body data) Flip_post
                (fun name (_ : Q) v =>
                   exists a, v = Some (PyNdarray a) /\ shape a <> [])
                prob_dict rnd h1 (Flip_body_spec data)) as [[rnd' h2] Hloop].
    + intros k c rnd0 h0. apply Flip_body_total.
    + done.
    + rewrite Hloop. simpl. eauto.
Qed.

(** the step of [Flip] for any probability, with its draw *)
Lemma Flip_body_step data name p (rnd : R) h rnd' h' :
  Flip_body data name p (rnd, h) = Ok (rnd', h') ->
  only_name data name h h' /\
  Flip_step name p rnd rnd' (deref h data !! name) (deref h' data !! name).
Proof.
  unfold Flip_body, Flip_step.
  destruct (random_sample rnd) as [x rnd1]. cbn [fst snd].
  destruct (Qlt_le_dec x p) as [Hlt|Hge].
  - intros Hrun. apply bind_Ok in Hrun as (v & Hv & Hrun).
    apply bind_Ok in Hrun as (a & Ha & Hrun).
    apply bind_Ok in Hrun as (a' & Ha' & Hrun).
    injection Hrun as <- <-.
    unfold getitem in Hv.
    destruct (deref h data !! name) as [v0|] eqn:Hname; [|discriminate].
    injection Hv as ->. destruct v as [a0| |]; try discriminate.
    injection Ha as ->.
    split; [apply only_name_setitem|]. split; [done|]. split.
    + intros _. exists a, a'. split; [done|]. split.
      * apply deref_setitem. by rewrite Hname.
      * by apply flip_last_reversed.
    + intros Hp. lra.
  - intros [= <- <-]. split; [apply only_name_refl|]. split; [done|].
    split; [intros Hlt; lra|done].
Qed.

End FlipSteps.

(** ** RandomCrop *)

Section CropSteps.

Context {R : Type} `{RandomState R}.

Lemma py_random_integers_Ok (rnd : R) low high size l rnd' :
  py_random_integers rnd low high size = Ok (l, rnd') ->
  (low <= high)%Z /\ length l = size /\
  Forall (fun x => (low <= x <= high)%Z) l.
Proof.
  unfold py_random_integers. destruct (Z.ltb_spec high low); [discriminate|].
  intros [= Hl]. assert (l = (random_integers rnd low high size).1) as ->
    by by rewrite Hl.
  split; [done|]. split;
    [apply random_integers_length | by apply random_integers_range].
Qed.

Lemma crop_array_spec crop a (rnd : R) a' rows cols rnd' :
  crop_array crop a rnd = Ok (a', rows, cols, rnd') ->
  exists ch cw, crop = [ch; cw] /\ cropped_from ch cw a a'.
Proof.
  unfold crop_array. destruct crop as [|ch [|cw [|? ?]]]; try discriminate.
  destruct (shape a) as [|t [|b [|c [|hh [|w [|? ?]]]]]] eqn:Hsh;
    try discriminate.
  intros Hrun.
  apply bind_Ok in Hrun as ([rows0 rnd1] & Hrows & Hrun).
  apply bind_Ok in Hrun as ([cols0 rnd2] & Hcols & Hrun).
  apply bind_Ok in Hrun as (ch' & Hch & Hrun).
  apply bind_Ok in Hrun as (cw' & Hcw & Hrun).
  injection Hrun as <- <- <- <-.
  apply py_random_integers_Ok in Hrows as (Hr & Hrlen & Hrall).
  apply py_random_integers_Ok in Hcols as (Hc & Hclen & Hcall).
  unfold as_dim in Hch, Hcw.
  destruct (Z.ltb_spec ch 0); [discriminate|]. injection Hch as <-.
  destruct (Z.ltb_spec cw 0); [discriminate|]. injection Hcw as <-.
  exists ch, cw. split; [done|].
  exists t, b, c, hh, w, rows0, cols0.
  do 6 (split; [done|]). split; [|done].
  intros bi i j Hbi Hi Hj.
  pose proof (Forall_lookup_1 _ _ bi _ Hrall
                (list_lookup_lookup_total_lt rows0 bi ltac:(lia))).
  pose proof (Forall_lookup_1 _ _ bi _ Hcall
                (list_lookup_lookup_total_lt cols0 bi ltac:(lia))).
  simpl in *. lia.
Qed.

Lemma crop_array_total ch cw a (rnd : R) t b c hh w :
  shape a = [t; b; c; hh; w] ->
  (0 <= ch <= Z.of_nat hh)%Z -> (0 <= cw <= Z.of_nat w)%Z ->
  exists r, crop_array [ch; cw] a rnd = Ok r.
Proof.
  intros Hsh Hch Hcw. unfold crop_array, py_random_integers, as_dim.
  rewrite Hsh.
  destruct (Z.ltb_spec (Z.of_nat hh - ch) 0); [lia|]. simpl.
  destruct (random_integers rnd 0 (Z.of_nat hh - ch) b) as [rows rnd1].
  destruct (Z.ltb_spec (Z.of_nat w - cw) 0); [lia|]. simpl.
  destruct (random_integers rnd1 0 (Z.of_nat w - cw) b) as [cols rnd2].
  destruct (Z.ltb_spec ch 0); [lia|]. simpl.
  destruct (Z.ltb_spec cw 0); [lia|]. simpl. eauto.
Qed.

Lemma RandomCrop_body_spec data name crop (rnd : R) h rnd' h' :
  RandomCrop_body data name crop (rnd, h) = Ok (rnd', h') ->
  only_name data name h h' /\
  RandomCrop_post name crop (deref h data !! name) (deref h' data !! name).
Proof.
  unfold RandomCrop_body. intros Hrun.
  apply bind_Ok in Hrun as ([] & _ & Hrun).
  apply bind_Ok in Hrun as (v & Hv & Hrun).
  apply bind_Ok in Hrun as (a & Ha & Hrun).
  apply bind_Ok in Hrun as ([[[a' rows] cols] rnd1] & Hcrop & Hrun).
  injection Hrun as <- <-.
  unfold getitem in Hv.
  destruct (deref h data !! name) as [v0|] eqn:Hname; [|discriminate].
  injection Hv as ->. destruct v as [a0| |]; try discriminate.
  injection Ha as ->.
  split; [apply only_name_setitem|].
  apply crop_array_spec in Hcrop as (ch & cw & -> & Hcropped).
  exists ch, cw, a, a'. do 2 (split; [done|]). split; [|done].
  apply deref_setitem. by rewrite Hname.
Qed.

Lemma RandomCrop_body_total data name crop (rnd : R) h :
  RandomCrop_pre name crop (deref h data !! name) ->
  exists s', RandomCrop_body data name crop (rnd, h) = Ok s'.
Proof.
  intros (ch & cw & a & t & b & c & hh & w & -> & Hname & Hsh & Hch & Hcw).
  destruct (crop_array_total ch cw a rnd t b c hh w Hsh Hch Hcw)
    as [[[[a' rows] cols] rnd1] Hc].
  unfold RandomCrop_body, getitem. rewrite Hname.
  cbn [length Nat.eqb require bind as_ndarray]. rewrite Hc.
  simpl. eauto.
Qed.

(** the offsets are the ones drawn, and the array is cut out at them *)
Lemma crop_array_drawn crop a (rnd : R) a' rows cols rnd' :
  crop_array crop a rnd = Ok (a', rows, cols, rnd') ->
  exists ch cw t b c hh w,
    crop = [ch; cw] /\ shape a = [t; b; c; hh; w] /\
    let drawn_rows := random_integers rnd 0 (Z.of_nat hh - ch) b in
    let drawn_cols := random_integers drawn_rows.2 0 (Z.of_nat w - cw) b in
    rows = drawn_rows.1 /\ cols = drawn_cols.1 /\ rnd' = drawn_cols.2 /\
    cropped_at ch cw rows cols a a'.
Proof.
  unfold crop_array. destruct crop as [|ch [|cw [|? ?]]]; try discriminate.
  destruct (shape a) as [|t [|b [|c [|hh [|w [|? ?]]]]]] eqn:Hsh;
    try discriminate.
  intros Hrun.
  apply bind_Ok in Hrun as ([rows0 rnd1] & Hrows & Hrun).
  apply bind_Ok in Hrun as ([cols0 rnd2] & Hcols & Hrun).
  apply bind_Ok in Hrun as (ch' & Hch & Hrun).
  apply bind_Ok in Hrun as (cw' & Hcw & Hrun).
  injection Hrun as <- <- <- <-.
  pose proof (py_random_integers_Ok _ _ _ _ _ _ Hrows) as (Hr & Hrlen & Hrall).
  pose proof (py_random_integers_Ok _ _ _ _ _ _ Hcols) as (Hc & Hclen & Hcall).
  unfold py_random_integers in Hrows, Hcols.
  destruct (Z.ltb_spec (Z.of_nat hh - ch) 0); [discriminate|].
  destruct (Z.ltb_spec (Z.of_nat w - cw) 0); [discriminate|].
  injection Hrows as Hrows. injection Hcols as Hcols.
  unfold as_dim in Hch, Hcw.
  destruct (Z.ltb_spec ch 0); [discriminate|]. injection Hch as <-.
  destruct (Z.ltb_spec cw 0); [discriminate|]. injection Hcw as <-.
  exists ch, cw, t, b, c, hh, w. do 2 (split; [done|]). cbv zeta.
  rewrite Hrows. cbn [fst snd]. rewrite Hcols. cbn [fst snd].
  do 3 (split; [done|]).
  exists t, b, c, hh, w.
  do 6 (split; [done|]). split; [|done].
  intros bi i j Hbi Hi Hj.
  pose proof (Forall_lookup_1 _ _ bi _ Hrall
                (list_lookup_lookup_total_lt rows0 bi ltac:(lia))).
  pose proof (Forall_lookup_1 _ _ bi _ Hcall
                (list_lookup_lookup_total_lt cols0 bi ltac:(lia))).
  simpl in *. lia.
Qed.

Lemma RandomCrop_body_step data name crop (rnd : R) h rnd' h' :
  RandomCrop_body data name crop (rnd, h) = Ok (rnd', h') ->
  only_name data name h h' /\
  RandomCrop_step name crop rnd rnd'
    (deref h data !! name) (deref h' data !! name).
Proof.
  unfold RandomCrop_body. intros Hrun.
  apply bind_Ok in Hrun as ([] & _ & Hrun).
  apply bind_Ok in Hrun as (v & Hv & Hrun).
  apply bind_Ok in Hrun as (a & Ha & Hrun).
  apply bind_Ok in Hrun as ([[[a' rows] cols] rnd1] & Hcrop & Hrun).
  injection Hrun as <- <-.
  unfold getitem in Hv.
  destruct (deref h data !! name) as [v0|] eqn:Hname; [|discriminate].
  injection Hv as ->. destruct v as [a0| |]; try discriminate.
  injection Ha as ->.
  split; [apply only_name_setitem|].
  apply crop_array_drawn in Hcrop
    as (ch & cw & t & b & c & hh & w & -> & Hsh & Hdrawn).
  cbv zeta in Hdrawn. destruct Hdrawn as (-> & -> & -> & Hcropped).
  exists ch, cw, a, a', t, b, c, hh, w.
  do 2 (split; [done|]). split.
  { apply deref_setitem. by rewrite Hname. }
  split; [done|]. cbv zeta. by split.
Qed.

(** C6. When the inner iterator yields a batch, [RandomCrop] yields that
    dict object. Its loop visits the configured names one after the
    other; for a name with crop shape [(ch, cw)] and incoming array of
    shape [(T, B, C, h, w)] it draws the row offsets with
    [random_integers(0, h - ch, B)] and then the column offsets with
    [random_integers(0, w - cw, B)], from the state of the random source
    that the name before left, and binds the name to a new array of shape
    [(T, B, C, ch, cw)] cut out at these offsets: one row offset in
    [[0, h - ch]] and one column offset in [[0, w - cw]] per sample, so
    every window lies inside the image, used for all time steps and
    channels of the sample. Every other name is left alone, and the
    generator keeps the state after the last draw. [RandomCrop] does
    yield when every configured name is bound to a 5D array at least as
    large as its crop shape. *)
Theorem RandomCrop_batch (rnd : R) (shape_dict : gmap string (list Z))
    inner h data inner' h1 :
  next inner h = Ok (Some data, inner', h1) ->
  (forall o g' h2,
     next (GRandomCrop rnd shape_dict inner) h = Ok (o, g', h2) ->
     o = Some data /\
     (exists rnd',
        g' = GRandomCrop rnd' shape_dict inner' /\
        decorated_from shape_dict RandomCrop_step
          (deref h1 data) (deref h2 data) rnd rnd') /\
     (forall name crop, shape_dict !! name = Some crop ->
        exists r r',
          RandomCrop_step name crop r r'
            (deref h1 data !! name) (deref h2 data !! name))) /\
  ((forall name crop, shape_dict !! name = Some crop ->
      RandomCrop_pre name crop (deref h1 data !! name)) ->
   exists g' h2,
     next (GRandomCrop rnd shape_dict inner) h = Ok (Some data, g', h2)).
Proof.
  intros Hinner. split.
  - intros o g' h2 Hnext. simpl in Hnext. rewrite Hinner in Hnext.
    simpl in Hnext. apply bind_Ok in Hnext as ([rnd' h2'] & Hloop & Hnext).
    injection Hnext as <- <- <-. split; [done|].
    pose proof (for_each_decorated_from data (RandomCrop_body data)
                  RandomCrop_step (RandomCrop_body_step data) shape_dict
                  _ _ _ _ Hloop) as Hdec.
    split; [by exists rnd'|].
    intros name crop Hname. by eapply decorated_from_lookup.
  - intros Hpre. simpl. rewrite Hinner. simpl.
    destruct (for_each_dict_total data (RandomCrop_body data) RandomCrop_post
                RandomCrop_pre shape_dict rnd h1 (RandomCrop_body_spec data))
      as [[rnd' h2] Hloop].
    + intros k c rnd0 h0. apply RandomCrop_body_total.
    + done.
    + rewrite Hloop. simpl. eauto.
Qed.

End CropSteps.

(** ** Pad *)

Lemma broadcastable_refl sh : broadcastable sh sh = true.
Proof. induction sh as [|n sh IH]; simpl; [done|]. by rewrite Nat.eqb_refl. Qed.

Lemma broadcast_index_in_bounds sh ix :
  in_bounds ix sh -> broadcast_index sh ix = ix.
Proof.
  unfold in_bounds. induction 1 as [|i n ix sh Hlt _ IH]; simpl.
  - done.
  - rewrite IH. destruct (Nat.eqb_spec n 1); [|done]. f_equal. lia.
Qed.

Lemma slice_indices_pad (size : Z) (hh : nat) :
  (0 < size)%Z ->
  slice_indices size (- size) (Z.to_nat (Z.of_nat hh + 2 * size))
    = (Z.to_nat size, hh).
Proof.
  intros Hs. unfold slice_indices, clip_index.
  destruct (Z.ltb_spec size 0); [lia|].
  destruct (Z.ltb_spec (- size) 0); [|lia]. f_equal; lia.
Qed.

(** [slice(0, -0)] is the empty slice [0:0] *)
Lemma slice_indices_pad_zero (n : nat) : slice_indices 0 (- 0) n = (0, 0).
Proof. unfold slice_indices, clip_index. simpl. f_equal; lia. Qed.

(** A positive pad size gives the padded array. *)
Lemma pad_array_positive (size : Z) (val : Q) (a : ndarray) t b c hh w :
  (0 < size)%Z -> shape a = [t; b; c; hh; w] ->
  exists a', pad_array size val a = Ok a' /\
    padded_from (Z.to_nat size) val a a'.
Proof.
  intros Hs Hsh. unfold pad_array, as_dim. rewrite Hsh.
  destruct (Z.ltb_spec (Z.of_nat hh + 2 * size) 0); [lia|].
  destruct (Z.ltb_spec (Z.of_nat w + 2 * size) 0); [lia|].
  cbn [bind]. unfold assign_window. cbn [shape full].
  rewrite !slice_indices_pad by done. rewrite Hsh, broadcastable_refl.
  eexists. split; [done|].
  exists t, b, c, hh, w. split; [done|].
  split.
  { cbn [shape].
    assert (Z.to_nat (Z.of_nat hh + 2 * size) = hh + 2 * Z.to_nat size)
      as -> by lia.
    assert (Z.to_nat (Z.of_nat w + 2 * size) = w + 2 * Z.to_nat size)
      as -> by lia.
    done. }
  set (s := Z.to_nat size). split.
  - intros ti bi ci i j Hti Hbi Hci Hi Hj. cbn [item].
    destruct (Nat.leb_spec s (s + i)); [|lia].
    destruct (Nat.ltb_spec (s + i) (s + hh)); [|lia].
    destruct (Nat.leb_spec s (s + j)); [|lia].
    destruct (Nat.ltb_spec (s + j) (s + w)); [|lia].
    cbn [andb]. replace (s + i - s) with i by lia.
    replace (s + j - s) with j by lia.
    rewrite broadcast_index_in_bounds; [done|].
    unfold in_bounds. by repeat constructor.
  - intros ti bi ci y x Hout. cbn [item].
    destruct (Nat.leb_spec s y); destruct (Nat.ltb_spec y (s + hh));
      destruct (Nat.leb_spec s x); destruct (Nat.ltb_spec x (s + w));
      cbn [andb]; try lia; unfold full; cbn [item]; lra.
Qed.

(** With pad size 0 the window [0:-0] is empty: numpy refuses to assign an
    image of more than one row or column into it. *)
Lemma pad_array_zero (val : Q) (a : ndarray) t b c hh w :
  shape a = [t; b; c; hh; w] -> 1 < hh \/ 1 < w ->
  pad_array 0 val a = Raise ValueError.
Proof.
  intros Hsh Hbig. unfold pad_array, as_dim. rewrite Hsh.
  destruct (Z.ltb_spec (Z.of_nat hh + 2 * 0) 0); [lia|].
  destruct (Z.ltb_spec (Z.of_nat w + 2 * 0) 0); [lia|].
  cbn [bind]. unfold assign_window. cbn [shape full].
  rewrite !slice_indices_pad_zero. rewrite Hsh. cbn [broadcastable].
  destruct (Nat.eqb_spec hh 0), (Nat.eqb_spec hh 1), (Nat.eqb_spec w 0),
    (Nat.eqb_spec w 1); try lia;
    by rewrite ?andb_false_r, ?orb_false_r, ?andb_false_l.
Qed.

(** ... and an image of one cell is replaced by the pad value. *)
Lemma pad_array_zero_cell (val : Q) (a : ndarray) t b c :
  shape a = [t; b; c; 1; 1] ->
  exists a', pad_array 0 val a = Ok a' /\
    shape a' = [t; b; c; 1; 1] /\
    forall ix, (item a' ix == val)%Q.
Proof.
  intros Hsh. unfold pad_array, as_dim. rewrite Hsh.
  destruct (Z.ltb_spec (Z.of_nat 1 + 2 * 0) 0); [lia|].
  cbn [bind]. unfold assign_window. cbn [shape full].
  rewrite !slice_indices_pad_zero. rewrite Hsh. cbn [broadcastable].
  rewrite !Nat.eqb_refl. cbn [orb andb].
  eexists. split; [done|]. split; [done|].
  intros ix. unfold full. cbn [item].
  destruct ix as [|? [|? [|? [|y [|x [|? ?]]]]]]; try lra.
  replace (y <? 0 + 0) with false by (symmetry; apply Nat.ltb_ge; lia).
  rewrite andb_false_r. cbn [andb]. lra.
Qed.

Section PadSteps.

Context {R : Type} `{RandomState R}.

Lemma pad_array_Ok_positive size val a a' :
  (0 < size)%Z -> pad_array size val a = Ok a' ->
  padded_from (Z.to_nat size) val a a'.
Proof.
  intros Hs Hpad.
  destruct (shape a) as [|t [|b [|c [|hh [|w [|? ?]]]]]] eqn:Hsh;
    try (unfold pad_array in Hpad; rewrite Hsh in Hpad; discriminate).
  destruct (pad_array_positive size val a t b c hh w Hs Hsh)
    as (a'' & Hpad' & Hpadded).
  congruence.
Qed.

Lemma Pad_body_spec value_dict data name size (rnd : R) h rnd' h' :
  Pad_body value_dict data name size (rnd, h) = Ok (rnd', h') ->
  only_name data name h h' /\
  Pad_post value_dict name size (deref h data !! name)
    (deref h' data !! name).
Proof.
  unfold Pad_body. intros Hrun.
  apply bind_Ok in Hrun as (v & Hv & Hrun).
  apply bind_Ok in Hrun as (a & Ha & Hrun).
  apply bind_Ok in Hrun as (a' & Hpad & Hrun).
  injection Hrun as <- <-.
  unfold getitem in Hv.
  destruct (deref h data !! name) as [v0|] eqn:Hname; [|discriminate].
  injection Hv as ->. destruct v as [a0| |]; try discriminate.
  injection Ha as ->.
  split; [apply only_name_setitem|].
  intros Hs. exists a, a'. split; [done|]. split.
  - apply deref_setitem. by rewrite Hname.
  - by apply pad_array_Ok_positive.
Qed.

Lemma Pad_body_total value_dict data name size (rnd : R) h :
  (exists a t b c hh w,
     deref h data !! name = Some (PyNdarray a) /\
     shape a = [t; b; c; hh; w] /\ (0 < size)%Z) ->
  exists s', Pad_body value_dict data name size (rnd, h) = Ok s'.
Proof.
  intros (a & t & b & c & hh & w & Hname & Hsh & Hs).
  destruct (pad_array_positive size (default 0%Q (value_dict !! name))
              a t b c hh w Hs Hsh) as (a' & Hpad & _).
  unfold Pad_body, getitem. rewrite Hname. cbn [bind as_ndarray].
  rewrite Hpad. simpl. eauto.
Qed.

(** With pad size 0 the step fails on an image of more than one row or
    column. *)
Lemma Pad_body_zero value_dict data name (rnd : R) h a t b c hh w :
  deref h data !! name = Some (PyNdarray a) ->
  shape a = [t; b; c; hh; w] -> 1 < hh \/ 1 < w ->
  Pad_body value_dict data name 0 (rnd, h) = Raise ValueError.
Proof.
  intros Hname Hsh Hbig. unfold Pad_body, getitem. rewrite Hname.
  cbn [bind as_ndarray].
  by rewrite (pad_array_zero _ a t b c hh w Hsh Hbig).
Qed.

(** X13. The part of C5 that holds. When the inner iterator yields a batch,
    [Pad] yields that dict object, in which every name configured with a
    pad size [s >= 1] and pad value [v] is bound to a new array of shape
    [(T, B, C, H + 2s, W + 2s)] whose interior at offset [s] is the
    incoming array and whose border is [v]; every name that is not
    configured is left alone. [Pad] does yield when the pad sizes are
    positive and the configured names are bound to 5D arrays. *)
Theorem Pad_batch (rnd : R) value_dict (size_dict : gmap string Z)
    inner h data inner' h1 :
  next inner h = Ok (Some data, inner', h1) ->
  (forall o g' h2,
     next (GPad rnd value_dict size_dict inner) h = Ok (o, g', h2) ->
     o = Some data /\
     (forall name size, size_dict !! name = Some size -> (0 < size)%Z ->
        exists a a',
          deref h1 data !! name = Some (PyNdarray a) /\
          deref h2 data !! name = Some (PyNdarray a') /\
          padded_from (Z.to_nat size) (default 0%Q (value_dict !! name))
            a a') /\
     (forall name, size_dict !! name = None ->
        deref h2 data !! name = deref h1 data !! name)) /\
  ((forall name size, size_dict !! name = Some size ->
      exists a t b c hh w,
        deref h1 data !! name = Some (PyNdarray a) /\
        shape a = [t; b; c; hh; w] /\ (0 < size)%Z) ->
   exists g' h2,
     next (GPad rnd value_dict size_dict inner) h = Ok (Some data, g', h2)).
Proof.
  intros Hinner. split.
  - intros o g' h2 Hnext. simpl in Hnext. rewrite Hinner in Hnext.
    simpl in Hnext. apply bind_Ok in Hnext as ([rnd' h2'] & Hloop & Hnext).
    injection Hnext as <- <- <-. split; [done|].
    destruct (for_each_dict data (Pad_body value_dict data)
                 (Pad_post value_dict) size_dict
                 _ _ _ _ (Pad_body_spec value_dict data) Hloop)
      as (Hout & Hin).
    split; [|done]. intros name size Hname Hs. by apply (Hin name size).
  - intros Hpre. simpl. rewrite Hinner. simpl.
    destruct (for_each_dict_total data (Pad_body value_dict data)
                (Pad_post value_dict)
                (fun name size v =>
                   exists a t b c hh w, v = Some (PyNdarray a) /\
                     shape a = [t; b; c; hh; w] /\ (0 < size)%Z)
                size_dict rnd h1 (Pad_body_spec value_dict data))
      as [[rnd' h2] Hloop].
    + intros k c rnd0 h0. apply Pad_body_total.
    + done.
    + rewrite Hloop. simpl. eauto.
Qed.

End PadSteps.

(** ** The dataset of a base iterator *)

Section Datasets.

Context {R : Type} `{RandomState R}.

Lemma AddGaussianNoise_body_spec mean_dict data key std (rnd : R) h rnd' h' :
  AddGaussianNoise_body mean_dict data key std (rnd, h) = Ok (rnd', h') ->
  only_name data key h h' /\ True.
Proof.
  unfold AddGaussianNoise_body. intros Hrun.
  apply bind_Ok in Hrun as (v & Hv & Hrun).
  apply bind_Ok in Hrun as (a & Ha & Hrun).
  destruct (standard_normal rnd (shape a)) as [noise rnd1].
  injection Hrun as <- <-. split; [apply only_name_setitem|done].
Qed.

(** a loop of a decorator touches no dict object but the batch *)
Lemma for_each_frame {C} data
    (body : string -> C -> R * heap -> result (R * heap)) Post
    (cfg : gmap string C) rnd h rnd' h' :
  (forall k c rnd h rnd' h',
     body k c (rnd, h) = Ok (rnd', h') ->
     only_name data k h h' /\
     Post k c (deref h data !! k) (deref h' data !! k)) ->
  for_each body (map_to_list cfg) (rnd, h) = Ok (rnd', h') ->
  length h' = length h /\ forall r, r <> data -> h' !! r = h !! r.
Proof.
  intros Hbody Hrun.
  destruct (for_each_names data body Post Hbody _ _ _ _ _
              (NoDup_fst_map_to_list cfg) Hrun) as (Hlen & Hrefs & _).
  done.
Qed.

Lemma slice_batch_fresh start stop data h batch h' :
  slice_batch start stop data h = Ok (batch, h') ->
  batch = length h /\ length h' = S (length h) /\
  forall r, r < length h -> h' !! r = h !! r.
Proof.
  unfold slice_batch. intros Hs. apply bind_Ok in Hs as (d & _ & Hs).
  injection Hs as <- <-. split; [done|]. split.
  - rewrite length_app. simpl. lia.
  - intros r Hr. by apply lookup_app_l.
Qed.

(** Over [Online] or [Minibatches] every batch is a new dict object, and
    a step of the pipeline, decorators included, leaves every dict object
    that existed before it as it was. *)
Lemma next_copies (g : generator R) : forall h o g' h',
  copies_batches g = true ->
  next g h = Ok (o, g', h') ->
  copies_batches g' = true /\ dataset_of g' = dataset_of g /\
  length h <= length h' /\
  (forall r, r < length h -> h' !! r = h !! r) /\
  (forall batch, o = Some batch -> length h <= batch < length h').
Proof.
  induction g as [data fresh|rnd n data sh pc|rnd n data sh k pc
                  |rnd m s inner IH|rnd p inner IH|rnd v s inner IH
                  |rnd s inner IH]; intros h o g' h' Hc Hnext;
    simpl in Hc; try discriminate.
  - simpl in Hnext.
    destruct (match pc with
              | NotStarted => maybe_shuffle sh rnd (arange (Z.of_nat n))
              | Pending indices => (indices, rnd)
              end) as [[|idx rest] rnd1].
    + injection Hnext as <- <- <-. repeat split; first [done | lia].
    + apply bind_Ok in Hnext as ([batch h1] & Hs & Hnext).
      injection Hnext as <- <- <-.
      apply slice_batch_fresh in Hs as (-> & Hlen & Hold).
      repeat split; first [ done | lia | simplify_eq; lia ].
  - simpl in Hnext. apply bind_Ok in Hnext as ([indices rnd1] & _ & Hnext).
    destruct indices as [|idx rest].
    + injection Hnext as <- <- <-. repeat split; first [done | lia].
    + apply bind_Ok in Hnext as ([batch h1] & Hs & Hnext).
      injection Hnext as <- <- <-.
      apply slice_batch_fresh in Hs as (-> & Hlen & Hold).
      repeat split; first [ done | lia | simplify_eq; lia ].
  - simpl in Hnext. apply bind_Ok in Hnext as ([[o1 g1] h1] & Hin & Hnext).
    destruct (IH _ _ _ _ Hc Hin) as (Hc1 & Hd1 & Hlen1 & Hold1 & Hb1).
    destruct o1 as [batch|].
    + apply bind_Ok in Hnext as ([rnd1 h2] & Hloop & Hnext).
      injection Hnext as <- <- <-.
      destruct (for_each_frame batch _ (fun _ _ _ _ => True) _ _ _ _ _
                  (AddGaussianNoise_body_spec m batch) Hloop)
        as (Hlen2 & Hold2).
      specialize (Hb1 batch eq_refl).
      repeat split;
        first [ done | lia | simplify_eq; lia
              | intros r Hr; rewrite Hold2 by lia; by apply Hold1 ].
    + injection Hnext as <- <- <-. repeat split; first [done | lia].
  - simpl in Hnext. apply bind_Ok in Hnext as ([[o1 g1] h1] & Hin & Hnext).
    destruct (IH _ _ _ _ Hc Hin) as (Hc1 & Hd1 & Hlen1 & Hold1 & Hb1).
    destruct o1 as [batch|].
    + apply bind_Ok in Hnext as ([rnd1 h2] & Hloop & Hnext).
      injection Hnext as <- <- <-.
      destruct (for_each_frame batch _ Flip_post _ _ _ _ _
                  (Flip_body_spec batch) Hloop) as (Hlen2 & Hold2).
      specialize (Hb1 batch eq_refl).
      repeat split;
        first [ done | lia | simplify_eq; lia
              | intros r Hr; rewrite Hold2 by lia; by apply Hold1 ].
    + injection Hnext as <- <- <-. repeat split; first [done | lia].
  - simpl in Hnext. apply bind_Ok in Hnext as ([[o1 g1] h1] & Hin & Hnext).
    destruct (IH _ _ _ _ Hc Hin) as (Hc1 & Hd1 & Hlen1 & Hold1 & Hb1).
    destruct o1 as [batch|].
    + apply bind_Ok in Hnext as ([rnd1 h2] & Hloop & Hnext).
      injection Hnext as <- <- <-.
      destruct (for_each_frame batch _ (Pad_post v) _ _ _ _ _
                  (Pad_body_spec v batch) Hloop) as (Hlen2 & Hold2).
      specialize (Hb1 batch eq_refl).
      repeat split;
        first [ done | lia | simplify_eq; lia
              | intros r Hr; rewrite Hold2 by lia; by apply Hold1 ].
    + injection Hnext as <- <- <-. repeat split; first [done | lia].
  - simpl in Hnext. apply bind_Ok in Hnext as ([[o1 g1] h1] & Hin & Hnext).
    destruct (IH _ _ _ _ Hc Hin) as (Hc1 & Hd1 & Hlen1 & Hold1 & Hb1).
    destruct o1 as [batch|].
    + apply bind_Ok in Hnext as ([rnd1 h2] & Hloop & Hnext).
      injection Hnext as <- <- <-.
      destruct (for_each_frame batch _ RandomCrop_post _ _ _ _ _
                  (RandomCrop_body_spec batch) Hloop) as (Hlen2 & Hold2).
      specialize (Hb1 batch eq_refl).
      repeat split;
        first [ done | lia | simplify_eq; lia
              | intros r Hr; rewrite Hold2 by lia; by apply Hold1 ].
    + injection Hnext as <- <- <-. repeat split; first [done | lia].
Qed.

Lemma pull_copies n : forall (g : generator R) h batches g' h',
  copies_batches g = true ->
  pull n g h = Ok (batches, g', h') ->
  forall r, r < length h -> h' !! r = h !! r.
Proof.
  induction n as [|n IH]; intros g h batches g' h' Hc Hpull r Hr.
  - simpl in Hpull. by injection Hpull as _ _ <-.
  - simpl in Hpull. apply bind_Ok in Hpull as ([[o g1] h1] & Hnext & Hpull).
    destruct (next_copies _ _ _ _ _ Hc Hnext) as (Hc1 & _ & Hlen & Hold & _).
    destruct o as [batch|].
    + apply bind_Ok in Hpull as ([[bs g2] h2] & Hrest & Hpull).
      injection Hpull as _ _ <-.
      rewrite (IH _ _ _ _ _ Hc1 Hrest) by lia. by apply Hold.
    + injection Hpull as _ _ <-. by apply Hold.
Qed.

Lemma call_dataset (it : iterator R) : dataset_of (call it) = data_names it.
Proof. induction it; simpl; done. Qed.

(** X20. What C4 says holds over [Online] and [Minibatches]: whatever
    decorators are wrapped around them, drawing batches leaves every dict
    object that existed before as it was, the dataset among them. This
    holds after any number of batches drawn ([pull m]), and so after a
    whole pass ([run]). *)
Theorem dataset_unchanged_over_copies (it : iterator R) h :
  copies_batches (call it) = true ->
  (forall m batches g h',
     pull m (call it) h = Ok (batches, g, h') ->
     (forall r, r < length h -> h' !! r = h !! r) /\
     (data_names it < length h ->
      deref h' (data_names it) = deref h (data_names it))) /\
  (forall batches it' h',
     run it h = Ok (batches, it', h') ->
     (forall r, r < length h -> h' !! r = h !! r) /\
     (data_names it < length h ->
      deref h' (data_names it) = deref h (data_names it))).
Proof.
  intros Hc.
  assert (Hpulls : forall m batches g h',
            pull m (call it) h = Ok (batches, g, h') ->
            (forall r, r < length h -> h' !! r = h !! r) /\
            (data_names it < length h ->
             deref h' (data_names it) = deref h (data_names it))).
  { intros m batches g h' Hpull.
    pose proof (pull_copies _ _ _ _ _ _ Hc Hpull) as Hold.
    split; [done|]. intros Hd. unfold deref. by rewrite Hold. }
  split; [done|].
  intros batches it' h' Hrun. unfold run in Hrun.
  apply bind_Ok in Hrun as ([[bs g] h1] & Hpull & Hrun).
  injection Hrun as _ _ <-. by eapply Hpulls.
Qed.

(** [Undivided] yields the dataset object itself. *)
Lemma Undivided_yields_dataset data (h : heap) :
  next (GUndivided (R := R) data true) h
    = Ok (Some data, GUndivided data false, h).
Proof. done. Qed.

Lemma Undivided_pass data (h : heap) :
  run (Undivided (R := R) data) h = Ok ([deref h data], Undivided data, h).
Proof. done. Qed.

(** The part of C9 that holds: a base iterator on its own yields the same
    batches again, when it does not shuffle or when the pass starts from
    the same state of the generator. *)
Theorem base_passes_agree :
  (forall data (h : heap),
     exists batches h1,
       run (Undivided (R := R) data) h = Ok (batches, Undivided data, h1) /\
       run (Undivided (R := R) data) h1 = Ok (batches, Undivided data, h1)) /\
  (forall shuffle (rnd : R) n data h d,
     h !! data = Some d -> sliceable d ->
     exists batches it1 h1 it2 h2,
       run (Online rnd n data shuffle) h = Ok (batches, it1, h1) /\
       run (Online rnd n data shuffle) h1 = Ok (batches, it2, h2) /\
       (shuffle = false -> it1 = Online rnd n data shuffle)) /\
  (forall k shuffle (rnd : R) n data h d,
     k <> 0%Z -> h !! data = Some d -> sliceable d ->
     exists batches it1 h1 it2 h2,
       run (Minibatches rnd n data shuffle k) h = Ok (batches, it1, h1) /\
       run (Minibatches rnd n data shuffle k) h1 = Ok (batches, it2, h2) /\
       (shuffle = false -> it1 = Minibatches rnd n data shuffle k)).
Proof.
  split; [|split].
  - intros data h. eexists _, _. split; apply Undivided_pass.
  - intros shuffle rnd n data h d Hdata Hd.
    eexists _, _, _, _, _. split; [by apply Online_pass|]. split.
    + apply Online_pass; [by apply lookup_app_l_Some|done].
    + by intros ->.
  - intros k shuffle rnd n data h d Hk Hdata Hd.
    eexists _, _, _, _, _. split; [by apply Minibatches_pass|]. split.
    + apply Minibatches_pass; [done|by apply lookup_app_l_Some|done].
    + by intros ->.
Qed.

End Datasets.

(** ** Pipelines on the sample dataset *)

Import Scripted.

(** C5. [Pad] accepts the pad size 0 at construction, and the first batch
    then fails: the assignment into the window [0:-0] raises a ValueError
    instead of yielding the array unchanged. *)
Theorem Pad_size_zero_raises_ValueError :
  exists it h p,
    Undivided_init sample_data [] = Ok (it, h) /\
    Pad_init it {[ "default"%string := 0%Z ]} None ([] : list nat) h = Ok p /\
    run p h = Raise ValueError.
Proof.
  eexists _, _, _. split; [reflexivity|]. split; [reflexivity|].
  vm_compute. reflexivity.
Qed.

(** C2, as stated, fails with shuffling: 3 samples in blocks of 2 are two
    batches, and when the shuffled order starts with the final block the
    first batch yielded, which is not the last, has sample extent 1
    instead of 2. *)
Lemma Minibatches_shuffled_short_batch_first :
  exists it h batches it' h' first,
    Minibatches_init 2 true [1] sample_data [] = Ok (it, h) /\
    run it h = Ok (batches, it', h') /\
    map shapes_in batches
      = [[("default"%string, Some [1; 1; 1; 2; 2])];
         [("default"%string, Some [1; 2; 1; 2; 2])]] /\
    batches !! 0 = Some first /\
    ~ sample_extent_is 2 first.
Proof.
  eexists _, _, _, _, _, _. split; [reflexivity|].
  split; [vm_compute; reflexivity|]. split; [vm_compute; reflexivity|].
  split; [reflexivity|].
  intros Hext.
  specialize (Hext "default"%string
                (PyNdarray
                   {| shape := [1; 1; 1; 2; 2];
                      item := fun ix => match ix with
                                        | i :: j :: r =>
                                            item sample_array (i :: 2 + j :: r)
                                        | _ => item sample_array ix
                                        end |})
                eq_refl).
  destruct Hext as (sh & Hsh & Hb). injection Hsh as <-. discriminate Hb.
Qed.

(** C4. [Undivided] yields its own dict, and [Pad] assigns the padded
    array into the dict it receives: after one pass the dataset of the
    base iterator holds the padded array in place of the original. *)
Theorem Undivided_dataset_rebound_by_Pad :
  exists it h p batches p' h',
    Undivided_init sample_data [] = Ok (it, h) /\
    Pad_init it {[ "default"%string := 1%Z ]} None ([] : list nat) h = Ok p /\
    run p h = Ok (batches, p', h') /\
    get_data it = Ok 0 /\
    shapes_in (deref h 0) = [("default"%string, Some [1; 3; 1; 2; 2])] /\
    shapes_in (deref h' 0) = [("default"%string, Some [1; 3; 1; 4; 4])].
Proof.
  eexists _, _, _, _, _, _. split; [reflexivity|]. split; [reflexivity|].
  split; [vm_compute; reflexivity|]. split; [reflexivity|].
  split; vm_compute; reflexivity.
Qed.

(** C9. Two passes over [Pad] around [Undivided], which draw nothing, do
    not yield the same batches: the second pass pads what the first left
    in the dataset. The same holds for [Flip] with probability 1 when the
    second pass starts again from the seed: it yields the array the first
    pass reversed, reversed back. *)
Theorem passes_over_Undivided_differ :
  (exists it h p b1 p1 h1 b2 p2 h2,
     Undivided_init sample_data [] = Ok (it, h) /\
     Pad_init it {[ "default"%string := 1%Z ]} None ([] : list nat) h
       = Ok p /\
     run p h = Ok (b1, p1, h1) /\
     p1 = p /\
     run p1 h1 = Ok (b2, p2, h2) /\
     map shapes_in b1 = [[("default"%string, Some [1; 3; 1; 4; 4])]] /\
     map shapes_in b2 = [[("default"%string, Some [1; 3; 1; 6; 6])]]) /\
  (exists it h f b1 f1 h1 b2 f2 h2,
     Undivided_init sample_data [] = Ok (it, h) /\
     Flip_init it (Some {[ "default"%string := 1%Q ]}) [7] h = Ok f /\
     run f h = Ok (b1, f1, h1) /\
     run f h1 = Ok (b2, f2, h2) /\
     map (fun b => item_in b "default" [0; 0; 0; 0; 0]) b1 = [Some 1%Q] /\
     map (fun b => item_in b "default" [0; 0; 0; 0; 0]) b2 = [Some 0%Q]).
Proof.
  split.
  - eexists _, _, _, _, _, _, _, _, _.
    split; [reflexivity|]. split; [reflexivity|].
    split; [vm_compute; reflexivity|]. split; [reflexivity|].
    split; [vm_compute; reflexivity|]. split; vm_compute; reflexivity.
  - eexists _, _, _, _, _, _, _, _, _.
    split; [reflexivity|]. split; [vm_compute; reflexivity|].
    split; [vm_compute; reflexivity|].
    split; [vm_compute; reflexivity|]. split; vm_compute; reflexivity.
Qed.

(** ** The theorems at concrete inputs *)

Lemma decorator_around_decorator_witness :
  let inner : iterator (list nat) :=
    Pad [] ∅ {[ "default"%string := 1%Z ]} (Undivided 0) in
  is_decorator inner = true /\
  ((forall std_dict, std_dict <> ∅ ->
      AddGaussianNoise_init inner std_dict None [] [sample_data]
        = Raise AttributeError) /\
   (forall prob_dict, prob_dict <> Some ∅ ->
      Flip_init inner prob_dict [] [sample_data] = Raise AttributeError) /\
   (forall size_dict, size_dict <> ∅ ->
      Pad_init inner size_dict None [] [sample_data] = Raise AttributeError) /\
   (forall shape_dict, shape_dict <> ∅ ->
      RandomCrop_init inner shape_dict [] [sample_data]
        = Raise AttributeError)).
Proof.
  split; [reflexivity|].
  apply (decorator_around_decorator_raises_AttributeError
           (Pad [] ∅ {[ "default"%string := 1%Z ]} (Undivided 0))
           [sample_data] []).
  reflexivity.
Defined.

Lemma AddGaussianNoise_names_differ_witness :
  dom (∅ : gmap string Q) <> dom ({[ "default"%string := 1%Q ]} : gmap string Q) /\
  (AddGaussianNoise_init (Undivided 0) {[ "default"%string := 1%Q ]}
     (Some ∅) ([] : list nat) [sample_data] = Raise AssertionError /\
   is_validation_error AssertionError = false).
Proof.
  assert (Hne : dom (∅ : gmap string Q)
                <> dom ({[ "default"%string := 1%Q ]} : gmap string Q)).
  { apply (bool_decide_unpack _). vm_compute. exact I. }
  split; [exact Hne|].
  apply (AddGaussianNoise_names_differ_AssertionError
           (Undivided 0) {[ "default"%string := 1%Q ]} ∅ [] [sample_data] Hne).
Defined.

Lemma Online_yields_single_samples_witness :
  Online_init true [1; 1] sample_data []
    = Ok (Online [1; 1] 3 0 true, [sample_data]) /\
  exists totalSamples batches it' h2,
    _assert_correct_data_format sample_data = Ok totalSamples /\
    run (Online [1; 1] 3 0 true) [sample_data] = Ok (batches, it', h2) /\
    length batches = totalSamples /\
    Forall (batch_of sample_data totalSamples 1) batches.
Proof.
  split; [reflexivity|].
  apply (Online_yields_single_samples true [1; 1] sample_data []).
  reflexivity.
Defined.

Lemma Minibatches_block_extents_witness :
  (1 <= 2)%Z /\
  Minibatches_init 2 true [1] sample_data []
    = Ok (Minibatches [1] 3 0 true 2, [sample_data]) /\
  exists totalSamples order batches it' h2,
    _assert_correct_data_format sample_data = Ok totalSamples /\
    run (Minibatches [1] 3 0 true 2) [sample_data] = Ok (batches, it', h2) /\
    let blocks := Z.to_nat (ceil_div (Z.of_nat totalSamples) 2) in
    length batches = blocks /\
    order ≡ₚ seq 0 blocks /\
    (true = false -> order = seq 0 blocks) /\
    Forall2 (fun idx batch =>
               batch_of sample_data totalSamples
                 (block_extent totalSamples 2 blocks idx) batch)
      order batches.
Proof.
  split; [lia|]. split; [reflexivity|].
  apply (Minibatches_block_extents 2 true [1] sample_data []);
    [lia | reflexivity].
Defined.

Lemma Flip_batch_witness :
  next (GUndivided (R := list nat) 0 true) [sample_data]
    = Ok (Some 0, GUndivided 0 false, [sample_data]) /\
  (forall name p,
     ({[ "default"%string := 1%Q ]} : gmap string Q) !! name = Some p ->
     exists a, deref [sample_data] 0 !! name = Some (PyNdarray a) /\
       shape a <> []) /\
  exists g' h2,
    next (GFlip [7] {[ "default"%string := 1%Q ]} (GUndivided 0 true))
      [sample_data] = Ok (Some 0, g', h2) /\
    exists a a',
      deref [sample_data] 0 !! "default"%string = Some (PyNdarray a) /\
      deref h2 0 !! "default"%string = Some (PyNdarray a') /\
      reversed_last a a'.
Proof.
  assert (Hpre : forall name p,
     ({[ "default"%string := 1%Q ]} : gmap string Q) !! name = Some p ->
     exists a, deref [sample_data] 0 !! name = Some (PyNdarray a) /\
       shape a <> []).
  { intros name p Hname. apply lookup_singleton_Some in Hname as [<- _].
    exists sample_array. split; [reflexivity|discriminate]. }
  split; [reflexivity|]. split; [exact Hpre|].
  destruct (Flip_batch [7] {[ "default"%string := 1%Q ]}
              (GUndivided 0 true) [sample_data] 0 (GUndivided 0 false)
              [sample_data] eq_refl) as [Hprop Hyield].
  destruct (Hyield Hpre) as (g' & h2 & Hnext).
  exists g', h2. split; [exact Hnext|].
  destruct (Hprop _ _ _ Hnext) as (_ & Hone & _).
  apply (Hone "default"%string 1%Q); [reflexivity|reflexivity].
Defined.

Lemma RandomCrop_batch_witness :
  next (GUndivided (R := list nat) 0 true) [sample_data]
    = Ok (Some 0, GUndivided 0 false, [sample_data]) /\
  (forall name crop,
     ({[ "default"%string := [1; 1]%Z ]} : gmap string (list Z)) !! name
       = Some crop ->
     RandomCrop_pre name crop (deref [sample_data] 0 !! name)) /\
  exists g' h2,
    next (GRandomCrop [5; 3] {[ "default"%string := [1; 1]%Z ]}
            (GUndivided 0 true))
      [sample_data] = Ok (Some 0, g', h2) /\
    exists rnd',
      g' = GRandomCrop rnd' {[ "default"%string := [1; 1]%Z ]}
             (GUndivided 0 false) /\
      decorated_from {[ "default"%string := [1; 1]%Z ]} RandomCrop_step
        (deref [sample_data] 0) (deref h2 0) [5; 3] rnd'.
Proof.
  assert (Hpre : forall name crop,
     ({[ "default"%string := [1; 1]%Z ]} : gmap string (list Z)) !! name
       = Some crop ->
     RandomCrop_pre name crop (deref [sample_data] 0 !! name)).
  { intros name crop Hname. apply lookup_singleton_Some in Hname as [<- <-].
    exists 1%Z, 1%Z, sample_array, 1, 3, 1, 2, 2.
    repeat split; try reflexivity; lia. }
  split; [reflexivity|]. split; [exact Hpre|].
  destruct (RandomCrop_batch [5; 3] {[ "default"%string := [1; 1]%Z ]}
              (GUndivided 0 true) [sample_data] 0 (GUndivided 0 false)
              [sample_data] eq_refl) as [Hprop Hyield].
  destruct (Hyield Hpre) as (g' & h2 & Hnext).
  exists g', h2. split; [exact Hnext|].
  destruct (Hprop _ _ _ Hnext) as (_ & Hdec & _). exact Hdec.
Defined.

(** * Further properties of the module *)

(** ** The validator, both ways *)

Lemma foldr_min_replicate n b : foldr Nat.min b (replicate n b) = b.
Proof. induction n as [|n IH]; simpl; [done|]. rewrite IH. lia. Qed.

Lemma foldr_max_replicate n b : foldr Nat.max b (replicate n b) = b.
Proof. induction n as [|n IH]; simpl; [done|]. rewrite IH. lia. Qed.

Lemma collect_extents_uniform items T B :
  Forall (fun kv : string * pyvalue =>
            exists rest, py_shape kv.2 = Some (T :: B :: rest) /\ rest <> [])
    items ->
  collect_extents items
    = Ok (replicate (length items) B, replicate (length items) T).
Proof.
  induction 1 as [|[name v] items (rest & Hsh & Hrest) _ IH]; simpl; [done|].
  simpl in Hsh. rewrite Hsh. destruct rest as [|c rest]; [done|].
  simpl. by rewrite IH.
Qed.

(** X1. The validator accepts exactly the non-empty datasets whose arrays all
    have a shape of rank 3 or more with one common first extent and one
    common second extent, and it returns the second extent. *)
Theorem validator_accepts_iff (named_data : pydict) (n : nat) :
  _assert_correct_data_format named_data = Ok n <->
  named_data <> ∅ /\
  exists T,
    forall name v, named_data !! name = Some v ->
      exists rest, py_shape v = Some (T :: n :: rest) /\ rest <> [].
Proof.
  split; [apply validated_dataset|].
  intros (Hne & T & Hall). unfold _assert_correct_data_format.
  rewrite (collect_extents_uniform _ T n).
  - destruct (map_to_list named_data) as [|kv items] eqn:Hitems.
    { by apply map_to_list_empty_iff in Hitems. }
    simpl. rewrite !foldr_min_replicate, !foldr_max_replicate.
    by rewrite !Nat.eqb_refl.
  - apply Forall_forall. intros [name v] Hin.
    apply elem_of_map_to_list in Hin. simpl. eauto.
Qed.

Section BaseFurther.

Context {R : Type} `{RandomState R}.

(** ** Undivided *)

(** X3. [Undivided] on a validated dataset yields one batch and stops; the
    batch is the dataset, and it is the dataset object itself that is
    handed out, not a copy. *)
Theorem Undivided_yields_the_dataset named_data h (it : iterator R) h1 :
  Undivided_init named_data h = Ok (it, h1) ->
  run it h1 = Ok ([named_data], it, h1) /\
  exists data,
    get_data it = Ok data /\ deref h1 data = named_data /\
    next (call it) h1 = Ok (Some data, GUndivided data false, h1).
Proof.
  unfold Undivided_init. intros Hinit.
  apply bind_Ok in Hinit as (n & Hv & Hinit). simpl in Hinit.
  injection Hinit as <- <-. split.
  - unfold run. simpl. by rewrite deref_alloc.
  - exists (length h). split; [done|]. split; [apply deref_alloc|done].
Qed.

(** ** The samples in the batches *)

Lemma slice_samples_item start stop a a' t b rest i j r :
  shape a = t :: b :: rest ->
  slice_samples start stop a = Ok a' ->
  item a' (i :: j :: r) = item a (i :: (slice_indices start stop b).1 + j :: r).
Proof.
  intros Hsh. unfold slice_samples. rewrite Hsh.
  destruct (slice_indices start stop b) as [lo len]. by intros [= <-].
Qed.

Lemma slice_indices_block_start (idx n : nat) (k : Z) :
  (0 < k)%Z -> idx < Z.to_nat (ceil_div (Z.of_nat n) k) ->
  (slice_indices (Z.of_nat idx * k) ((Z.of_nat idx + 1) * k) n).1
    = idx * Z.to_nat k.
Proof.
  intros Hk Hidx. unfold slice_indices, clip_index. cbn [fst].
  pose proof (ceil_div_spec (Z.of_nat n) k Hk) as [Hlo Hhi].
  revert Hidx Hlo Hhi. generalize (ceil_div (Z.of_nat n) k) as m.
  intros m Hidx Hlo Hhi.
  destruct (Z.ltb_spec (Z.of_nat idx * k) 0); [nia|].
  assert (Z.of_nat idx <= m - 1)%Z by lia. nia.
Qed.

Lemma slice_indices_sample_start (idx n : nat) :
  idx < n -> (slice_indices (Z.of_nat idx) (Z.of_nat idx + 1) n).1 = idx.
Proof.
  intros Hidx. unfold slice_indices, clip_index. cbn [fst].
  destruct (Z.ltb_spec (Z.of_nat idx) 0); lia.
Qed.

Lemma slice_dict_samples start stop (d : pydict) name a t b rest :
  d !! name = Some (PyNdarray a) -> shape a = t :: b :: rest ->
  exists a', slice_dict start stop d !! name = Some (PyNdarray a') /\
    shape a' = t :: (slice_indices start stop b).2 :: rest /\
    samples_from (slice_indices start stop b).1 a a'.
Proof.
  intros Hname Hsh. unfold slice_dict. rewrite lookup_omap, Hname. simpl.
  destruct (slice_samples start stop a) as [a'|] eqn:Hs.
  - exists a'. split; [done|]. split.
    + unfold slice_samples, slice_indices in Hs. rewrite Hsh in Hs.
      simpl in Hs. by injection Hs as <-.
    + intros i j r. by eapply slice_samples_item.
  - unfold slice_samples, slice_indices in Hs. by rewrite Hsh in Hs.
Qed.

(** X4. One pass of [Online] yields every sample exactly once: the batches
    are a permutation of the one-sample batches in the order of the
    dataset (and are in that order without shuffling), and the batch of
    sample [idx] binds every name to the sample [idx] of its array. *)
Theorem Online_yields_every_sample_once shuffle (seed : R) named_data h it h1 :
  Online_init shuffle seed named_data h = Ok (it, h1) ->
  exists n batches it' h2,
    _assert_correct_data_format named_data = Ok n /\
    run it h1 = Ok (batches, it', h2) /\
    batches ≡ₚ Online_batches named_data (seq 0 n) /\
    (shuffle = false -> batches = Online_batches named_data (seq 0 n)) /\
    forall idx batch,
      Online_batches named_data (seq 0 n) !! idx = Some batch ->
      forall name a, named_data !! name = Some (PyNdarray a) ->
        exists a', batch !! name = Some (PyNdarray a') /\
          samples_from idx a a'.
Proof.
  intros Hinit.
  destruct (Online_run _ _ _ _ _ _ Hinit)
    as (n & order & rnd' & Hv & -> & -> & Hord & Hrun).
  pose proof (maybe_shuffle_Permutation shuffle seed (seq 0 n)) as Hp.
  rewrite <- Hord in Hp. simpl in Hp.
  eexists n, _, _, _. split; [done|]. split; [exact Hrun|]. split; [|split].
  - unfold Online_batches. by rewrite Hp.
  - intros ->. injection Hord as -> _. done.
  - intros idx batch Hbatch name a Hname. unfold Online_batches in Hbatch.
    rewrite list_lookup_fmap in Hbatch.
    destruct (seq 0 n !! idx) as [idx'|] eqn:Hidx; [|done].
    apply lookup_seq in Hidx as [-> Hlt]. simpl in Hbatch.
    injection Hbatch as <-.
    destruct (validated_dataset _ _ Hv) as (_ & T & Hall).
    destruct (Hall _ _ Hname) as (rest & Hsh & _). injection Hsh as Hsh.
    destruct (slice_dict_samples (Z.of_nat idx) (Z.of_nat idx + 1)
                _ _ _ _ _ _ Hname Hsh) as (a' & Ha' & _ & Hs).
    exists a'. split; [done|].
    by rewrite slice_indices_sample_start in Hs.
Qed.

(** the block extents add up: the batches of one pass of [Minibatches]
    hold [n] samples together *)
Lemma block_extents_sum (n : nat) (k : Z) :
  (0 < k)%Z ->
  let blocks := Z.to_nat (ceil_div (Z.of_nat n) k) in
  sum_list (block_extent n k blocks <$> seq 0 blocks) = n.
Proof.
  intros Hk blocks.
  destruct (decide (n = 0)) as [->|Hn].
  { assert (blocks = 0) as ->; [|done]. unfold blocks.
    pose proof (ceil_div_spec (Z.of_nat 0) k Hk). nia. }
  pose proof (ceil_div_spec (Z.of_nat n) k Hk) as [Hlo Hhi].
  pose proof (last_block_size (Z.of_nat n) k Hk ltac:(lia)) as Hlast.
  assert (Hb : Z.of_nat blocks = ceil_div (Z.of_nat n) k) by (unfold blocks; nia).
  destruct blocks as [|m] eqn:Hblocks; [nia|].
  rewrite seq_S, fmap_app, sum_list_with_app. simpl.
  assert (Hfull : forall m', m' <= m ->
            sum_list (block_extent n k (S m) <$> seq 0 m')
            = m' * Z.to_nat k).
  { induction m' as [|m' IH]; intros Hle; [done|].
    rewrite seq_S, fmap_app, sum_list_with_app, IH by lia. simpl.
    unfold block_extent. destruct (Nat.eqb_spec (S m') (S m)); lia. }
  rewrite Hfull by lia. unfold block_extent. rewrite Nat.eqb_refl.
  rewrite <- Hlast, <- Hb. nia.
Qed.

(** X5. One pass of [Minibatches] with [batch_size = k >= 1] cuts the dataset
    into consecutive blocks: the batches are a permutation of the batches
    of the blocks in increasing order (and are in that order without
    shuffling), the batch of block [idx] binds every name to the samples
    from [idx * k] on, and the sample extents of the batches add up to
    the number of samples. *)
Theorem Minibatches_blocks_partition k shuffle (seed : R) named_data h it h1 :
  (1 <= k)%Z ->
  Minibatches_init k shuffle seed named_data h = Ok (it, h1) ->
  exists n batches it' h2,
    _assert_correct_data_format named_data = Ok n /\
    run it h1 = Ok (batches, it', h2) /\
    let blocks := Z.to_nat (ceil_div (Z.of_nat n) k) in
    batches ≡ₚ Minibatches_batches k named_data (seq 0 blocks) /\
    (shuffle = false ->
       batches = Minibatches_batches k named_data (seq 0 blocks)) /\
    sum_list (block_extent n k blocks <$> seq 0 blocks) = n /\
    forall idx batch,
      Minibatches_batches k named_data (seq 0 blocks) !! idx = Some batch ->
      forall name a, named_data !! name = Some (PyNdarray a) ->
        exists a' T rest,
          batch !! name = Some (PyNdarray a') /\
          shape a = T :: n :: rest /\
          shape a' = T :: block_extent n k blocks idx :: rest /\
          samples_from (idx * Z.to_nat k) a a'.
Proof.
  intros Hk Hinit. assert (Hk0 : k <> 0%Z) by lia.
  destruct (Minibatches_run _ _ _ _ _ _ _ Hk0 Hinit)
    as (n & order & rnd' & Hv & -> & -> & Hord & Hrun).
  set (blocks := Z.to_nat (ceil_div (Z.of_nat n) k)) in *.
  pose proof (maybe_shuffle_Permutation shuffle seed (seq 0 blocks)) as Hp.
  rewrite <- Hord in Hp. simpl in Hp.
  eexists n, _, _, _. split; [done|]. split; [exact Hrun|].
  cbn zeta. fold blocks. split; [|split; [|split]].
  - unfold Minibatches_batches. by rewrite Hp.
  - intros ->. injection Hord as -> _. done.
  - apply block_extents_sum. lia.
  - intros idx batch Hbatch name a Hname. unfold Minibatches_batches in Hbatch.
    rewrite list_lookup_fmap in Hbatch.
    destruct (seq 0 blocks !! idx) as [idx'|] eqn:Hidx; [|done].
    apply lookup_seq in Hidx as [-> Hlt]. simpl in Hbatch.
    injection Hbatch as <-.
    destruct (validated_dataset _ _ Hv) as (_ & T & Hall).
    destruct (Hall _ _ Hname) as (rest & Hsh & _). injection Hsh as Hsh.
    destruct (slice_dict_samples (Z.of_nat idx * k) ((Z.of_nat idx + 1) * k)
                _ _ _ _ _ _ Hname Hsh) as (a' & Ha' & Hsh' & Hs).
    exists a', T, rest. split; [done|]. split; [done|].
    rewrite slice_indices_block in Hsh' by (fold blocks; lia).
    rewrite slice_indices_block_start in Hs by (fold blocks; lia).
    done.
Qed.

(** X6. [Minibatches] does not validate its batch size: with [batch_size = 0]
    construction succeeds and the first request for a batch raises a
    ZeroDivisionError; with a negative batch size a pass yields no batch
    at all. *)
Theorem Minibatches_degenerate_batch_size k shuffle (seed : R) named_data
    h it h1 :
  (k <= 0)%Z ->
  Minibatches_init k shuffle seed named_data h = Ok (it, h1) ->
  (k = 0%Z -> run it h1 = Raise ZeroDivisionError) /\
  ((k < 0)%Z -> exists it', run it h1 = Ok ([], it', h1)).
Proof.
  unfold Minibatches_init. intros Hk Hinit.
  apply bind_Ok in Hinit as (n & Hv & Hinit). simpl in Hinit.
  injection Hinit as <- <-. split.
  - intros ->. done.
  - intros Hneg. unfold run. cbn [call remaining].
    assert (Hceil : Z.to_nat (ceil_div (Z.of_nat n) k) = 0).
    { unfold ceil_div.
      assert (0 <= - Z.of_nat n / k)%Z; [|lia].
      replace k with (- - k)%Z by lia. rewrite Z.div_opp_opp by lia.
      apply Z.div_pos; lia. }
    rewrite Hceil. simpl. destruct (Z.eqb_spec k 0); [lia|]. simpl.
    unfold arange. rewrite Hceil. simpl.
    destruct shuffle; simpl.
    + pose proof (shuffle_Permutation seed []) as Hp.
      destruct (shuffle seed []) as [l rnd'] eqn:Hs. simpl in Hp.
      apply Permutation_nil_r in Hp. subst l. simpl. eauto.
    + eauto.
Qed.

End BaseFurther.

(** ** Construction of a decorator around a base iterator *)

Lemma for_each_checks_Ok {C} (check : string -> C -> result unit) items :
  for_each (fun k c (_ : unit) => check k c) items tt = Ok tt <->
  forall k c, (k, c) ∈ items -> check k c = Ok tt.
Proof.
  induction items as [|[k c] items IH]; simpl.
  - split; [|done]. intros _ k c Hin. by apply elem_of_nil in Hin.
  - split.
    + intros Hrun. apply bind_Ok in Hrun as ([] & Hk & Hrest).
      intros k' c' Hin. apply elem_of_cons in Hin as [[= -> ->]|Hin];
        [done|]. by apply IH.
    + intros Hall. rewrite (Hall k c) by left. simpl. apply IH.
      intros k' c' Hin. apply Hall. by right.
Qed.

Lemma for_each_checks_Raise {C} (check : string -> C -> result unit) items e :
  for_each (fun k c (_ : unit) => check k c) items tt = Raise e ->
  exists k c, (k, c) ∈ items /\ check k c = Raise e.
Proof.
  induction items as [|[k c] items IH]; simpl; [discriminate|].
  destruct (check k c) as [[]|e'] eqn:Hk; simpl.
  - intros Hrest. destruct (IH Hrest) as (k' & c' & Hin & Hc).
    exists k', c'. split; [by right|done].
  - intros [= <-]. exists k, c. split; [left|done].
Qed.

Lemma result_unit_cases (r : result unit) : r = Ok tt \/ exists e, r = Raise e.
Proof. destruct r as [[]|e]; eauto. Qed.

Section ConstructionFurther.

Context {R : Type} `{RandomState R}.

Lemma lookup_inner_base (it : iterator R) data h key :
  get_data it = Ok data ->
  lookup_inner it h key
  = match deref h data !! key with
    | None => Raise (IteratorValidationError (KeyNotPresent key))
    | Some v => Ok v
    end.
Proof. intros Hd. unfold lookup_inner. by rewrite Hd. Qed.

Lemma length_5 (sh : list nat) :
  length sh = 5 <-> exists t b c hh w, sh = [t; b; c; hh; w].
Proof.
  split.
  - destruct sh as [|t [|b [|c [|hh [|w [|? ?]]]]]]; try discriminate.
    intros _. by exists t, b, c, hh, w.
  - by intros (t & b & c & hh & w & ->).
Qed.

Lemma check_ndarray_outcome (it : iterator R) data h key :
  get_data it = Ok data ->
  (check_ndarray it h key = Ok tt <->
   exists a, deref h data !! key = Some (PyNdarray a)) /\
  (forall e, check_ndarray it h key = Raise e -> is_validation_error e = true).
Proof.
  intros Hd. unfold check_ndarray. rewrite (lookup_inner_base _ _ _ _ Hd).
  destruct (deref h data !! key) as [[a|a|]|]; simpl; split;
    try (split; [discriminate|intros (? & ?); discriminate]);
    try (intros e [= <-]; done); try done.
  split; eauto.
Qed.

Lemma check_ndarray_5d_outcome (it : iterator R) data h key :
  get_data it = Ok data ->
  (check_ndarray_5d it h key = Ok tt <->
   exists a, deref h data !! key = Some (PyNdarray a) /\
     length (shape a) = 5) /\
  (forall e, check_ndarray_5d it h key = Raise e ->
     is_validation_error e = true).
Proof.
  intros Hd. unfold check_ndarray_5d. rewrite (lookup_inner_base _ _ _ _ Hd).
  destruct (deref h data !! key) as [[a|a|]|]; simpl; split;
    try (split; [discriminate|intros (? & ? & ?); discriminate]);
    try (intros e [= <-]; done).
  - destruct (decide (length (shape a) = 5)) as [Hlen|Hlen].
    + rewrite bool_decide_eq_true_2 by by rewrite Hlen.
      split; eauto.
    + rewrite bool_decide_eq_false_2 by (intros [= ?]; done). simpl.
      split; [discriminate|]. intros (a' & [= <-] & ?). done.
  - destruct (bool_decide _); simpl; [discriminate|]. by intros e [= <-].
Qed.

(** the cases of the constructor *)
Lemma AddGaussianNoise_init_cases (it : iterator R) data std_dict
    mean_dict seed h :
  get_data it = Ok data ->
  (forall g, AddGaussianNoise_init it std_dict mean_dict seed h = Ok g <->
     g = AddGaussianNoise seed (default ∅ mean_dict) std_dict it /\
     (forall m, mean_dict = Some m -> dom m = dom std_dict) /\
     (forall name std, std_dict !! name = Some std ->
        exists a, deref h data !! name = Some (PyNdarray a))) /\
  (forall e, AddGaussianNoise_init it std_dict mean_dict seed h = Raise e ->
     is_validation_error e = true \/
     e = AssertionError /\
     exists m, mean_dict = Some m /\ dom m <> dom std_dict).
Proof.
  intros Hd. unfold AddGaussianNoise_init. cbn zeta.
  assert (Hmean : (forall m, mean_dict = Some m -> dom m = dom std_dict) \/
                  exists m, mean_dict = Some m /\ dom m <> dom std_dict).
  { destruct mean_dict as [m|]; [|left; done].
    destruct (decide (dom m = dom std_dict)); [left|right; eauto].
    by intros ? [= <-]. }
  change (for_each _ (map_to_list std_dict) tt)
    with (for_each (fun k (_ : Q) (_ : unit) => check_ndarray it h k)
            (map_to_list std_dict) tt).
  destruct Hmean as [Hsame|(m & -> & Hdiff)].
  - assert (Hpre : match mean_dict with
                   | Some m => require (bool_decide (dom m = dom std_dict))
                                 AssertionError
                   | None => Ok tt
                   end = Ok tt).
    { destruct mean_dict as [m|]; [|done].
      by rewrite bool_decide_eq_true_2 by by apply Hsame. }
    rewrite Hpre. simpl.
    destruct (result_unit_cases
                (for_each (fun k (_ : Q) (_ : unit) => check_ndarray it h k)
                   (map_to_list std_dict) tt)) as [Hok|[e He]].
    + rewrite Hok. simpl. split; [|discriminate].
      intros g. split.
      * intros [= <-]. split; [done|]. split; [done|].
        intros name std Hname. apply (check_ndarray_outcome it data h name Hd).
        apply (proj1 (for_each_checks_Ok _ _) Hok name std).
        by apply elem_of_map_to_list.
      * by intros (-> & _ & _).
    + rewrite He. simpl. split.
      * intros g. split; [discriminate|]. intros (_ & _ & Hall).
        apply for_each_checks_Raise in He as (k & c & Hin & Hc).
        apply elem_of_map_to_list in Hin.
        pose proof (proj2 (proj1 (check_ndarray_outcome it data h k Hd))
                      (Hall _ _ Hin)). congruence.
      * intros e' [= <-]. left.
        apply for_each_checks_Raise in He as (k & c & Hin & Hc).
        by apply (check_ndarray_outcome it data h k Hd).
  - rewrite bool_decide_eq_false_2 by done. simpl. split.
    + intros g. split; [discriminate|]. intros (_ & Hsame & _).
      destruct Hdiff. by apply Hsame.
    + intros e [= <-]. right. eauto.
Qed.

(** X7. [AddGaussianNoise] around a base iterator is constructed exactly when
    the names of [mean_dict], if given, are those of [std_dict] and every
    configured name is bound to a numpy array in the inner dataset; a
    failure is the AssertionError of the name check or a validation
    error. *)
Theorem AddGaussianNoise_init_outcome (it : iterator R) data std_dict
    mean_dict seed h :
  get_data it = Ok data ->
  (forall g, AddGaussianNoise_init it std_dict mean_dict seed h = Ok g <->
     g = AddGaussianNoise seed (default ∅ mean_dict) std_dict it /\
     (forall m, mean_dict = Some m -> dom m = dom std_dict) /\
     (forall name std, std_dict !! name = Some std ->
        exists a, deref h data !! name = Some (PyNdarray a))) /\
  (forall e, AddGaussianNoise_init it std_dict mean_dict seed h = Raise e ->
     is_validation_error e = true \/
     e = AssertionError /\
     exists m, mean_dict = Some m /\ dom m <> dom std_dict).
Proof. intros. by apply AddGaussianNoise_init_cases. Qed.

(** the cases of the constructor *)
Lemma Flip_init_cases (it : iterator R) data prob_dict seed h :
  get_data it = Ok data ->
  let prob := default {[ "default"%string := (1 # 2)%Q ]} prob_dict in
  (forall g, Flip_init it prob_dict seed h = Ok g <->
     g = Flip seed prob it /\
     forall name p, prob !! name = Some p ->
       (0 <= p)%Q /\ (p <= 1)%Q /\
       exists a, deref h data !! name = Some (PyNdarray a) /\
         length (shape a) = 5) /\
  (forall e, Flip_init it prob_dict seed h = Raise e ->
     is_validation_error e = true).
Proof.
  intros Hd prob. unfold Flip_init. cbn zeta. fold prob.
  set (check := fun key (p : Q) =>
         let* v := lookup_inner it h key in
         let* _ := require
           (negb (if Qlt_le_dec 1 p then true
                  else if Qlt_le_dec p 0 then true else false))
           (IteratorValidationError InvalidProbability) in
         let* _ := require (is_ndarray v)
           (IteratorValidationError (NotNdarray key)) in
         require (bool_decide (length <$> py_shape v = Some 5))
           (IteratorValidationError Only5D)).
  change (for_each _ (map_to_list prob) tt)
    with (for_each (fun k p (_ : unit) => check k p) (map_to_list prob) tt).
  assert (Hcheck : forall key p,
            (check key p = Ok tt <->
             (0 <= p)%Q /\ (p <= 1)%Q /\
             exists a, deref h data !! key = Some (PyNdarray a) /\
               length (shape a) = 5) /\
            (forall e, check key p = Raise e -> is_validation_error e = true)).
  { intros key p. unfold check. rewrite (lookup_inner_base _ _ _ _ Hd).
    destruct (deref h data !! key) as [v|]; simpl;
      [|split; [split; [discriminate|intros (_ & _ & ? & ? & _); discriminate]
               |by intros e [= <-]]].
    destruct (Qlt_le_dec 1 p) as [Hhi|Hhi]; simpl.
    { split; [split; [discriminate|intros (_ & ? & _); lra]
             |by intros e [= <-]]. }
    destruct (Qlt_le_dec p 0) as [Hlo|Hlo]; simpl.
    { split; [split; [discriminate|intros (? & _); lra]
             |by intros e [= <-]]. }
    destruct v as [a|a|]; simpl;
      try (split; [split; [discriminate
                          |intros (_ & _ & ? & ? & _); discriminate]
                  |by intros e [= <-]]).
    destruct (decide (length (shape a) = 5)) as [Hlen|Hlen].
    - rewrite bool_decide_eq_true_2 by by rewrite Hlen. simpl.
      split; [|discriminate]. split; [|done]. intros _. eauto 6.
    - rewrite bool_decide_eq_false_2 by (intros [= ?]; done). simpl.
      split; [|by intros e [= <-]].
      split; [discriminate|]. intros (_ & _ & a' & [= <-] & ?). done. }
  destruct (result_unit_cases
              (for_each (fun k p (_ : unit) => check k p)
                 (map_to_list prob) tt)) as [Hok|[e He]].
  - rewrite Hok. simpl. split; [|discriminate].
    intros g. split.
    + intros [= <-]. split; [done|]. intros name p Hname.
      apply Hcheck. apply (proj1 (for_each_checks_Ok _ _) Hok).
      by apply elem_of_map_to_list.
    + by intros (-> & _).
  - rewrite He. simpl.
    apply for_each_checks_Raise in He as (k & c & Hin & Hc).
    apply elem_of_map_to_list in Hin. split.
    + intros g. split; [discriminate|]. intros (_ & Hall).
      pose proof (proj2 (proj1 (Hcheck k c)) (Hall _ _ Hin)). congruence.
    + intros e' [= <-]. by apply (Hcheck k c).
Qed.

(** X8. [Flip] around a base iterator is constructed exactly when every
    configured name (["default"] at 1/2 when no configuration is given) is
    bound to a 5D numpy array and has a probability in [[0, 1]]; every
    failure is a validation error. *)
Theorem Flip_init_outcome (it : iterator R) data prob_dict seed h :
  get_data it = Ok data ->
  let prob := default {[ "default"%string := (1 # 2)%Q ]} prob_dict in
  (forall g, Flip_init it prob_dict seed h = Ok g <->
     g = Flip seed prob it /\
     forall name p, prob !! name = Some p ->
       (0 <= p)%Q /\ (p <= 1)%Q /\
       exists a, deref h data !! name = Some (PyNdarray a) /\
         length (shape a) = 5) /\
  (forall e, Flip_init it prob_dict seed h = Raise e ->
     is_validation_error e = true).
Proof. intros. by apply Flip_init_cases. Qed.

(** the cases of the constructor *)
Lemma Pad_init_cases (it : iterator R) data size_dict value_dict seed h :
  get_data it = Ok data ->
  (forall g, Pad_init it size_dict value_dict seed h = Ok g <->
     g = Pad seed (default ∅ value_dict) size_dict it /\
     (forall v, value_dict = Some v -> dom size_dict = dom v) /\
     (forall name size, size_dict !! name = Some size ->
        exists a, deref h data !! name = Some (PyNdarray a) /\
          length (shape a) = 5)) /\
  (forall e, Pad_init it size_dict value_dict seed h = Raise e ->
     is_validation_error e = true).
Proof.
  intros Hd. unfold Pad_init. cbn zeta.
  change (for_each _ (map_to_list size_dict) tt)
    with (for_each (fun k (_ : Z) (_ : unit) => check_ndarray_5d it h k)
            (map_to_list size_dict) tt).
  destruct value_dict as [v|]; simpl.
  - destruct (decide (dom size_dict = dom v)) as [Hsame|Hdiff].
    + rewrite bool_decide_eq_true_2 by done. simpl.
      destruct (result_unit_cases
                  (for_each (fun k (_ : Z) (_ : unit) =>
                               check_ndarray_5d it h k)
                     (map_to_list size_dict) tt)) as [Hok|[e He]].
      * rewrite Hok. simpl. split; [|discriminate].
        intros g. split.
        -- intros [= <-]. split; [done|]. split; [by intros ? [= <-]|].
           intros name size Hname.
           apply (check_ndarray_5d_outcome it data h name Hd).
           apply (proj1 (for_each_checks_Ok _ _) Hok name size).
           by apply elem_of_map_to_list.
        -- by intros (-> & _ & _).
      * rewrite He. simpl.
        apply for_each_checks_Raise in He as (k & c & Hin & Hc).
        apply elem_of_map_to_list in Hin. split.
        -- intros g. split; [discriminate|]. intros (_ & _ & Hall).
           pose proof (proj2 (proj1 (check_ndarray_5d_outcome it data h k Hd))
                         (Hall _ _ Hin)). congruence.
        -- intros e' [= <-].
           by apply (check_ndarray_5d_outcome it data h k Hd).
    + rewrite bool_decide_eq_false_2 by done. simpl. split.
      * intros g. split; [discriminate|]. intros (_ & Hsame & _).
        destruct Hdiff. by apply Hsame.
      * by intros e [= <-].
  - destruct (result_unit_cases
                (for_each (fun k (_ : Z) (_ : unit) =>
                             check_ndarray_5d it h k)
                   (map_to_list size_dict) tt)) as [Hok|[e He]].
    + rewrite Hok. simpl. split; [|discriminate].
      intros g. split.
      * intros [= <-]. split; [done|]. split; [discriminate|].
        intros name size Hname.
        apply (check_ndarray_5d_outcome it data h name Hd).
        apply (proj1 (for_each_checks_Ok _ _) Hok name size).
        by apply elem_of_map_to_list.
      * by intros (-> & _ & _).
    + rewrite He. simpl.
      apply for_each_checks_Raise in He as (k & c & Hin & Hc).
      apply elem_of_map_to_list in Hin. split.
      * intros g. split; [discriminate|]. intros (_ & _ & Hall).
        pose proof (proj2 (proj1 (check_ndarray_5d_outcome it data h k Hd))
                      (Hall _ _ Hin)). congruence.
      * intros e' [= <-].
        by apply (check_ndarray_5d_outcome it data h k Hd).
Qed.

(** X9. [Pad] around a base iterator is constructed exactly when the names of
    [value_dict], if given, are those of [size_dict] and every configured
    name is bound to a 5D numpy array; the pad sizes are not looked at.
    Every failure is a validation error. *)
Theorem Pad_init_outcome (it : iterator R) data size_dict value_dict seed h :
  get_data it = Ok data ->
  (forall g, Pad_init it size_dict value_dict seed h = Ok g <->
     g = Pad seed (default ∅ value_dict) size_dict it /\
     (forall v, value_dict = Some v -> dom size_dict = dom v) /\
     (forall name size, size_dict !! name = Some size ->
        exists a, deref h data !! name = Some (PyNdarray a) /\
          length (shape a) = 5)) /\
  (forall e, Pad_init it size_dict value_dict seed h = Raise e ->
     is_validation_error e = true).
Proof. intros. by apply Pad_init_cases. Qed.

End ConstructionFurther.

Section ConstructionCrop.

Context {R : Type} `{RandomState R}.

(** the cases of the constructor *)
Lemma RandomCrop_init_cases (it : iterator R) data shape_dict seed h :
  get_data it = Ok data ->
  (forall g, RandomCrop_init it shape_dict seed h = Ok g <->
     g = RandomCrop seed shape_dict it /\
     forall name crop, shape_dict !! name = Some crop ->
       RandomCrop_pre name crop (deref h data !! name)) /\
  (forall e, RandomCrop_init it shape_dict seed h = Raise e ->
     is_validation_error e = true).
Proof.
  intros Hd. unfold RandomCrop_init. cbn zeta.
  set (check := fun key (val : list Z) =>
         let* v := lookup_inner it h key in
         let* _ := require (is_ndarray v)
           (IteratorValidationError (NotNdarray key)) in
         let* _ := require
           (bool_decide (length <$> py_shape v = Some 5))
           (IteratorValidationError Only5D) in
         let* _ := require (length val =? 2)
           (IteratorValidationError ShapeNotPair) in
         let data_shape := default [] (py_shape v) in
         let* _ := require
           (negb ((Z.of_nat (data_shape !!! 3%nat) <? val !!! 0%nat)%Z
                  || (val !!! 0%nat <? 0)%Z))
           (IteratorValidationError InvalidCropHeight) in
         require
           (negb ((Z.of_nat (data_shape !!! 4%nat) <? val !!! 1%nat)%Z
                  || (val !!! 1%nat <? 0)%Z))
           (IteratorValidationError InvalidCropWidth)).
  change (for_each _ (map_to_list shape_dict) tt)
    with (for_each (fun k c (_ : unit) => check k c)
            (map_to_list shape_dict) tt).
  assert (Hcheck : forall key val,
            (check key val = Ok tt <->
             RandomCrop_pre key val (deref h data !! key)) /\
            (forall e, check key val = Raise e ->
               is_validation_error e = true)).
  { intros key val. unfold check, RandomCrop_pre.
    rewrite (lookup_inner_base _ _ _ _ Hd).
    destruct (deref h data !! key) as [v|]; simpl;
      [|split; [split; [discriminate
                       |intros (?&?&?&?&?&?&?&?&_&?&_); discriminate]
               |by intros e [= <-]]].
    destruct v as [a|a|]; simpl;
      try (split; [split; [discriminate
                          |intros (?&?&?&?&?&?&?&?&_&?&_); discriminate]
                  |by intros e [= <-]]).
    destruct (decide (length (shape a) = 5)) as [Hlen|Hlen].
    2:{ rewrite bool_decide_eq_false_2 by (intros [= ?]; done). simpl.
        split; [|by intros e [= <-]].
        split; [discriminate|].
        intros (?&?&?&?&?&?&?&?&_&[= <-]&Hsh&_). by rewrite Hsh in Hlen. }
    rewrite bool_decide_eq_true_2 by by rewrite Hlen. simpl.
    apply length_5 in Hlen as (t & b & c & hh & w & Hsh). rewrite Hsh.
    destruct val as [|ch [|cw [|? ?]]]; simpl;
      try (split; [split; [discriminate
                          |intros (?&?&?&?&?&?&?&?&?&_); discriminate]
                  |by intros e [= <-]]).
    change ([t; b; c; hh; w] !!! 3) with hh.
    change ([t; b; c; hh; w] !!! 4) with w.
    change ([ch; cw] !!! 0) with ch. change ([ch; cw] !!! 1) with cw.
    destruct (Z.ltb_spec (Z.of_nat hh) ch); simpl.
    { split; [|by intros e [= <-]]. split; [discriminate|].
      intros (?&?&?&?&?&?&?&?&[= <- <-]&[= <-]&Hsh'&?&?).
      rewrite Hsh in Hsh'. injection Hsh' as <- <- <- <- <-. lia. }
    destruct (Z.ltb_spec ch 0); simpl.
    { split; [|by intros e [= <-]]. split; [discriminate|].
      intros (?&?&?&?&?&?&?&?&[= <- <-]&[= <-]&Hsh'&?&?). lia. }
    destruct (Z.ltb_spec (Z.of_nat w) cw); simpl.
    { split; [|by intros e [= <-]]. split; [discriminate|].
      intros (?&?&?&?&?&?&?&?&[= <- <-]&[= <-]&Hsh'&?&?).
      rewrite Hsh in Hsh'. injection Hsh' as <- <- <- <- <-. lia. }
    destruct (Z.ltb_spec cw 0); simpl.
    { split; [|by intros e [= <-]]. split; [discriminate|].
      intros (?&?&?&?&?&?&?&?&[= <- <-]&[= <-]&Hsh'&?&?). lia. }
    split; [|discriminate]. split; [|done]. intros _.
    exists ch, cw, a, t, b, c, hh, w. repeat split; (done || lia). }
  destruct (result_unit_cases
              (for_each (fun k c (_ : unit) => check k c)
                 (map_to_list shape_dict) tt)) as [Hok|[e He]].
  - rewrite Hok. simpl. split; [|discriminate].
    intros g. split.
    + intros [= <-]. split; [done|]. intros name crop Hname.
      apply Hcheck. apply (proj1 (for_each_checks_Ok _ _) Hok).
      by apply elem_of_map_to_list.
    + by intros (-> & _).
  - rewrite He. simpl.
    apply for_each_checks_Raise in He as (k & c & Hin & Hc).
    apply elem_of_map_to_list in Hin. split.
    + intros g. split; [discriminate|]. intros (_ & Hall).
      pose proof (proj2 (proj1 (Hcheck k c)) (Hall _ _ Hin)). congruence.
    + intros e' [= <-]. by apply (Hcheck k c).
Qed.

(** X10. [RandomCrop] around a base iterator is constructed exactly when every
    configured name is bound to a 5D numpy array and has a crop shape of
    two numbers, a height in [[0, H]] and a width in [[0, W]] for the
    height [H] and width [W] of the array in the inner dataset; every
    failure is a validation error. *)
Theorem RandomCrop_init_outcome (it : iterator R) data shape_dict seed h :
  get_data it = Ok data ->
  (forall g, RandomCrop_init it shape_dict seed h = Ok g <->
     g = RandomCrop seed shape_dict it /\
     forall name crop, shape_dict !! name = Some crop ->
       RandomCrop_pre name crop (deref h data !! name)) /\
  (forall e, RandomCrop_init it shape_dict seed h = Raise e ->
     is_validation_error e = true).
Proof. intros. by apply RandomCrop_init_cases. Qed.

Lemma validation_error_msg e :
  is_validation_error e = true -> exists msg, e = IteratorValidationError msg.
Proof. destruct e; try discriminate. eauto. Qed.

(** X11. A configured name that the dataset of the inner base iterator
    does not have makes the constructor of each of the four decorators
    raise the validation error, whatever the other arguments are, with
    one exception: [AddGaussianNoise] runs the check of the names of
    [mean_dict] first, so it raises the validation error when [mean_dict]
    is not given or has the names of [std_dict], and the AssertionError
    when it has other names. *)
Theorem decorators_reject_missing_name (it : iterator R) data h name seed :
  get_data it = Ok data -> deref h data !! name = None ->
  (forall std_dict mean_dict, is_Some (std_dict !! name) ->
     (forall m, mean_dict = Some m -> dom m = dom std_dict) ->
     exists msg, AddGaussianNoise_init it std_dict mean_dict seed h
                 = Raise (IteratorValidationError msg)) /\
  (forall std_dict m, is_Some (std_dict !! name) ->
     dom m <> dom std_dict ->
     AddGaussianNoise_init it std_dict (Some m) seed h
     = Raise AssertionError) /\
  (forall prob_dict,
     is_Some (default {[ "default"%string := (1 # 2)%Q ]} prob_dict
                !! name) ->
     exists msg, Flip_init it prob_dict seed h
                 = Raise (IteratorValidationError msg)) /\
  (forall size_dict value_dict, is_Some (size_dict !! name) ->
     exists msg, Pad_init it size_dict value_dict seed h
                 = Raise (IteratorValidationError msg)) /\
  (forall shape_dict, is_Some (shape_dict !! name) ->
     exists msg, RandomCrop_init it shape_dict seed h
                 = Raise (IteratorValidationError msg)).
Proof.
  intros Hd Hmiss. split; [|split; [|split; [|split]]].
  - intros std_dict mean_dict [std Hname] Hnames.
    destruct (AddGaussianNoise_init_cases it data std_dict mean_dict seed h
                Hd) as [Hok Herr].
    destruct (AddGaussianNoise_init it std_dict mean_dict seed h) as [g|e].
    + destruct (proj1 (Hok g) eq_refl) as (_ & _ & Hall).
      destruct (Hall _ _ Hname) as (a & Ha). congruence.
    + destruct (Herr e eq_refl) as [Hv|(_ & m & Hm & Hne)].
      * apply validation_error_msg in Hv as [msg ->]. eauto.
      * destruct Hne. by apply Hnames.
  - intros std_dict m _ Hne. unfold AddGaussianNoise_init.
    by rewrite bool_decide_eq_false_2.
  - intros prob_dict [p Hname].
    pose proof (Flip_init_cases it data prob_dict seed h Hd) as Hcases.
    cbv zeta in Hcases. destruct Hcases as [Hok Herr].
    destruct (Flip_init it prob_dict seed h) as [g|e].
    + destruct (proj1 (Hok g) eq_refl) as (_ & Hall).
      destruct (Hall _ _ Hname) as (_ & _ & a & Ha & _). congruence.
    + pose proof (Herr e eq_refl) as Hv.
      apply validation_error_msg in Hv as [msg ->]. eauto.
  - intros size_dict value_dict [size Hname].
    destruct (Pad_init_cases it data size_dict value_dict seed h Hd)
      as [Hok Herr].
    destruct (Pad_init it size_dict value_dict seed h) as [g|e].
    + destruct (proj1 (Hok g) eq_refl) as (_ & _ & Hall).
      destruct (Hall _ _ Hname) as (a & Ha & _). congruence.
    + pose proof (Herr e eq_refl) as Hv.
      apply validation_error_msg in Hv as [msg ->]. eauto.
  - intros shape_dict [crop Hname].
    destruct (RandomCrop_init_cases it data shape_dict seed h Hd)
      as [Hok Herr].
    destruct (RandomCrop_init it shape_dict seed h) as [g|e].
    + destruct (proj1 (Hok g) eq_refl) as (_ & Hall).
      destruct (Hall _ _ Hname) as (?&?&?&?&?&?&?&?&_&Ha&_). congruence.
    + pose proof (Herr e eq_refl) as Hv.
      apply validation_error_msg in Hv as [msg ->]. eauto.
Qed.

End ConstructionCrop.

(** ** AddGaussianNoise *)

Section NoiseSteps.

Context {R : Type} `{RandomState R}.

Lemma AddGaussianNoise_body_step mean_dict data key std (rnd : R) h rnd' h' :
  AddGaussianNoise_body mean_dict data key std (rnd, h) = Ok (rnd', h') ->
  only_name data key h h' /\
  AddGaussianNoise_step mean_dict key std rnd rnd'
    (deref h data !! key) (deref h' data !! key).
Proof.
  unfold AddGaussianNoise_body. intros Hrun.
  apply bind_Ok in Hrun as (v & Hv & Hrun).
  apply bind_Ok in Hrun as (a & Ha & Hrun).
  pose proof (standard_normal_shape rnd (shape a)) as Hnoise.
  destruct (standard_normal rnd (shape a)) as [noise rnd1] eqn:Hdraw.
  injection Hrun as <- <-. unfold getitem in Hv.
  destruct (deref h data !! key) as [v0|] eqn:Hkey; [|discriminate].
  injection Hv as ->. destruct v as [a0| |]; try discriminate.
  injection Ha as ->.
  split; [apply only_name_setitem|].
  eexists a, _. split; [done|]. split.
  - apply deref_setitem. by rewrite Hkey.
  - cbv zeta. rewrite Hdraw. cbn [fst snd]. by repeat split.
Qed.

Lemma AddGaussianNoise_body_total mean_dict data key std (rnd : R) h :
  (exists a, deref h data !! key = Some (PyNdarray a)) ->
  exists s', AddGaussianNoise_body mean_dict data key std (rnd, h) = Ok s'.
Proof.
  intros (a & Hkey). unfold AddGaussianNoise_body, getitem. rewrite Hkey.
  simpl. destruct (standard_normal rnd (shape a)). eauto.
Qed.

(** X12. When the inner iterator yields a batch, [AddGaussianNoise] yields
    that dict object. Its loop visits the configured names one after the
    other; for each it draws the noise with [standard_normal] for the
    shape of the incoming array, from the state of the random source that
    the name before left, and binds the name to a new array of the same
    shape, the incoming array plus its standard deviation times the noise
    drawn plus its mean, 0 when [mean_dict] has no entry for the name.
    Every other name is left alone, and the generator keeps the state
    after the last draw. It does yield when the configured names are
    bound to numpy arrays. *)
Theorem AddGaussianNoise_batch (rnd : R) mean_dict (std_dict : gmap string Q)
    inner h data inner' h1 :
  next inner h = Ok (Some data, inner', h1) ->
  (forall o g' h2,
     next (GAddGaussianNoise rnd mean_dict std_dict inner) h
       = Ok (o, g', h2) ->
     o = Some data /\
     (exists rnd',
        g' = GAddGaussianNoise rnd' mean_dict std_dict inner' /\
        decorated_from std_dict (AddGaussianNoise_step mean_dict)
          (deref h1 data) (deref h2 data) rnd rnd') /\
     (forall name std, std_dict !! name = Some std ->
        exists r r',
          AddGaussianNoise_step mean_dict name std r r'
            (deref h1 data !! name) (deref h2 data !! name))) /\
  ((forall name std, std_dict !! name = Some std ->
      exists a, deref h1 data !! name = Some (PyNdarray a)) ->
   exists g' h2,
     next (GAddGaussianNoise rnd mean_dict std_dict inner) h
       = Ok (Some data, g', h2)).
Proof.
  intros Hinner. split.
  - intros o g' h2 Hnext. simpl in Hnext. rewrite Hinner in Hnext.
    simpl in Hnext. apply bind_Ok in Hnext as ([rnd' h2'] & Hloop & Hnext).
    injection Hnext as <- <- <-. split; [done|].
    pose proof (for_each_decorated_from data
                  (AddGaussianNoise_body mean_dict data)
                  (AddGaussianNoise_step mean_dict)
                  (AddGaussianNoise_body_step mean_dict data) std_dict
                  _ _ _ _ Hloop) as Hdec.
    split; [by exists rnd'|].
    intros name std Hname. by eapply decorated_from_lookup.
  - intros Hpre. simpl. rewrite Hinner. simpl.
    destruct (for_each_dict_total data (AddGaussianNoise_body mean_dict data)
                (fun _ _ _ _ => True)
                (fun name (_ : Q) v => exists a, v = Some (PyNdarray a))
                std_dict rnd h1) as [[rnd' h2] Hloop].
    + intros k c rnd0 h0 rnd0' h0' Hrun.
      by destruct (AddGaussianNoise_body_step _ _ _ _ _ _ _ _ Hrun).
    + intros k c rnd0 h0. apply AddGaussianNoise_body_total.
    + done.
    + rewrite Hloop. simpl. eauto.
Qed.

End NoiseSteps.

(** ** The pad sizes that work *)

(** X14. On a 5D array [pad_array] succeeds exactly for a positive pad size,
    and for the pad size 0 on images of at most one row and one column;
    every failure is a ValueError. Negative pad sizes, which the
    constructor accepts, always fail. *)
Theorem pad_array_succeeds_iff (size : Z) (val : Q) (a : ndarray) t b c hh w :
  shape a = [t; b; c; hh; w] ->
  ((exists a', pad_array size val a = Ok a') <->
   (0 < size)%Z \/ (size = 0%Z /\ hh <= 1 /\ w <= 1)) /\
  (forall e, pad_array size val a = Raise e -> e = ValueError).
Proof.
  intros Hsh.
  destruct (Z.lt_trichotomy size 0) as [Hneg|[->|Hpos]].
  - assert (Hfail : pad_array size val a = Raise ValueError).
    { unfold pad_array, as_dim. rewrite Hsh.
      destruct (Z.ltb_spec (Z.of_nat hh + 2 * size) 0) as [|Hh]; [done|].
      destruct (Z.ltb_spec (Z.of_nat w + 2 * size) 0) as [|Hw]; [done|].
      cbn [bind]. unfold assign_window. cbn [shape full].
      unfold slice_indices, clip_index.
      destruct (Z.ltb_spec size 0); [|lia].
      destruct (Z.ltb_spec (- size) 0); [lia|].
      rewrite Hsh. cbn [broadcastable].
      match goal with
      | |- context [hh =? ?x] =>
          destruct (Nat.eqb_spec hh x) as [Heq|_]; [exfalso; lia|]
      end.
      destruct (Nat.eqb_spec hh 1) as [Heq|_]; [exfalso; lia|].
      by rewrite ?andb_false_r, ?andb_false_l. }
    rewrite Hfail. split; [|by intros e [= <-]].
    split; [intros [? ?]; discriminate|lia].
  - destruct (decide (hh <= 1 /\ w <= 1)) as [[Hh Hw]|Hbig].
    + assert (Hok : exists a', pad_array 0 val a = Ok a').
      { unfold pad_array, as_dim. rewrite Hsh.
        destruct (Z.ltb_spec (Z.of_nat hh + 2 * 0) 0); [lia|].
        destruct (Z.ltb_spec (Z.of_nat w + 2 * 0) 0); [lia|].
        cbn [bind]. unfold assign_window. cbn [shape full].
        rewrite !slice_indices_pad_zero. rewrite Hsh. cbn [broadcastable].
        rewrite !Nat.eqb_refl. cbn [orb andb].
        assert ((hh =? 0) || (hh =? 1) = true) as ->.
        { destruct hh as [|[|?]]; (done || lia). }
        assert ((w =? 0) || (w =? 1) = true) as ->.
        { destruct w as [|[|?]]; (done || lia). }
        cbn [andb]. eauto. }
      split; [split; [intros _; right; done|done]|].
      destruct Hok as [a' ->]. discriminate.
    + rewrite (pad_array_zero val a t b c hh w Hsh) by lia.
      split; [|by intros e [= <-]].
      split; [intros [? ?]; discriminate|].
      intros [?|(_ & ? & ?)]; [lia|]. destruct Hbig. done.
  - destruct (pad_array_positive size val a t b c hh w Hpos Hsh)
      as (a' & Hok & _).
    rewrite Hok. split; [|discriminate]. split; eauto.
Qed.

(** ** Cropping to the full image *)

Section CropFurther.

Context {R : Type} `{RandomState R}.

Lemma all_zero_replicate (l : list Z) :
  Forall (fun x => (0 <= x <= 0)%Z) l -> l = replicate (length l) 0%Z.
Proof.
  induction 1 as [|x l Hx _ IH]; simpl; [done|].
  rewrite <- IH. f_equal. lia.
Qed.

(** X15. A crop shape equal to the height and width of the image leaves no
    choice of offsets: [RandomCrop] still draws them, all the row offsets
    and all the column offsets drawn are 0, and the cropped array has the
    shape and the samples of the incoming one. *)
Theorem crop_array_full_image (a : ndarray) (rnd : R) t b c hh w :
  shape a = [t; b; c; hh; w] ->
  exists a' rnd',
    crop_array [Z.of_nat hh; Z.of_nat w] a rnd
      = Ok (a', replicate b 0%Z, replicate b 0%Z, rnd') /\
    rnd' = (random_integers (random_integers rnd 0 0 b).2 0 0 b).2 /\
    shape a' = shape a /\
    forall ti bi ci i j, bi < b ->
      item a' [ti; bi; ci; i; j] = item a [ti; bi; ci; i; j].
Proof.
  intros Hsh.
  destruct (crop_array_total (Z.of_nat hh) (Z.of_nat w) a rnd t b c hh w Hsh)
    as [[[[a' rows] cols] rnd'] Hcrop]; [lia..|].
  destruct (crop_array_drawn _ _ _ _ _ _ _ Hcrop)
    as (ch & cw & t' & b' & c' & hh' & w' & [= <- <-] & Hsh' & Hdrawn).
  rewrite Hsh in Hsh'. injection Hsh' as <- <- <- <- <-.
  cbv zeta in Hdrawn. rewrite !Z.sub_diag in Hdrawn.
  destruct Hdrawn as (Hrows & Hcols & Hrnd & Hcropped).
  destruct Hcropped as (t' & b' & c' & hh' & w' & Hsh' & Hsh''
                        & Hrl & Hcl & Hrall & Hcall & _ & Hitem).
  rewrite Hsh in Hsh'. injection Hsh' as <- <- <- <- <-.
  rewrite !Z.sub_diag in Hrall, Hcall.
  assert (Hr0 : rows = replicate b 0%Z).
  { rewrite <- Hrl. by apply all_zero_replicate. }
  assert (Hc0 : cols = replicate b 0%Z).
  { rewrite <- Hcl. by apply all_zero_replicate. }
  exists a', rnd'. split; [by rewrite Hcrop, Hr0, Hc0|].
  split; [done|].
  split; [by rewrite Hsh'', Hsh, !Nat2Z.id|].
  intros ti bi ci i j Hbi. rewrite Hitem.
  assert (rows !!! bi = 0%Z) as ->.
  { rewrite Hr0. by apply lookup_total_replicate_2. }
  assert (cols !!! bi = 0%Z) as ->.
  { rewrite Hc0. by apply lookup_total_replicate_2. }
  done.
Qed.

End CropFurther.

(** ** Decorators over Online and Minibatches: validated once *)

Section Feeds.

Context {R : Type} `{RandomState R}.

Lemma feeds_Online_pending l : forall (rnd : R) n data sh d,
  sliceable d ->
  feeds data d (GOnline rnd n data sh (Pending l)) (Online_batches d l)
    (GOnline rnd n data sh (Pending [])).
Proof.
  induction l as [|idx l IH]; intros rnd n data sh d Hd.
  - by apply feeds_stop.
  - simpl. eapply feeds_batch; [|by apply IH].
    intros h Hdata. simpl. by rewrite (slice_batch_Ok _ _ _ _ _ Hdata Hd).
Qed.

Lemma feeds_Minibatches_pending l : forall (rnd : R) n data sh k d,
  sliceable d ->
  feeds data d (GMinibatches rnd n data sh k (Pending l))
    (Minibatches_batches k d l)
    (GMinibatches rnd n data sh k (Pending [])).
Proof.
  induction l as [|idx l IH]; intros rnd n data sh k d Hd.
  - by apply feeds_stop.
  - simpl. eapply feeds_batch; [|by apply IH].
    intros h Hdata. simpl. by rewrite (slice_batch_Ok _ _ _ _ _ Hdata Hd).
Qed.

(** [Online] and [Minibatches] feed slices of their dataset, as many as
    [remaining] says *)
Lemma slicing_base_feeds (it : iterator R) h d :
  slicing_base it h d ->
  exists data bs g',
    get_data it = Ok data /\ h !! data = Some d /\
    feeds data d (call it) bs g' /\
    length bs = remaining (call it) /\
    Forall (fun b => exists start stop, b = slice_dict start stop d) bs.
Proof.
  destruct it as [|rnd n data sh|rnd n data sh k| | | |]; simpl; try done.
  - intros [Hdata Hd].
    destruct (maybe_shuffle sh rnd (arange (Z.of_nat n))) as [order rnd']
      eqn:Hsh.
    assert (Hlen : length order = n).
    { pose proof (maybe_shuffle_Permutation sh rnd (arange (Z.of_nat n)))
        as Hp. rewrite Hsh in Hp. simpl in Hp. rewrite Hp.
      unfold arange. by rewrite length_seq, Nat2Z.id. }
    exists data, (Online_batches d order), (GOnline rnd' n data sh (Pending [])).
    do 2 (split; [done|]). split; [|split].
    + pose proof (feeds_Online_pending order rnd' n data sh d Hd) as Hf.
      destruct order as [|idx rest].
      * apply feeds_stop. intros h0 _. simpl. by rewrite Hsh.
      * simpl in *. inversion Hf as [|? g1 ? ? ? Hstep Hrest]; subst.
        eapply feeds_batch; [|exact Hrest].
        intros h0 Hdata0. specialize (Hstep h0 Hdata0).
        simpl in Hstep |- *. by rewrite Hsh.
    + unfold Online_batches. by rewrite length_map.
    + unfold Online_batches. apply Forall_fmap, Forall_forall.
      intros idx _. simpl. eauto.
  - intros (Hk & Hdata & Hd).
    destruct (maybe_shuffle sh rnd (arange (ceil_div (Z.of_nat n) k)))
      as [order rnd'] eqn:Hsh.
    assert (Hlen : length order = Z.to_nat (ceil_div (Z.of_nat n) k)).
    { pose proof (maybe_shuffle_Permutation sh rnd
                    (arange (ceil_div (Z.of_nat n) k))) as Hp.
      rewrite Hsh in Hp. simpl in Hp. rewrite Hp.
      unfold arange. by rewrite length_seq. }
    exists data, (Minibatches_batches k d order),
      (GMinibatches rnd' n data sh k (Pending [])).
    do 2 (split; [done|]). split; [|split].
    + pose proof (feeds_Minibatches_pending order rnd' n data sh k d Hd)
        as Hf.
      apply Z.eqb_neq in Hk.
      destruct order as [|idx rest].
      * apply feeds_stop. intros h0 _. simpl. by rewrite Hk, Hsh.
      * simpl in *. inversion Hf as [|? g1 ? ? ? Hstep Hrest]; subst.
        eapply feeds_batch; [|exact Hrest].
        intros h0 Hdata0. specialize (Hstep h0 Hdata0).
        simpl in Hstep |- *. by rewrite Hk, Hsh.
    + unfold Minibatches_batches. by rewrite length_map.
    + unfold Minibatches_batches. apply Forall_fmap, Forall_forall.
      intros idx _. simpl. eauto.
Qed.

Lemma pull_feeds data d (g : generator R) bs g' :
  feeds data d g bs g' ->
  forall m h, length bs < m -> h !! data = Some d ->
    pull m g h = Ok (bs, g', h ++ bs).
Proof.
  induction 1 as [g g' Hstop|g g1 b bs g' Hstep _ IH]; intros m h Hm Hdata.
  - destruct m as [|m]; [simpl in Hm; lia|]. simpl.
    rewrite (Hstop h Hdata). simpl. by rewrite app_nil_r.
  - destruct m as [|m]; [simpl in Hm; lia|]. simpl in Hm. simpl.
    rewrite (Hstep h Hdata). simpl.
    rewrite (IH m (h ++ [b])); [|lia|by apply lookup_app_l_Some].
    simpl. rewrite deref_alloc. by rewrite <- app_assoc.
Qed.

(** a decorator: its generator, its configuration, its loop body, and
    what the body does to and needs of a configured name *)
Variable dec : R -> generator R -> generator R.
Variable C : Type.
Variable cfg : gmap string C.
Variable body : ref -> string -> C -> R * heap -> result (R * heap).
Variable Step :
  string -> C -> R -> R -> option pyvalue -> option pyvalue -> Prop.
Variable Pre : string -> C -> option pyvalue -> Prop.

Hypothesis next_dec : forall rnd inner h,
  next (dec rnd inner) h
  = (let* '(o, inner', h1) := next inner h in
     match o with
     | None => Ok (None, dec rnd inner', h1)
     | Some data =>
         let* '(rnd', h2) :=
           for_each (body data) (map_to_list cfg) (rnd, h1) in
         Ok (Some data, dec rnd' inner', h2)
     end).

Hypothesis body_step : forall batch k c rnd h rnd' h',
  body batch k c (rnd, h) = Ok (rnd', h') ->
  only_name batch k h h' /\
  Step k c rnd rnd' (deref h batch !! k) (deref h' batch !! k).

Hypothesis body_total : forall batch k c rnd h,
  Pre k c (deref h batch !! k) -> exists s', body batch k c (rnd, h) = Ok s'.

(** Around a generator that feeds new dict objects, the decorator yields
    one batch for each of them, decorated from the state of the random
    source that the batch before left, and then stops, provided every
    batch fed has what the loop body needs. *)
Lemma pull_decorated data d (inner : generator R) bs inner' :
  feeds data d inner bs inner' ->
  Forall (fun b : pydict =>
            forall k c, cfg !! k = Some c -> Pre k c (b !! k)) bs ->
  forall m rnd h, length bs < m -> h !! data = Some d ->
    exists outs rnd' h',
      pull m (dec rnd inner) h = Ok (outs, dec rnd' inner', h') /\
      h' !! data = Some d /\
      pass_from (decorated_from cfg Step) bs outs rnd rnd'.
Proof.
  induction 1 as [g g' Hstop|g g1 b bs g' Hstep _ IH];
    intros Hpre m rnd h Hm Hdata.
  - destruct m as [|m]; [simpl in Hm; lia|]. simpl.
    rewrite next_dec, (Hstop h Hdata). simpl.
    exists [], rnd, h. by repeat split.
  - destruct m as [|m]; [simpl in Hm; lia|]. simpl in Hm.
    apply Forall_cons in Hpre as [Hb Hpre].
    assert (Hlt : data < length h) by (by eapply lookup_lt_Some).
    pose proof (body_step_frame (length h) (body (length h)) Step
                  (body_step (length h))) as Hframe.
    destruct (for_each_dict_total (length h) (body (length h))
                (fun _ _ _ _ => True) Pre cfg
                rnd (h ++ [b]) Hframe
                (body_total (length h))) as [[rnd1 h2] Hloop].
    { intros k c Hk. rewrite deref_alloc. by apply Hb. }
    pose proof (for_each_decorated_from (length h) (body (length h)) Step
                  (body_step (length h)) cfg _ _ _ _ Hloop) as Hdec.
    destruct (for_each_names (length h) (body (length h))
                (fun _ _ _ _ => True) Hframe _ _ _ _ _
                (NoDup_fst_map_to_list cfg) Hloop) as (Hlen & Hrefs & _).
    rewrite deref_alloc in Hdec.
    assert (Hdata2 : h2 !! data = Some d).
    { rewrite Hrefs by lia. by apply lookup_app_l_Some. }
    destruct (IH Hpre m rnd1 h2 ltac:(lia) Hdata2)
      as (outs & rnd' & h' & Hpull & Hdata' & Houts).
    exists (deref h2 (length h) :: outs), rnd', h'.
    split; [|split; [done|]].
    + simpl. rewrite next_dec, (Hstep h Hdata). simpl.
      rewrite Hloop. simpl. rewrite Hpull. done.
    + simpl. exists rnd1. by split.
Qed.

End Feeds.

(** a pass with its draws gives, for every batch and every configured
    name, what a step always does *)
Lemma pass_from_decorated {R C} (cfg : gmap string C)
    (Step : string -> C -> R -> R -> option pyvalue -> option pyvalue -> Prop)
    (Post : string -> C -> option pyvalue -> option pyvalue -> Prop) bs :
  forall outs r r',
  (forall k c r0 r1 v v', Step k c r0 r1 v v' -> Post k c v v') ->
  pass_from (decorated_from cfg Step) bs outs r r' ->
  Forall2 (decorated cfg Post) bs outs.
Proof.
  induction bs as [|b bs IH]; intros [|out outs] r r' Himp Hpass;
    simpl in Hpass; try done.
  destruct Hpass as (r1 & Hdec & Hrest).
  constructor; [|by eapply IH].
  split; [|by destruct Hdec].
  intros name c Hname.
  destruct (decorated_from_lookup cfg Step b out r r1 name c Hdec Hname)
    as (r0 & r2 & Hstep).
  by eapply Himp.
Qed.

Section Passes.

Context {R : Type} `{RandomState R}.

Lemma run_decorated (dec : R -> generator R -> generator R) {C}
    (cfg : gmap string C) body Step
    (Pre : string -> C -> option pyvalue -> Prop)
    (it : iterator R) h d rnd :
  (forall rnd inner h,
     next (dec rnd inner) h
     = (let* '(o, inner', h1) := next inner h in
        match o with
        | None => Ok (None, dec rnd inner', h1)
        | Some data =>
            let* '(rnd', h2) :=
              for_each (body data) (map_to_list cfg) (rnd, h1) in
            Ok (Some data, dec rnd' inner', h2)
        end)) ->
  (forall batch k c rnd h rnd' h',
     body batch k c (rnd, h) = Ok (rnd', h') ->
     only_name batch k h h' /\
     Step k c rnd rnd' (deref h batch !! k) (deref h' batch !! k)) ->
  (forall batch k c rnd h,
     Pre k c (deref h batch !! k) ->
     exists s', body batch k c (rnd, h) = Ok s') ->
  slicing_base it h d ->
  (forall start stop k c, cfg !! k = Some c ->
     Pre k c (slice_dict start stop d !! k)) ->
  exists bs gi h1 outs rnd' h2,
    run it h = Ok (bs, self_of gi, h1) /\
    pull (S (remaining (call it))) (dec rnd (call it)) h
      = Ok (outs, dec rnd' gi, h2) /\
    pass_from (decorated_from cfg Step) bs outs rnd rnd'.
Proof.
  intros Hnext Hstep Htotal Hbase Hpre.
  destruct (slicing_base_feeds it h d Hbase)
    as (data & bs & g' & Hget & Hdata & Hfeeds & Hlen & Hslices).
  destruct (pull_decorated dec C cfg body Step Pre Hnext Hstep Htotal
              data d (call it) bs g' Hfeeds) with
    (m := S (remaining (call it))) (rnd := rnd) (h := h)
    as (outs & rnd' & h2 & Hpull & _ & Houts); [|lia|done|].
  { eapply Forall_impl; [exact Hslices|].
    intros b (start & stop & ->) k c Hk. by apply Hpre. }
  exists bs, g', (h ++ bs), outs, rnd', h2.
  split; [|by split].
  unfold run. by rewrite (pull_feeds data d _ _ _ Hfeeds) by (done || lia).
Qed.

Lemma slicing_base_data (it : iterator R) h d :
  slicing_base it h d ->
  exists data, get_data it = Ok data /\ deref h data = d /\ sliceable d.
Proof.
  destruct it; simpl; try done.
  - intros [Hd ?]. eexists. split; [done|]. unfold deref. by rewrite Hd.
  - intros (_ & Hd & ?). eexists. split; [done|]. unfold deref.
    by rewrite Hd.
Qed.

(** A validated dataset makes [Online], and [Minibatches] with a batch
    size other than 0, a base iterator that cuts its batches out of the
    dataset. *)
Lemma Online_init_slicing shuffle (seed : R) named_data h it h1 :
  Online_init shuffle seed named_data h = Ok (it, h1) ->
  slicing_base it h1 named_data.
Proof.
  unfold Online_init. intros Hinit.
  apply bind_Ok in Hinit as (n & Hv & Hinit). simpl in Hinit.
  injection Hinit as <- <-. simpl. split; [by rewrite list_lookup_middle|].
  by eapply validated_sliceable.
Qed.

Lemma Minibatches_init_slicing k shuffle (seed : R) named_data h it h1 :
  k <> 0%Z ->
  Minibatches_init k shuffle seed named_data h = Ok (it, h1) ->
  slicing_base it h1 named_data.
Proof.
  unfold Minibatches_init. intros Hk Hinit.
  apply bind_Ok in Hinit as (n & Hv & Hinit). simpl in Hinit.
  injection Hinit as <- <-. simpl. split; [done|].
  split; [by rewrite list_lookup_middle|]. by eapply validated_sliceable.
Qed.

Lemma constructed_slicing_base shuffle (seed0 : R) named_data h0 it h :
  Online_init shuffle seed0 named_data h0 = Ok (it, h) \/
  (exists k, k <> 0%Z /\
     Minibatches_init k shuffle seed0 named_data h0 = Ok (it, h)) ->
  slicing_base it h named_data.
Proof.
  intros [Hinit|(k & Hk & Hinit)].
  - by eapply Online_init_slicing.
  - by eapply Minibatches_init_slicing.
Qed.

(** a slice of a 5D array is a 5D array of the same height and width *)
Lemma slice_dict_5d start stop (d : pydict) name a t b c hh w :
  d !! name = Some (PyNdarray a) -> shape a = [t; b; c; hh; w] ->
  exists a' b', slice_dict start stop d !! name = Some (PyNdarray a') /\
    shape a' = [t; b'; c; hh; w].
Proof.
  intros Hname Hsh.
  destruct (slice_dict_samples start stop d name a t b [c; hh; w] Hname Hsh)
    as (a' & Ha' & Hsh' & _). eauto.
Qed.

(** X16. Validated once: when [RandomCrop] has been constructed with the
    seed [seed] around [Online], or around [Minibatches] with a batch
    size other than 0, a pass raises nothing and yields one batch for
    each batch of the inner iterator, in its order. In every batch the
    configured names are cropped one after the other, at the offsets that
    [random_integers] draws in the state that the draws before left,
    starting from the seed; every other name is as the inner iterator
    yields it, and the decorator is left in the state after the last
    draw. *)
Theorem RandomCrop_pass shuffle (seed0 : R) named_data h0 (it : iterator R) h
    shape_dict seed rc :
  Online_init shuffle seed0 named_data h0 = Ok (it, h) \/
  (exists k, k <> 0%Z /\
     Minibatches_init k shuffle seed0 named_data h0 = Ok (it, h)) ->
  RandomCrop_init it shape_dict seed h = Ok rc ->
  exists bs it' h1 outs rnd' h2,
    run it h = Ok (bs, it', h1) /\
    run rc h = Ok (outs, RandomCrop rnd' shape_dict it', h2) /\
    pass_from (decorated_from shape_dict RandomCrop_step) bs outs seed rnd'.
Proof.
  intros Hbase Hinit. apply constructed_slicing_base in Hbase.
  destruct (slicing_base_data it h named_data Hbase)
    as (data & Hget & Hd & Hsl).
  destruct (RandomCrop_init_cases it data shape_dict seed h Hget)
    as [Hok _].
  destruct (proj1 (Hok rc) Hinit) as (Hrc & Hall). subst rc.
  destruct (run_decorated (fun rnd g => GRandomCrop rnd shape_dict g)
              shape_dict RandomCrop_body RandomCrop_step RandomCrop_pre
              it h named_data seed)
    as (bs & gi & h1 & outs & rnd' & h2 & Hrun & Hpull & Houts); try done.
  - intros batch k c rnd h3 rnd1 h'. apply RandomCrop_body_step.
  - intros batch k c rnd h3. apply RandomCrop_body_total.
  - intros start stop k crop Hk.
    destruct (Hall k crop Hk)
      as (ch & cw & a & t & b & c & hh & w & -> & Ha & Hsh & Hch & Hcw).
    rewrite Hd in Ha.
    destruct (slice_dict_5d start stop named_data k a t b c hh w Ha Hsh)
      as (a' & b' & Ha' & Hsh').
    exists ch, cw, a', t, b', c, hh, w. done.
  - exists bs, (self_of gi), h1, outs, rnd', h2. split; [done|].
    split; [|done]. unfold run. cbn [call remaining]. by rewrite Hpull.
Qed.

(** X17. Validated once, for [Flip]: when [Flip] has been constructed
    with the seed [seed] around [Online], or around [Minibatches] with a
    batch size other than 0, a pass raises nothing and yields one batch
    for each batch of the inner iterator, in its order. In every batch
    the configured names have one draw of [random_sample] each, one after
    the other in the state that the draws before left, starting from the
    seed; a name is bound to its array reversed along the last axis when
    its draw is below its probability, and is left alone otherwise, and
    so is every name that is not configured. *)
Theorem Flip_pass shuffle (seed0 : R) named_data h0 (it : iterator R) h
    prob_dict seed f :
  Online_init shuffle seed0 named_data h0 = Ok (it, h) \/
  (exists k, k <> 0%Z /\
     Minibatches_init k shuffle seed0 named_data h0 = Ok (it, h)) ->
  Flip_init it prob_dict seed h = Ok f ->
  let prob := default {[ "default"%string := (1 # 2)%Q ]} prob_dict in
  exists bs it' h1 outs rnd' h2,
    run it h = Ok (bs, it', h1) /\
    run f h = Ok (outs, Flip rnd' prob it', h2) /\
    pass_from (decorated_from prob Flip_step) bs outs seed rnd'.
Proof.
  intros Hbase Hinit. cbv zeta. apply constructed_slicing_base in Hbase.
  destruct (slicing_base_data it h named_data Hbase)
    as (data & Hget & Hd & Hsl).
  pose proof (Flip_init_cases it data prob_dict seed h Hget) as Hcases.
  cbv zeta in Hcases. destruct Hcases as [Hok _].
  destruct (proj1 (Hok f) Hinit) as (Hf & Hall). subst f.
  destruct (run_decorated
              (fun rnd g =>
                 GFlip rnd
                   (default {[ "default"%string := (1 # 2)%Q ]} prob_dict) g)
              (default {[ "default"%string := (1 # 2)%Q ]} prob_dict)
              Flip_body Flip_step
              (fun name (_ : Q) v =>
                 exists a, v = Some (PyNdarray a) /\ shape a <> [])
              it h named_data seed)
    as (bs & gi & h1 & outs & rnd' & h2 & Hrun & Hpull & Houts); try done.
  - intros batch k c rnd h3 rnd1 h'. apply Flip_body_step.
  - intros batch k c rnd h3. apply Flip_body_total.
  - intros start stop k p Hk.
    destruct (Hall k p Hk) as (_ & _ & a & Ha & Hlen).
    rewrite Hd in Ha.
    apply length_5 in Hlen as (t & b & c & hh & w & Hsh).
    destruct (slice_dict_5d start stop named_data k a t b c hh w Ha Hsh)
      as (a' & b' & Ha' & Hsh').
    exists a'. split; [done|]. by rewrite Hsh'.
  - exists bs, (self_of gi), h1, outs, rnd', h2. split; [done|].
    split; [|done]. unfold run. cbn [call remaining]. by rewrite Hpull.
Qed.

(** X18. Validated once, for [Pad]: when [Pad] has been constructed with
    positive pad sizes around [Online], or around [Minibatches] with a
    batch size other than 0, a pass raises nothing and yields one batch
    for each batch of the inner iterator, in its order, with every
    configured name padded and every other name as the inner iterator
    yields it. *)
Theorem Pad_pass shuffle (seed0 : R) named_data h0 (it : iterator R) h
    size_dict value_dict seed p :
  Online_init shuffle seed0 named_data h0 = Ok (it, h) \/
  (exists k, k <> 0%Z /\
     Minibatches_init k shuffle seed0 named_data h0 = Ok (it, h)) ->
  (forall name size, size_dict !! name = Some size -> (0 < size)%Z) ->
  Pad_init it size_dict value_dict seed h = Ok p ->
  exists bs it' h1 outs p' h2,
    run it h = Ok (bs, it', h1) /\
    run p h = Ok (outs, p', h2) /\
    Forall2 (decorated size_dict (Pad_post (default ∅ value_dict))) bs outs.
Proof.
  intros Hbase Hsizes Hinit. apply constructed_slicing_base in Hbase.
  destruct (slicing_base_data it h named_data Hbase)
    as (data & Hget & Hd & Hsl).
  destruct (Pad_init_cases it data size_dict value_dict seed h Hget)
    as [Hok _].
  destruct (proj1 (Hok p) Hinit) as (Hp & _ & Hall). subst p.
  destruct (run_decorated
              (fun rnd g => GPad rnd (default ∅ value_dict) size_dict g)
              size_dict (Pad_body (default ∅ value_dict))
              (fun name size (_ _ : R) v v' =>
                 Pad_post (default ∅ value_dict) name size v v')
              (fun name size v =>
                 exists a t b c hh w, v = Some (PyNdarray a) /\
                   shape a = [t; b; c; hh; w] /\ (0 < size)%Z)
              it h named_data seed)
    as (bs & gi & h1 & outs & rnd' & h2 & Hrun & Hpull & Houts); try done.
  - intros batch k c rnd h3 rnd1 h'. apply Pad_body_spec.
  - intros batch k c rnd h3. apply Pad_body_total.
  - intros start stop k size Hk.
    destruct (Hall k size Hk) as (a & Ha & Hlen).
    rewrite Hd in Ha.
    apply length_5 in Hlen as (t & b & c & hh & w & Hsh).
    destruct (slice_dict_5d start stop named_data k a t b c hh w Ha Hsh)
      as (a' & b' & Ha' & Hsh').
    exists a', t, b', c, hh, w. split; [done|]. split; [done|].
    by eapply Hsizes.
  - exists bs, (self_of gi), h1, outs,
      (self_of (GPad rnd' (default ∅ value_dict) size_dict gi)), h2.
    split; [done|]. split.
    + unfold run. cbn [call remaining]. by rewrite Hpull.
    + eapply pass_from_decorated; [|exact Houts]. done.
Qed.

(** X19. Validated once, for [AddGaussianNoise]: when it has been
    constructed with the seed [seed] around [Online], or around
    [Minibatches] with a batch size other than 0, a pass raises nothing
    and yields one batch for each batch of the inner iterator, in its
    order. In every batch the configured names get their noise one after
    the other, each the array that [standard_normal] draws in the state
    that the draws before left, starting from the seed; every other name
    is as the inner iterator yields it, and the decorator is left in the
    state after the last draw. *)
Theorem AddGaussianNoise_pass shuffle (seed0 : R) named_data h0
    (it : iterator R) h std_dict mean_dict seed g :
  Online_init shuffle seed0 named_data h0 = Ok (it, h) \/
  (exists k, k <> 0%Z /\
     Minibatches_init k shuffle seed0 named_data h0 = Ok (it, h)) ->
  AddGaussianNoise_init it std_dict mean_dict seed h = Ok g ->
  exists bs it' h1 outs rnd' h2,
    run it h = Ok (bs, it', h1) /\
    run g h
      = Ok (outs, AddGaussianNoise rnd' (default ∅ mean_dict) std_dict it',
            h2) /\
    pass_from
      (decorated_from std_dict
         (AddGaussianNoise_step (default ∅ mean_dict))) bs outs seed rnd'.
Proof.
  intros Hbase Hinit. apply constructed_slicing_base in Hbase.
  destruct (slicing_base_data it h named_data Hbase)
    as (data & Hget & Hd & Hsl).
  destruct (AddGaussianNoise_init_cases it data std_dict mean_dict seed h
              Hget) as [Hok _].
  destruct (proj1 (Hok g) Hinit) as (Hg & _ & Hall). subst g.
  destruct (run_decorated
              (fun rnd g0 =>
                 GAddGaussianNoise rnd (default ∅ mean_dict) std_dict g0)
              std_dict (AddGaussianNoise_body (default ∅ mean_dict))
              (AddGaussianNoise_step (default ∅ mean_dict))
              (fun name (_ : Q) v => exists a, v = Some (PyNdarray a))
              it h named_data seed)
    as (bs & gi & h1 & outs & rnd' & h2 & Hrun & Hpull & Houts); try done.
  - intros batch k c rnd h3 rnd1 h'. apply AddGaussianNoise_body_step.
  - intros batch k c rnd h3. apply AddGaussianNoise_body_total.
  - intros start stop k std Hk.
    destruct (Hall k std Hk) as (a & Ha). rewrite Hd in Ha.
    destruct (Hsl _ _ Ha) as (t & b & rest & Hsh). injection Hsh as Hsh.
    destruct (slice_dict_samples start stop named_data k a t b rest Ha Hsh)
      as (a' & Ha' & _). eauto.
  - exists bs, (self_of gi), h1, outs, rnd', h2. split; [done|].
    split; [|done]. unfold run. cbn [call remaining]. by rewrite Hpull.
Qed.

End Passes.

(** ** The progress reporter *)

Lemma string_app_cons (c : Ascii.ascii) (s t : string) :
  String c s +:+ t = String c (s +:+ t).
Proof. reflexivity. Qed.

Lemma string_app_empty_l (s : string) : "" +:+ s = s.
Proof. reflexivity. Qed.

Lemma string_app_assoc (s1 s2 s3 : string) :
  (s1 +:+ s2) +:+ s3 = s1 +:+ (s2 +:+ s3).
Proof.
  induction s1 as [|c s1 IH]; [done|].
  by rewrite !string_app_cons, IH.
Qed.

Lemma string_app_empty_r (s : string) : s +:+ "" = s.
Proof.
  induction s as [|c s IH]; [done|]. by rewrite string_app_cons, IH.
Qed.

Lemma substring_split (s : string) : forall i k,
  String.substring 0 i s +:+ String.substring i k s
  = String.substring 0 (i + k) s.
Proof.
  induction s as [|c s IH]; intros i k.
  - by destruct i, k.
  - destruct i as [|i]; [done|].
    cbn [String.substring Nat.add]. by rewrite string_app_cons, IH.
Qed.

Lemma substring_whole (s : string) : forall n,
  String.length s <= n -> String.substring 0 n s = s.
Proof.
  induction s as [|c s IH]; intros n Hn; [by destruct n|].
  destruct n as [|n]; cbn [String.length String.substring] in *; [lia|].
  rewrite IH by lia. done.
Qed.

(** the pieces of the bar join up: what was printed up to position [i]
    and the piece [bar[i:j]] are what is printed up to position [j] *)
Lemma py_substring_joins (bar : string) (i j : Z) :
  (0 <= i <= j)%Z ->
  String.substring 0 (Z.to_nat i) bar +:+ py_substring i j bar
  = String.substring 0 (Z.to_nat j) bar.
Proof.
  intros Hij. unfold py_substring, slice_indices, clip_index.
  destruct (Z.ltb_spec i 0); [lia|]. destruct (Z.ltb_spec j 0); [lia|].
  set (L := String.length bar).
  destruct (decide (Z.to_nat i <= L)) as [Hi|Hi].
  - rewrite Nat.min_l by lia. rewrite substring_split.
    destruct (decide (Z.to_nat j <= L)) as [Hj|Hj].
    + rewrite Nat.min_l by lia. f_equal. lia.
    + rewrite Nat.min_r by lia.
      replace (Z.to_nat i + (L - Z.to_nat i)) with L by lia.
      by rewrite !substring_whole by (fold L; lia).
  - rewrite !Nat.min_r by lia. rewrite Nat.sub_diag.
    rewrite !substring_whole by (fold L; lia).
    replace (String.substring L 0 bar) with ""%string;
      [apply string_app_empty_r|].
    clear. generalize L. induction bar as [|c bar IH]; intros [|n]; simpl;
      done.
Qed.

Section Progress.

Variable scale : Z -> Z -> nat -> Z.
Variable elapsed : string.

Lemma wants_progress_resolved self_verbose verbose :
  wants_progress self_verbose verbose
  = match self_verbose with
    | None => verbose
    | Some b => b
    end.
Proof. by destruct self_verbose as [[]|], verbose. Qed.

(** [silence] prints nothing, whatever is sent *)
Lemma print_sends_silence sends :
  print_sends scale elapsed Silence sends = Ok (Some (""%string, Silence)).
Proof. induction sends as [|x sends IH]; simpl; [done|]. by rewrite IH. Qed.

(** While the positions climb and stay below the end of the bar, the
    text printed so far is the bar up to the last position. *)
Lemma print_sends_climbing maximum sends : forall i,
  maximum <> 0%Z -> (0 <= i)%Z ->
  let L := String.length default_bar in
  (forall p, p ∈ sends -> (scale p maximum L < Z.of_nat L)%Z) ->
  StronglySorted Z.le (i :: map (fun p => scale p maximum L) sends) ->
  exists text j,
    print_sends scale elapsed (Bar maximum (BarLoop i)) sends
      = Ok (Some (text, Bar maximum (BarLoop j))) /\
    (i <= j)%Z /\
    (forall b, (i <= b)%Z ->
       (forall p, p ∈ sends -> (scale p maximum L <= b)%Z) -> (j <= b)%Z) /\
    String.substring 0 (Z.to_nat i) default_bar +:+ text
    = String.substring 0 (Z.to_nat j) default_bar.
Proof.
  induction sends as [|p sends IH]; intros i Hmax Hi L Hbelow Hsorted.
  - exists ""%string, i. split; [done|]. split; [lia|]. split.
    + intros b Hb _. exact Hb.
    + apply string_app_empty_r.
  - simpl in Hsorted. apply StronglySorted_inv in Hsorted as [Hrest Hall].
    apply Forall_cons in Hall as [Hip Hall].
    destruct (IH (scale p maximum L) Hmax ltac:(lia)) as
      (text & j & Hrun & Hj & Hmaxj & Htext).
    { intros q Hq. apply Hbelow. by right. }
    { exact Hrest. }
    cbn [print_sends reporter_send progress_bar_send].
    destruct (Z.eqb_spec maximum 0); [done|].
    fold L. destruct (Z.ltb_spec (scale p maximum L) (Z.of_nat L)) as [_|Hge].
    2:{ specialize (Hbelow p ltac:(left)). lia. }
    cbn [bind]. fold L in Hrun. rewrite Hrun. cbn [bind].
    exists (py_substring i (scale p maximum L) default_bar +:+ text), j.
    split; [done|]. split; [lia|]. split.
    + intros b Hb Hall'. apply Hmaxj.
      * apply Hall'. by left.
      * intros q Hq. apply Hall'. by right.
    + rewrite <- string_app_assoc, py_substring_joins by lia. exact Htext.
Qed.

(** The send that reaches the end of the bar prints the rest of it and
    the suffix. *)
Lemma print_send_completing maximum i p :
  maximum <> 0%Z -> (0 <= i)%Z ->
  let L := String.length default_bar in
  (i <= scale p maximum L)%Z -> (Z.of_nat L <= scale p maximum L)%Z ->
  exists text,
    print_sends scale elapsed (Bar maximum (BarLoop i)) [p]
      = Ok (Some (text, Bar maximum BarFinal)) /\
    String.substring 0 (Z.to_nat i) default_bar +:+ text
    = default_bar +:+ default_suffix elapsed.
Proof.
  intros Hmax Hi L Hip Hfull.
  cbn [print_sends reporter_send progress_bar_send].
  destruct (Z.eqb_spec maximum 0); [done|]. fold L.
  destruct (Z.ltb_spec (scale p maximum L) (Z.of_nat L)); [lia|].
  cbn [bind]. eexists. split; [done|].
  rewrite string_app_empty_r, <- string_app_assoc.
  rewrite py_substring_joins by lia.
  rewrite substring_whole by (fold L; lia). done.
Qed.

Lemma print_sends_app r s1 s2 :
  print_sends scale elapsed r (s1 ++ s2)
  = (let* o := print_sends scale elapsed r s1 in
     match o with
     | None => Ok None
     | Some (t1, r1) =>
         let* o2 := print_sends scale elapsed r1 s2 in
         match o2 with
         | None => Ok None
         | Some (t2, r2) => Ok (Some (t1 +:+ t2, r2))
         end
     end).
Proof.
  revert r. induction s1 as [|x s1 IH]; intros r; simpl.
  - destruct (print_sends scale elapsed r s2) as [[[t2 r2]|]|]; done.
  - destruct (reporter_send scale elapsed r (Some x)) as [[[text|] r1]|];
      simpl; try done.
    rewrite IH.
    destruct (print_sends scale elapsed r1 s1) as [[[t1 r1']|]|]; simpl;
      try done.
    destruct (print_sends scale elapsed r1' s2) as [[[t2 r2]|]|]; simpl;
      try done.
    by rewrite string_app_assoc.
Qed.

Lemma StronglySorted_snoc_inv (l : list Z) (x : Z) :
  StronglySorted Z.le (l ++ [x]) ->
  StronglySorted Z.le l /\ Forall (fun y => (y <= x)%Z) l.
Proof.
  induction l as [|y l IH]; intros Hs; [split; constructor|].
  simpl in Hs. apply StronglySorted_inv in Hs as [Hs Hall].
  destruct (IH Hs) as [Hl Hx]. apply Forall_app in Hall as [Hall Hyx].
  split; [by constructor|]. constructor; [|done].
  by apply Forall_cons in Hyx as [Hyx _].
Qed.

(** A pass whose sends climb to the maximum prints the prefix, the whole
    bar and the suffix. *)
Lemma pass_stdout_complete maximum (sends : list Z) (last : Z) :
  maximum <> 0%Z ->
  let L := String.length default_bar in
  (forall p, p ∈ sends -> (scale p maximum L < Z.of_nat L)%Z) ->
  StronglySorted Z.le (0%Z :: map (fun p => scale p maximum L) (sends ++ [last])) ->
  (Z.of_nat L <= scale last maximum L)%Z ->
  pass_stdout scale elapsed (Bar maximum BarFresh) (sends ++ [last])
  = Ok (Some (default_prefix +:+ default_bar +:+ default_suffix elapsed)).
Proof.
  intros Hmax L Hbelow Hsorted Hfull.
  unfold pass_stdout. cbn [reporter_send progress_bar_send].
  change (0 <? Z.of_nat (String.length default_bar))%Z with true.
  cbn [bind]. rewrite print_sends_app.
  rewrite map_app in Hsorted. simpl in Hsorted.
  assert (Hsorted1 : StronglySorted Z.le
            (0%Z :: map (fun p => scale p maximum L) sends)).
  { change (0%Z :: map (fun p => scale p maximum L) sends ++
              [scale last maximum L])
      with ((0%Z :: map (fun p => scale p maximum L) sends) ++
              [scale last maximum L]) in Hsorted.
    by apply StronglySorted_snoc_inv in Hsorted as [Hsorted _]. }
  destruct (print_sends_climbing maximum sends 0 Hmax ltac:(lia) Hbelow
              Hsorted1) as (text & j & Hrun & Hj & Hmaxj & Htext).
  fold L in Hrun. rewrite Hrun. cbn [bind].
  destruct (print_send_completing maximum j last Hmax Hj) as (text' & Hrun' & Htext').
  { fold L. apply Hmaxj; [lia|].
    change (0%Z :: map (fun p => scale p maximum L) sends ++
              [scale last maximum L])
      with ((0%Z :: map (fun p => scale p maximum L) sends) ++
              [scale last maximum L]) in Hsorted.
    apply StronglySorted_snoc_inv in Hsorted as [_ Hle].
    apply Forall_cons in Hle as [_ Hle].
    intros p Hp. rewrite Forall_forall in Hle. apply Hle.
    apply list_elem_of_In, in_map_iff. exists p. split; [done|].
    by apply list_elem_of_In. }
  { exact Hfull. }
  fold L in Hrun'. rewrite Hrun'. cbn [bind]. do 2 f_equal.
  rewrite <- Htext', <- Htext. simpl String.substring at 1.
  by rewrite string_app_assoc.
Qed.

Lemma sorted_map_seq (f : nat -> Z) :
  (forall i j, i <= j -> (f i <= f j)%Z) ->
  forall n a, StronglySorted Z.le (map f (seq a n)).
Proof.
  intros Hf. induction n as [|n IH]; intros a; [constructor|].
  cbn [seq map]. constructor; [apply IH|].
  rewrite Forall_forall. intros y Hy.
  apply list_elem_of_In, in_map_iff in Hy as (i & <- & Hi).
  apply in_seq in Hi. apply Hf. lia.
Qed.

Lemma sorted_positions maximum (l : list Z) :
  tracks_fraction scale maximum (String.length default_bar) ->
  StronglySorted Z.le l -> Forall (fun p => (0 <= p)%Z) l ->
  StronglySorted Z.le
    (0%Z :: map (fun p => scale p maximum (String.length default_bar)) l).
Proof.
  intros (Hmono & Hnonneg & _ & _) Hs Hpos.
  constructor.
  - induction Hs as [|x l Hs IH Hall]; [constructor|].
    apply Forall_cons in Hpos as [Hx Hpos].
    cbn [map]. constructor; [by apply IH|].
    rewrite Forall_forall in Hall, Hpos. rewrite Forall_forall.
    intros y Hy.
    apply list_elem_of_In, in_map_iff in Hy as (q & <- & Hq).
    apply list_elem_of_In in Hq. apply Hmono. split; [done|by apply Hall].
  - rewrite Forall_forall in Hpos. rewrite Forall_forall. intros y Hy.
    apply list_elem_of_In, in_map_iff in Hy as (q & <- & Hq).
    apply Hnonneg, Hpos. by apply list_elem_of_In.
Qed.

(** The sends of a pass over [blocks >= 1] batches, [f i] after batch
    [i]: when [f] grows, stays below the maximum before the last batch
    and reaches it with the last one, the whole bar is printed. *)
Lemma climbing_pass_stdout maximum (f : nat -> Z) (blocks : nat) :
  maximum <> 0%Z ->
  tracks_fraction scale maximum (String.length default_bar) ->
  (forall i j, i <= j -> (f i <= f j)%Z) ->
  (forall i, (0 <= f i)%Z) ->
  (forall i, S i < blocks -> (f i < maximum)%Z) ->
  1 <= blocks -> (maximum <= f (blocks - 1)%nat)%Z ->
  pass_stdout scale elapsed (Bar maximum BarFresh) (map f (seq 0 blocks))
  = Ok (Some (default_prefix +:+ default_bar +:+ default_suffix elapsed)).
Proof.
  intros Hmax Htr Hf Hf0 Hbelow Hblocks Hlast.
  destruct blocks as [|m]; [lia|].
  replace (S m - 1) with m in Hlast by lia.
  rewrite seq_S, map_app. cbn [map Nat.add].
  pose proof Htr as (_ & _ & Hlt & Hfull).
  apply pass_stdout_complete; [done| | |by apply Hfull].
  - intros p Hp. apply list_elem_of_In, in_map_iff in Hp as (i & <- & Hi).
    apply in_seq in Hi. apply Hlt. split; [apply Hf0|]. apply Hbelow. lia.
  - apply sorted_positions; [done| |].
    + change [f m] with (map f [m]). rewrite <- map_app.
      replace (seq 0 m ++ [m]) with (seq 0 (S m)) by (by rewrite seq_S).
      by apply sorted_map_seq.
    + rewrite Forall_forall. intros p Hp.
      apply list_elem_of_In, in_app_iff in Hp as [Hp|[<-|[]]]; [|apply Hf0].
      apply in_map_iff in Hp as (i & <- & _). apply Hf0.
Qed.

(** X21. A pass over [Online] that reports progress (the iterator's own
    [verbose] when it is set, the call's otherwise) prints the prefix,
    the whole bar and the suffix, once, over the pass. *)
Theorem Online_prints_whole_bar (self_verbose : option bool) (verbose : bool)
    (nr_sequences : nat) :
  match self_verbose with None => verbose | Some b => b end = true ->
  1 <= nr_sequences ->
  tracks_fraction scale (Z.of_nat nr_sequences) (String.length default_bar) ->
  Online_stdout scale elapsed self_verbose verbose nr_sequences
  = Ok (Some (default_prefix +:+ default_bar +:+ default_suffix elapsed)).
Proof.
  intros Hv Hn Htr. unfold Online_stdout, pick_reporter.
  rewrite wants_progress_resolved, Hv.
  apply climbing_pass_stdout; [lia|done|intros; lia|intros; lia|intros; lia
                              |done|lia].
Qed.

(** X22. A pass over [Minibatches] with a positive batch size that reports
    progress prints the prefix, the whole bar and the suffix, also when
    the last block is short. *)
Theorem Minibatches_prints_whole_bar (self_verbose : option bool)
    (verbose : bool) (nr_sequences : nat) (batch_size : Z) :
  match self_verbose with None => verbose | Some b => b end = true ->
  1 <= nr_sequences -> (1 <= batch_size)%Z ->
  tracks_fraction scale (Z.of_nat nr_sequences) (String.length default_bar) ->
  Minibatches_stdout scale elapsed self_verbose verbose nr_sequences batch_size
  = Ok (Some (default_prefix +:+ default_bar +:+ default_suffix elapsed)).
Proof.
  intros Hv Hn Hk Htr. unfold Minibatches_stdout, pick_reporter.
  destruct (Z.eqb_spec batch_size 0); [lia|].
  rewrite wants_progress_resolved, Hv.
  pose proof (ceil_div_spec (Z.of_nat nr_sequences) batch_size ltac:(lia))
    as Hceil.
  set (c := ceil_div (Z.of_nat nr_sequences) batch_size) in *.
  assert (Hc : (1 <= c)%Z) by nia.
  apply climbing_pass_stdout; [lia|done| | | |lia|].
  - intros i j Hij. nia.
  - intros i. nia.
  - intros i Hi. nia.
  - replace (Z.of_nat (Z.to_nat c - 1) + 1)%Z with c by lia. lia.
Qed.

(** X23. A pass that does not report progress prints nothing. *)
Theorem quiet_pass_prints_nothing (self_verbose : option bool)
    (verbose : bool) (nr_sequences : nat) (batch_size : Z) :
  match self_verbose with None => verbose | Some b => b end = false ->
  Online_stdout scale elapsed self_verbose verbose nr_sequences
    = Ok (Some ""%string) /\
  (batch_size <> 0%Z ->
   Minibatches_stdout scale elapsed self_verbose verbose nr_sequences
     batch_size = Ok (Some ""%string)).
Proof.
  intros Hv. unfold Online_stdout, Minibatches_stdout, pick_reporter.
  rewrite wants_progress_resolved, Hv. unfold pass_stdout.
  cbn [reporter_send bind]. split.
  - by rewrite print_sends_silence.
  - intros Hk. destruct (Z.eqb_spec batch_size 0); [done|].
    by rewrite print_sends_silence.
Qed.

(** X24. A reporting pass that has no batch prints the prefix and never the
    rest: over [Online] with no sample, over [Minibatches] with no sample
    or with a negative batch size. *)
Theorem pass_without_batches_leaves_bar_open (self_verbose : option bool)
    (verbose : bool) (nr_sequences : nat) (batch_size : Z) :
  match self_verbose with None => verbose | Some b => b end = true ->
  (Online_stdout scale elapsed self_verbose verbose 0
     = Ok (Some default_prefix)) /\
  ((batch_size < 0)%Z \/ (nr_sequences = 0 /\ batch_size <> 0%Z) ->
   Minibatches_stdout scale elapsed self_verbose verbose nr_sequences
     batch_size = Ok (Some default_prefix)).
Proof.
  intros Hv. unfold Online_stdout, Minibatches_stdout, pick_reporter.
  rewrite wants_progress_resolved, Hv. split; [done|].
  intros Hcase. destruct (Z.eqb_spec batch_size 0); [lia|].
  assert (Hc : Z.to_nat (ceil_div (Z.of_nat nr_sequences) batch_size) = 0).
  { unfold ceil_div. destruct Hcase as [Hk|[-> _]].
    - assert (0 <= - Z.of_nat nr_sequences / batch_size)%Z; [|lia].
      replace (- Z.of_nat nr_sequences / batch_size)%Z
        with (Z.of_nat nr_sequences / - batch_size)%Z.
      + apply Z.div_pos; lia.
      + rewrite <- (Z.div_opp_opp _ (- batch_size)) by lia.
        by rewrite Z.opp_involutive.
    - simpl. rewrite Z.div_0_l by done. done. }
  rewrite Hc. done.
Qed.

End Progress.

Lemma trunc_scale_tracks (maximum : Z) (L : nat) :
  (0 < maximum)%Z -> 1 <= L -> tracks_fraction trunc_scale maximum L.
Proof.
  intros Hm HL. unfold tracks_fraction, trunc_scale.
  assert (Hq : forall p, (0 <= p)%Z ->
            (p * Z.of_nat L ÷ maximum = p * Z.of_nat L / maximum)%Z).
  { intros p Hp. apply Z.quot_div_nonneg; [|done].
    apply Z.mul_nonneg_nonneg; lia. }
  repeat split.
  - intros p q Hpq. rewrite !Hq by lia.
    apply Z.div_le_mono; [done|]. apply Z.mul_le_mono_nonneg_r; lia.
  - intros p Hp. rewrite Hq by done. apply Z.div_pos; [|done].
    apply Z.mul_nonneg_nonneg; lia.
  - intros p Hp. rewrite Hq by lia.
    apply Z.div_lt_upper_bound; [done|].
    apply Z.mul_lt_mono_pos_r; lia.
  - intros p Hp. rewrite Hq by lia.
    apply Z.div_le_lower_bound; [done|]. nia.
Qed.

(** ** The further theorems at concrete inputs *)

Lemma sample_data_sliceable : sliceable sample_data.
Proof.
  intros name v Hname. unfold sample_data in Hname.
  apply lookup_singleton_Some in Hname as [_ <-].
  by exists 1, 3, [1; 2; 2].
Qed.

Lemma Online_sample_constructed :
  Online_init true [1; 1] sample_data []
    = Ok (Online [1; 1] 3 0 true, [sample_data]) \/
  (exists k, k <> 0%Z /\
     Minibatches_init k true [1; 1] sample_data []
       = Ok (Online [1; 1] 3 0 true, [sample_data])).
Proof. left. reflexivity. Qed.

Lemma trunc_scale_tracks_default (n : Z) :
  (0 < n)%Z -> tracks_fraction trunc_scale n (String.length default_bar).
Proof. intros Hn. apply trunc_scale_tracks; [done|]. vm_compute. lia. Qed.

Lemma validator_raises_only_witness :
  _assert_correct_data_format {[ "default"%string := PyNdarray flat_array ]}
    = Raise (IteratorValidationError RankBelow3) /\
  exists name v sh,
    ({[ "default"%string := PyNdarray flat_array ]} : pydict) !! name
      = Some v /\
    py_shape v = Some sh /\ length sh < 3.
Proof.
  assert (Hraise : _assert_correct_data_format
                     {[ "default"%string := PyNdarray flat_array ]}
                   = Raise (IteratorValidationError RankBelow3)).
  { vm_compute. reflexivity. }
  split; [exact Hraise|].
  destruct (validator_raises_only
              {[ "default"%string := PyNdarray flat_array ]}
              (IteratorValidationError RankBelow3) Hraise)
    as [[_ He]|[_ [(name & v & _ & _ & He)|[(name & v & sh & Hn & Hs & Hl & _)
                                           |[[He _]|[He _]]]]]].
  - discriminate He.
  - discriminate He.
  - exists name, v, sh. split; [exact Hn|]. split; [exact Hs|exact Hl].
  - discriminate He.
  - discriminate He.
Defined.

Lemma Undivided_yields_the_dataset_witness :
  Undivided_init (R := list nat) sample_data []
    = Ok (Undivided 0, [sample_data]) /\
  run (Undivided (R := list nat) 0) [sample_data]
    = Ok ([sample_data], Undivided 0, [sample_data]) /\
  exists data,
    get_data (Undivided (R := list nat) 0) = Ok data /\
    deref [sample_data] data = sample_data /\
    next (call (Undivided (R := list nat) 0)) [sample_data]
      = Ok (Some data, GUndivided data false, [sample_data]).
Proof.
  split; [reflexivity|].
  apply (Undivided_yields_the_dataset sample_data [] (Undivided 0)
           [sample_data]).
  reflexivity.
Defined.

Lemma Online_yields_every_sample_once_witness :
  Online_init true [1; 1] sample_data []
    = Ok (Online [1; 1] 3 0 true, [sample_data]) /\
  exists n batches it' h2,
    _assert_correct_data_format sample_data = Ok n /\
    run (Online [1; 1] 3 0 true) [sample_data] = Ok (batches, it', h2) /\
    batches ≡ₚ Online_batches sample_data (seq 0 n) /\
    (true = false -> batches = Online_batches sample_data (seq 0 n)) /\
    forall idx batch,
      Online_batches sample_data (seq 0 n) !! idx = Some batch ->
      forall name a, sample_data !! name = Some (PyNdarray a) ->
        exists a', batch !! name = Some (PyNdarray a') /\
          samples_from idx a a'.
Proof.
  split; [reflexivity|].
  apply (Online_yields_every_sample_once true [1; 1] sample_data []).
  reflexivity.
Defined.

Lemma Minibatches_blocks_partition_witness :
  (1 <= 2)%Z /\
  Minibatches_init 2 true [1] sample_data []
    = Ok (Minibatches [1] 3 0 true 2, [sample_data]) /\
  exists n batches it' h2,
    _assert_correct_data_format sample_data = Ok n /\
    run (Minibatches [1] 3 0 true 2) [sample_data] = Ok (batches, it', h2) /\
    let blocks := Z.to_nat (ceil_div (Z.of_nat n) 2) in
    batches ≡ₚ Minibatches_batches 2 sample_data (seq 0 blocks) /\
    (true = false ->
       batches = Minibatches_batches 2 sample_data (seq 0 blocks)) /\
    sum_list (block_extent n 2 blocks <$> seq 0 blocks) = n /\
    forall idx batch,
      Minibatches_batches 2 sample_data (seq 0 blocks) !! idx = Some batch ->
      forall name a, sample_data !! name = Some (PyNdarray a) ->
        exists a' T rest,
          batch !! name = Some (PyNdarray a') /\
          shape a = T :: n :: rest /\
          shape a' = T :: block_extent n 2 blocks idx :: rest /\
          samples_from (idx * Z.to_nat 2) a a'.
Proof.
  split; [lia|]. split; [reflexivity|].
  apply (Minibatches_blocks_partition 2 true [1] sample_data []);
    [lia | reflexivity].
Defined.

Lemma Minibatches_degenerate_batch_size_witness :
  (0 <= 0)%Z /\
  Minibatches_init 0 true [1] sample_data []
    = Ok (Minibatches [1] 3 0 true 0, [sample_data]) /\
  run (Minibatches [1] 3 0 true 0) [sample_data] = Raise ZeroDivisionError.
Proof.
  split; [lia|]. split; [reflexivity|].
  apply (Minibatches_degenerate_batch_size 0 true [1] sample_data []
           (Minibatches [1] 3 0 true 0) [sample_data]);
    [lia | reflexivity | reflexivity].
Defined.

Lemma AddGaussianNoise_init_outcome_witness :
  get_data (Undivided (R := list nat) 0) = Ok 0 /\
  AddGaussianNoise_init (Undivided 0) {[ "default"%string := 1%Q ]} None
    ([] : list nat) [sample_data]
  = Ok (AddGaussianNoise [] ∅ {[ "default"%string := 1%Q ]} (Undivided 0)).
Proof.
  split; [reflexivity|].
  destruct (AddGaussianNoise_init_outcome (Undivided 0) 0
              {[ "default"%string := 1%Q ]} None ([] : list nat)
              [sample_data] eq_refl) as [Hok _].
  apply Hok. split; [reflexivity|]. split; [discriminate|].
  intros name std Hname. apply lookup_singleton_Some in Hname as [<- _].
  exists sample_array. reflexivity.
Defined.

Lemma Flip_init_outcome_witness :
  get_data (Undivided (R := list nat) 0) = Ok 0 /\
  Flip_init (Undivided 0) None ([] : list nat) [sample_data]
  = Ok (Flip [] {[ "default"%string := (1 # 2)%Q ]} (Undivided 0)).
Proof.
  split; [reflexivity|].
  pose proof (Flip_init_outcome (Undivided 0) 0 None ([] : list nat)
                [sample_data] eq_refl) as Hcases.
  cbv zeta in Hcases. destruct Hcases as [Hok _].
  apply Hok. split; [reflexivity|].
  intros name p Hname. cbn [default from_option id] in Hname.
  apply lookup_singleton_Some in Hname as [<- <-].
  split; [discriminate|]. split; [discriminate|].
  exists sample_array. split; reflexivity.
Defined.

Lemma Pad_init_outcome_witness :
  get_data (Undivided (R := list nat) 0) = Ok 0 /\
  Pad_init (Undivided 0) {[ "default"%string := 1%Z ]} None ([] : list nat)
    [sample_data]
  = Ok (Pad [] ∅ {[ "default"%string := 1%Z ]} (Undivided 0)).
Proof.
  split; [reflexivity|].
  destruct (Pad_init_outcome (Undivided 0) 0 {[ "default"%string := 1%Z ]}
              None ([] : list nat) [sample_data] eq_refl) as [Hok _].
  apply Hok. split; [reflexivity|]. split; [discriminate|].
  intros name size Hname. apply lookup_singleton_Some in Hname as [<- _].
  exists sample_array. split; reflexivity.
Defined.

Lemma RandomCrop_init_outcome_witness :
  get_data (Undivided (R := list nat) 0) = Ok 0 /\
  RandomCrop_init (Undivided 0) {[ "default"%string := [1; 1]%Z ]}
    ([] : list nat) [sample_data]
  = Ok (RandomCrop [] {[ "default"%string := [1; 1]%Z ]} (Undivided 0)).
Proof.
  split; [reflexivity|].
  destruct (RandomCrop_init_outcome (Undivided 0) 0
              {[ "default"%string := [1; 1]%Z ]} ([] : list nat)
              [sample_data] eq_refl) as [Hok _].
  apply Hok. split; [reflexivity|].
  intros name crop Hname. apply lookup_singleton_Some in Hname as [<- <-].
  exists 1%Z, 1%Z, sample_array, 1, 3, 1, 2, 2.
  repeat split; try reflexivity; lia.
Defined.

Lemma decorators_reject_missing_name_witness :
  get_data (Undivided (R := list nat) 0) = Ok 0 /\
  deref [sample_data] 0 !! "targets"%string = None /\
  (forall (std_dict : gmap string Q) mean_dict,
     is_Some (std_dict !! "targets"%string) ->
     (forall m, mean_dict = Some m -> dom m = dom std_dict) ->
     exists msg, AddGaussianNoise_init (Undivided 0) std_dict mean_dict
                   ([] : list nat) [sample_data]
                 = Raise (IteratorValidationError msg)) /\
  (forall (std_dict m : gmap string Q),
     is_Some (std_dict !! "targets"%string) -> dom m <> dom std_dict ->
     AddGaussianNoise_init (Undivided 0) std_dict (Some m) ([] : list nat)
       [sample_data]
     = Raise AssertionError) /\
  (forall prob_dict : option (gmap string Q),
     is_Some (default {[ "default"%string := (1 # 2)%Q ]} prob_dict
                !! "targets"%string) ->
     exists msg, Flip_init (Undivided 0) prob_dict ([] : list nat)
                   [sample_data]
                 = Raise (IteratorValidationError msg)) /\
  (forall (size_dict : gmap string Z) value_dict,
     is_Some (size_dict !! "targets"%string) ->
     exists msg, Pad_init (Undivided 0) size_dict value_dict ([] : list nat)
                   [sample_data]
                 = Raise (IteratorValidationError msg)) /\
  (forall shape_dict : gmap string (list Z),
     is_Some (shape_dict !! "targets"%string) ->
     exists msg, RandomCrop_init (Undivided 0) shape_dict ([] : list nat)
                   [sample_data]
                 = Raise (IteratorValidationError msg)).
Proof.
  split; [reflexivity|]. split; [reflexivity|].
  apply (decorators_reject_missing_name (Undivided 0) 0 [sample_data]
           "targets"%string ([] : list nat)); reflexivity.
Defined.

Lemma AddGaussianNoise_batch_witness :
  next (GUndivided (R := list nat) 0 true) [sample_data]
    = Ok (Some 0, GUndivided 0 false, [sample_data]) /\
  (forall name std,
     ({[ "default"%string := 1%Q ]} : gmap string Q) !! name = Some std ->
     exists a, deref [sample_data] 0 !! name = Some (PyNdarray a)) /\
  exists g' h2,
    next (GAddGaussianNoise [4] ∅ {[ "default"%string := 1%Q ]}
            (GUndivided 0 true))
      [sample_data] = Ok (Some 0, g', h2) /\
    exists rnd',
      g' = GAddGaussianNoise rnd' ∅ {[ "default"%string := 1%Q ]}
             (GUndivided 0 false) /\
      decorated_from {[ "default"%string := 1%Q ]} (AddGaussianNoise_step ∅)
        (deref [sample_data] 0) (deref h2 0) [4] rnd'.
Proof.
  assert (Hpre : forall name std,
     ({[ "default"%string := 1%Q ]} : gmap string Q) !! name = Some std ->
     exists a, deref [sample_data] 0 !! name = Some (PyNdarray a)).
  { intros name std Hname. apply lookup_singleton_Some in Hname as [<- _].
    exists sample_array. reflexivity. }
  split; [reflexivity|]. split; [exact Hpre|].
  destruct (AddGaussianNoise_batch ([4] : list nat) ∅
              {[ "default"%string := 1%Q ]} (GUndivided 0 true)
              [sample_data] 0 (GUndivided 0 false) [sample_data] eq_refl)
    as [Hprop Hyield].
  destruct (Hyield Hpre) as (g' & h2 & Hnext).
  exists g', h2. split; [exact Hnext|].
  destruct (Hprop _ _ _ Hnext) as (_ & Hdec & _). exact Hdec.
Defined.

Lemma Pad_batch_witness :
  next (GUndivided (R := list nat) 0 true) [sample_data]
    = Ok (Some 0, GUndivided 0 false, [sample_data]) /\
  (forall name size,
     ({[ "default"%string := 1%Z ]} : gmap string Z) !! name = Some size ->
     exists a t b c hh w,
       deref [sample_data] 0 !! name = Some (PyNdarray a) /\
       shape a = [t; b; c; hh; w] /\ (0 < size)%Z) /\
  exists g' h2,
    next (GPad [] ∅ {[ "default"%string := 1%Z ]} (GUndivided 0 true))
      [sample_data] = Ok (Some 0, g', h2) /\
    exists a a',
      deref [sample_data] 0 !! "default"%string = Some (PyNdarray a) /\
      deref h2 0 !! "default"%string = Some (PyNdarray a') /\
      padded_from 1 0%Q a a'.
Proof.
  assert (Hpre : forall name size,
     ({[ "default"%string := 1%Z ]} : gmap string Z) !! name = Some size ->
     exists a t b c hh w,
       deref [sample_data] 0 !! name = Some (PyNdarray a) /\
       shape a = [t; b; c; hh; w] /\ (0 < size)%Z).
  { intros name size Hname. apply lookup_singleton_Some in Hname as [<- <-].
    exists sample_array, 1, 3, 1, 2, 2. repeat split; lia. }
  split; [reflexivity|]. split; [exact Hpre|].
  destruct (Pad_batch ([] : list nat) ∅ {[ "default"%string := 1%Z ]}
              (GUndivided 0 true) [sample_data] 0 (GUndivided 0 false)
              [sample_data] eq_refl) as [Hprop Hyield].
  destruct (Hyield Hpre) as (g' & h2 & Hnext).
  exists g', h2. split; [exact Hnext|].
  destruct (Hprop _ _ _ Hnext) as (_ & Hone & _).
  apply (Hone "default"%string 1%Z); [reflexivity|lia].
Defined.

Lemma pad_array_succeeds_iff_witness :
  shape sample_array = [1; 3; 1; 2; 2] /\
  ((exists a', pad_array 0 0 sample_array = Ok a') <->
   (0 < 0)%Z \/ (0%Z = 0%Z /\ 2 <= 1 /\ 2 <= 1)) /\
  (forall e, pad_array 0 0 sample_array = Raise e -> e = ValueError).
Proof.
  split; [reflexivity|].
  apply (pad_array_succeeds_iff 0 0 sample_array 1 3 1 2 2). reflexivity.
Defined.

Lemma crop_array_full_image_witness :
  shape sample_array = [1; 3; 1; 2; 2] /\
  exists a' rnd',
    crop_array [2; 2]%Z sample_array ([5; 3] : list nat)
      = Ok (a', replicate 3 0%Z, replicate 3 0%Z, rnd') /\
    rnd' = (random_integers (random_integers [5; 3] 0 0 3).2 0 0 3).2 /\
    shape a' = shape sample_array /\
    forall ti bi ci i j, bi < 3 ->
      item a' [ti; bi; ci; i; j] = item sample_array [ti; bi; ci; i; j].
Proof.
  split; [reflexivity|].
  apply (crop_array_full_image sample_array ([5; 3] : list nat) 1 3 1 2 2).
  reflexivity.
Defined.

Lemma RandomCrop_pass_witness :
  (Online_init true [1; 1] sample_data []
     = Ok (Online [1; 1] 3 0 true, [sample_data]) \/
   (exists k, k <> 0%Z /\
      Minibatches_init k true [1; 1] sample_data []
        = Ok (Online [1; 1] 3 0 true, [sample_data]))) /\
  RandomCrop_init (Online [1; 1] 3 0 true)
    {[ "default"%string := [1; 1]%Z ]} [5; 3] [sample_data]
  = Ok (RandomCrop [5; 3] {[ "default"%string := [1; 1]%Z ]}
          (Online [1; 1] 3 0 true)) /\
  exists bs it' h1 outs rnd' h2,
    run (Online [1; 1] 3 0 true) [sample_data] = Ok (bs, it', h1) /\
    run (RandomCrop [5; 3] {[ "default"%string := [1; 1]%Z ]}
           (Online [1; 1] 3 0 true)) [sample_data]
      = Ok (outs, RandomCrop rnd' {[ "default"%string := [1; 1]%Z ]} it',
            h2) /\
    pass_from
      (decorated_from {[ "default"%string := [1; 1]%Z ]} RandomCrop_step)
      bs outs [5; 3] rnd'.
Proof.
  split; [exact Online_sample_constructed|]. split; [reflexivity|].
  apply (RandomCrop_pass true [1; 1] sample_data []
           (Online [1; 1] 3 0 true) [sample_data]
           {[ "default"%string := [1; 1]%Z ]} [5; 3]);
    [exact Online_sample_constructed | reflexivity].
Defined.

Lemma Flip_pass_witness :
  (Online_init true [1; 1] sample_data []
     = Ok (Online [1; 1] 3 0 true, [sample_data]) \/
   (exists k, k <> 0%Z /\
      Minibatches_init k true [1; 1] sample_data []
        = Ok (Online [1; 1] 3 0 true, [sample_data]))) /\
  Flip_init (Online [1; 1] 3 0 true) None [7] [sample_data]
  = Ok (Flip [7] {[ "default"%string := (1 # 2)%Q ]}
          (Online [1; 1] 3 0 true)) /\
  exists bs it' h1 outs rnd' h2,
    run (Online [1; 1] 3 0 true) [sample_data] = Ok (bs, it', h1) /\
    run (Flip [7] {[ "default"%string := (1 # 2)%Q ]}
           (Online [1; 1] 3 0 true)) [sample_data]
      = Ok (outs, Flip rnd' {[ "default"%string := (1 # 2)%Q ]} it', h2) /\
    pass_from
      (decorated_from {[ "default"%string := (1 # 2)%Q ]} Flip_step)
      bs outs [7] rnd'.
Proof.
  split; [exact Online_sample_constructed|]. split; [reflexivity|].
  apply (Flip_pass true [1; 1] sample_data [] (Online [1; 1] 3 0 true)
           [sample_data] None [7]);
    [exact Online_sample_constructed | reflexivity].
Defined.

Lemma Pad_pass_witness :
  (Online_init true [1; 1] sample_data []
     = Ok (Online [1; 1] 3 0 true, [sample_data]) \/
   (exists k, k <> 0%Z /\
      Minibatches_init k true [1; 1] sample_data []
        = Ok (Online [1; 1] 3 0 true, [sample_data]))) /\
  (forall name size,
     ({[ "default"%string := 1%Z ]} : gmap string Z) !! name = Some size ->
     (0 < size)%Z) /\
  Pad_init (Online [1; 1] 3 0 true) {[ "default"%string := 1%Z ]} None
    ([] : list nat) [sample_data]
  = Ok (Pad [] ∅ {[ "default"%string := 1%Z ]} (Online [1; 1] 3 0 true)) /\
  exists bs it' h1 outs p' h2,
    run (Online [1; 1] 3 0 true) [sample_data] = Ok (bs, it', h1) /\
    run (Pad [] ∅ {[ "default"%string := 1%Z ]} (Online [1; 1] 3 0 true))
      [sample_data] = Ok (outs, p', h2) /\
    Forall2 (decorated {[ "default"%string := 1%Z ]} (Pad_post ∅)) bs outs.
Proof.
  assert (Hpos : forall name size,
     ({[ "default"%string := 1%Z ]} : gmap string Z) !! name = Some size ->
     (0 < size)%Z).
  { intros name size Hname. apply lookup_singleton_Some in Hname as [_ <-].
    lia. }
  split; [exact Online_sample_constructed|]. split; [exact Hpos|].
  split; [reflexivity|].
  apply (Pad_pass true [1; 1] sample_data [] (Online [1; 1] 3 0 true)
           [sample_data] {[ "default"%string := 1%Z ]} None ([] : list nat));
    [exact Online_sample_constructed | exact Hpos | reflexivity].
Defined.

Lemma AddGaussianNoise_pass_witness :
  (Online_init true [1; 1] sample_data []
     = Ok (Online [1; 1] 3 0 true, [sample_data]) \/
   (exists k, k <> 0%Z /\
      Minibatches_init k true [1; 1] sample_data []
        = Ok (Online [1; 1] 3 0 true, [sample_data]))) /\
  AddGaussianNoise_init (Online [1; 1] 3 0 true)
    {[ "default"%string := 1%Q ]} None ([4] : list nat) [sample_data]
  = Ok (AddGaussianNoise [4] ∅ {[ "default"%string := 1%Q ]}
          (Online [1; 1] 3 0 true)) /\
  exists bs it' h1 outs rnd' h2,
    run (Online [1; 1] 3 0 true) [sample_data] = Ok (bs, it', h1) /\
    run (AddGaussianNoise [4] ∅ {[ "default"%string := 1%Q ]}
           (Online [1; 1] 3 0 true)) [sample_data]
      = Ok (outs, AddGaussianNoise rnd' ∅ {[ "default"%string := 1%Q ]} it',
            h2) /\
    pass_from
      (decorated_from {[ "default"%string := 1%Q ]}
         (AddGaussianNoise_step ∅)) bs outs [4] rnd'.
Proof.
  split; [exact Online_sample_constructed|]. split; [reflexivity|].
  apply (AddGaussianNoise_pass true [1; 1] sample_data []
           (Online [1; 1] 3 0 true) [sample_data]
           {[ "default"%string := 1%Q ]} None ([4] : list nat));
    [exact Online_sample_constructed | reflexivity].
Defined.

Lemma dataset_unchanged_over_copies_witness :
  let p : iterator (list nat) :=
    Pad [] ∅ {[ "default"%string := 1%Z ]} (Online [1; 1] 3 0 true) in
  copies_batches (call p) = true /\
  (forall m batches g h',
     pull m (call p) [sample_data] = Ok (batches, g, h') ->
     (forall r, r < length [sample_data] -> h' !! r = [sample_data] !! r) /\
     (data_names p < length [sample_data] ->
      deref h' (data_names p) = deref [sample_data] (data_names p))) /\
  (forall batches p' h',
     run p [sample_data] = Ok (batches, p', h') ->
     (forall r, r < length [sample_data] -> h' !! r = [sample_data] !! r) /\
     (data_names p < length [sample_data] ->
      deref h' (data_names p) = deref [sample_data] (data_names p))).
Proof.
  intros p. split; [reflexivity|].
  apply (dataset_unchanged_over_copies p [sample_data]). reflexivity.
Defined.

Lemma Online_prints_whole_bar_witness :
  tracks_fraction trunc_scale (Z.of_nat 3) (String.length default_bar) /\
  Online_stdout trunc_scale "0:00:01.0" None true 3
  = Ok (Some (default_prefix +:+ default_bar +:+
              default_suffix "0:00:01.0")).
Proof.
  split; [apply trunc_scale_tracks_default; lia|].
  apply (Online_prints_whole_bar trunc_scale "0:00:01.0" None true 3);
    [reflexivity | lia | apply trunc_scale_tracks_default; lia].
Defined.

Lemma Minibatches_prints_whole_bar_witness :
  tracks_fraction trunc_scale (Z.of_nat 3) (String.length default_bar) /\
  Minibatches_stdout trunc_scale "0:00:01.0" None true 3 2
  = Ok (Some (default_prefix +:+ default_bar +:+
              default_suffix "0:00:01.0")).
Proof.
  split; [apply trunc_scale_tracks_default; lia|].
  apply (Minibatches_prints_whole_bar trunc_scale "0:00:01.0" None true 3 2);
    [reflexivity | lia | lia | apply trunc_scale_tracks_default; lia].
Defined.

Lemma quiet_pass_prints_nothing_witness :
  Online_stdout trunc_scale "0:00:01.0" (Some false) true 3
    = Ok (Some ""%string) /\
  (2%Z <> 0%Z ->
   Minibatches_stdout trunc_scale "0:00:01.0" (Some false) true 3 2
     = Ok (Some ""%string)).
Proof.
  apply (quiet_pass_prints_nothing trunc_scale "0:00:01.0" (Some false)
           true 3 2).
  reflexivity.
Defined.

Lemma pass_without_batches_leaves_bar_open_witness :
  Online_stdout trunc_scale "0:00:01.0" None true 0
    = Ok (Some default_prefix) /\
  Minibatches_stdout trunc_scale "0:00:01.0" None true 3 (-2)
    = Ok (Some default_prefix).
Proof.
  destruct (pass_without_batches_leaves_bar_open trunc_scale "0:00:01.0"
              None true 3 (-2) eq_refl) as [Honline Hmini].
  split; [exact Honline|]. apply Hmini. left. lia.
Defined.
